(** * QuickBudget: the budget engine and the settings manager

    A shallow embedding of [src/core/budget_calculator.py] and
    [src/core/settings_manager.py].

    - A pandas DataFrame with the default [RangeIndex] (as produced by
      [pd.read_csv] and by [DataFrame.copy]) is a list of row records; the
      row label is the position.  The empty DataFrame is the empty list and
      a [None] argument is [None].
    - [df.loc[i, col] = v] is an in-place update of row [i]; the loops of
      the engine are folds that thread the table through every iteration,
      as the Python code does.
    - A Python exception is a value of [exn]; a stage returns [Ok table]
      or [Raise e].
    - The stage sequence is embedded a second time on a store of shared
      frames, where a stage receives references and [copy] and the
      assignments are operations on the store; it is proved to return
      what the stages on tables return and to leave its arguments as
      they were.
    - A numeric cell is a number of the arithmetic in use; a cell that
      pandas reads as an integer is the float of the same value.
    - Arithmetic is kept behind the interface [Arith]: the stages only use
      [+], [-], [*] and three literals.  The instance [float_arith] is
      IEEE-754 binary64, the arithmetic of Python floats and of pandas
      float64 columns. *)

From Stdlib Require Import ZArith Floats.
From stdpp Require Import base option list gmap strings.

Set Default Proof Using "Type".
Set Warnings "-inexact-float".
Local Open Scope string_scope.
Local Open Scope nat_scope.
Local Open Scope list_scope.

(** ** Exceptions and results *)

Inductive pykey :=
| KStr (s : string)
| KRow (i : nat).

Inductive exn :=
| KeyError (k : pykey)
| IndexError
| ValueError
| TypeError
| OverflowError.

Inductive result (A : Type) :=
| Ok (a : A)
| Raise (e : exn).
Arguments Ok {A} a.
Arguments Raise {A} e.

#[global] Instance result_ret : MRet result := @Ok.
#[global] Instance result_bind : MBind result := λ A B f m,
  match m with
  | Ok a => f a
  | Raise e => Raise e
  end.

(** ** The arithmetic interface *)

Class Arith (num : Type) := {
  nadd : num → num → num;
  nsub : num → num → num;
  nmul : num → num → num;
  zero : num;        (* the literal 0.0 *)
  one : num;         (* the literal 1 *)
  cogs_ratio : num;  (* the literal 0.6 *)
  nan : num          (* what pandas fills in for a missing label *)
}.

#[global] Instance float_arith : Arith float := {
  nadd := PrimFloat.add;
  nsub := PrimFloat.sub;
  nmul := PrimFloat.mul;
  zero := 0%float;
  one := 1%float;
  cogs_ratio := 0.6%float;
  nan := PrimFloat.nan
}.

(** ** Tables *)

Section Engine.
Context {num : Type} {A : Arith num}.

(** The input table: one row per quarter. *)
Record period := {
  quarter : string;
  sales_units : num;
  unit_price : num
}.

(** [compute_sales_revenue] copies the input and adds one column. *)
Record sales_row := {
  sr_period : period;
  sales_revenue : num
}.

(** [compute_collections] copies the sales table and adds one column. *)
Record collections_row := {
  cr_sales : sales_row;
  collections : num
}.

(** [compute_purchases] copies the sales table and adds four columns. *)
Record purchases_row := {
  pr_sales : sales_row;
  desired_ending_inventory : num;
  beginning_inventory : num;
  purchases_units : num;
  purchases_cost : num
}.

(** [compute_cash_budget] copies the collections table and adds three
    columns. *)
Record cash_row := {
  cb_collections : collections_row;
  disbursements : num;
  beginning_cash : num;
  ending_cash : num
}.

Record income_row := {
  is_quarter : string;
  total_revenue : num;
  total_cogs : num;
  gross_profit : num
}.

Record balance_row := {
  bs_quarter : string;
  cash : num;
  inventory : num;
  receivables : num;
  total_assets : num;
  external_financing : num;
  equity : num;
  liabilities_equity : num
}.

(** Cell writes [df.loc[i, col] = v], one setter per written column. *)
Definition set_collections (v : num) (r : collections_row) : collections_row :=
  {| cr_sales := cr_sales r; collections := v |}.

Definition set_desired_ending_inventory (v : num) (r : purchases_row) : purchases_row :=
  {| pr_sales := pr_sales r;
     desired_ending_inventory := v;
     beginning_inventory := beginning_inventory r;
     purchases_units := purchases_units r;
     purchases_cost := purchases_cost r |}.

Definition set_beginning_inventory (v : num) (r : purchases_row) : purchases_row :=
  {| pr_sales := pr_sales r;
     desired_ending_inventory := desired_ending_inventory r;
     beginning_inventory := v;
     purchases_units := purchases_units r;
     purchases_cost := purchases_cost r |}.

Definition set_purchases_units (v : num) (r : purchases_row) : purchases_row :=
  {| pr_sales := pr_sales r;
     desired_ending_inventory := desired_ending_inventory r;
     beginning_inventory := beginning_inventory r;
     purchases_units := v;
     purchases_cost := purchases_cost r |}.

Definition set_purchases_cost (v : num) (r : purchases_row) : purchases_row :=
  {| pr_sales := pr_sales r;
     desired_ending_inventory := desired_ending_inventory r;
     beginning_inventory := beginning_inventory r;
     purchases_units := purchases_units r;
     purchases_cost := v |}.

Definition set_disbursements (v : num) (r : cash_row) : cash_row :=
  {| cb_collections := cb_collections r;
     disbursements := v;
     beginning_cash := beginning_cash r;
     ending_cash := ending_cash r |}.

Definition set_ending_cash (v : num) (r : cash_row) : cash_row :=
  {| cb_collections := cb_collections r;
     disbursements := disbursements r;
     beginning_cash := beginning_cash r;
     ending_cash := v |}.

(** ** Access to settings, rows and cells *)

(** [self.settings[key]]: a missing key raises [KeyError]. *)
Definition setting (settings : gmap string num) (key : string) : result num :=
  match settings !! key with
  | Some v => Ok v
  | None => Raise (KeyError (KStr key))
  end.

(** [df.loc[i, ...]] read: a missing row label raises [KeyError]. *)
Definition loc {R : Type} (df : list R) (i : nat) : result R :=
  match df !! i with
  | Some r => Ok r
  | None => Raise (KeyError (KRow i))
  end.

(** [df.loc[i, col] = v]: the engine only writes labels that [iterrows]
    of the same table has just yielded, so the row exists. *)
Definition loc_set {R : Type} (i : nat) (f : R → R) (df : list R) : list R :=
  alter f i df.

(** [series.iloc[i]] and [lst[i]] on a Python list, for [i >= 0]. *)
Definition iloc {R : Type} (l : list R) (i : nat) : result R :=
  match l !! i with
  | Some r => Ok r
  | None => Raise IndexError
  end.

(** [for i, row in df.iterrows(): body]: the rows are read off the table
    once, when the loop starts; the body threads the table it mutates. *)
Fixpoint iterrows_from {R T : Type} (body : nat → R → T → result T)
    (i : nat) (rows : list R) (t : T) : result T :=
  match rows with
  | [] => Ok t
  | row :: rest => t' ← body i row t; iterrows_from body (S i) rest t'
  end.

Definition iterrows {R T : Type} (df : list R)
    (body : nat → R → T → result T) (t : T) : result T :=
  iterrows_from body 0 df t.

(** [df is None or df.empty] *)
Definition is_none_or_empty {R : Type} (df : option (list R)) : bool :=
  match df with
  | None | Some [] => true
  | Some (_ :: _) => false
  end.

Definition frame {R : Type} (df : option (list R)) : list R :=
  match df with
  | Some rows => rows
  | None => []
  end.

(** ** The stages of [BudgetCalculator] *)

Definition compute_sales_revenue (data : option (list period)) : result (list sales_row) :=
  if is_none_or_empty data then Ok []
  else Ok ((λ p, {| sr_period := p;
                   sales_revenue := nmul (sales_units p) (unit_price p) |})
             <$> frame data).

Definition collections_body (settings : gmap string num) (i : nat)
    (row : collections_row) (df : list collections_row) : result (list collections_row) :=
  let current_revenue := sales_revenue (cr_sales row) in
  cur ← loc df i;
  cc ← setting settings "sales_collection_current";
  let df := loc_set i (set_collections (nadd (collections cur) (nmul current_revenue cc))) df in
  if 0 <? i then
    prev ← loc df (i - 1);
    let prev_revenue := sales_revenue (cr_sales prev) in
    cur ← loc df i;
    cn ← setting settings "sales_collection_next";
    Ok (loc_set i (set_collections (nadd (collections cur) (nmul prev_revenue cn))) df)
  else Ok df.

Definition compute_collections (settings : gmap string num)
    (sales_data : option (list sales_row)) : result (list collections_row) :=
  if is_none_or_empty sales_data then Ok []
  else
    let df := (λ s, {| cr_sales := s; collections := zero |}) <$> frame sales_data in
    iterrows df (collections_body settings) df.

Definition purchases_body (settings : gmap string num) (cost_per_unit : list num)
    (i : nat) (row : purchases_row) (df : list purchases_row) : result (list purchases_row) :=
  df ← (if i <? length df - 1 then
          nxt ← loc df (i + 1);
          let next_q_sales := sales_units (sr_period (pr_sales nxt)) in
          pct ← setting settings "ending_inventory_pct";
          Ok (loc_set i (set_desired_ending_inventory (nmul next_q_sales pct)) df)
        else Ok df);
  df ← (if 0 <? i then
          prev ← loc df (i - 1);
          Ok (loc_set i (set_beginning_inventory (desired_ending_inventory prev)) df)
        else Ok df);
  cur ← loc df i;
  let df := loc_set i (set_purchases_units
                         (nsub (nadd (sales_units (sr_period (pr_sales row)))
                                     (desired_ending_inventory cur))
                               (beginning_inventory cur))) df in
  cur ← loc df i;
  cpu ← iloc cost_per_unit i;
  Ok (loc_set i (set_purchases_cost (nmul (purchases_units cur) cpu)) df).

Definition compute_purchases (settings : gmap string num)
    (sales_data : option (list sales_row)) : result (list purchases_row) :=
  if is_none_or_empty sales_data then Ok []
  else
    let df := (λ s, {| pr_sales := s;
                      desired_ending_inventory := zero;
                      beginning_inventory := zero;
                      purchases_units := zero;
                      purchases_cost := zero |}) <$> frame sales_data in
    let cost_per_unit :=
      (λ r, nmul (unit_price (sr_period (pr_sales r))) cogs_ratio) <$> df in
    iterrows df (purchases_body settings cost_per_unit) df.

Definition cash_budget_body (settings : gmap string num) (purchases : list purchases_row)
    (i : nat) (row : cash_row) (df : list cash_row) : result (list cash_row) :=
  p ← loc purchases i;
  let current_purchases := purchases_cost p in
  cur ← loc df i;
  pay_cur ← setting settings "purchases_payment_current";
  let df := loc_set i (set_disbursements
                         (nadd (disbursements cur) (nmul current_purchases pay_cur))) df in
  df ← (if 0 <? i then
          pp ← loc purchases (i - 1);
          let prev_purchases := purchases_cost pp in
          cur ← loc df i;
          pay_next ← setting settings "purchases_payment_next";
          Ok (loc_set i (set_disbursements
                           (nadd (disbursements cur) (nmul prev_purchases pay_next))) df)
        else Ok df);
  if i =? 0 then
    bc ← setting settings "beginning_cash";
    cur ← loc df i;
    Ok (loc_set i (set_ending_cash
                     (nsub (nadd bc (collections (cb_collections row)))
                           (disbursements cur))) df)
  else
    prev ← loc df (i - 1);
    cur ← loc df i;
    Ok (loc_set i (set_ending_cash
                     (nsub (nadd (ending_cash prev) (collections (cb_collections row)))
                           (disbursements cur))) df).

Definition compute_cash_budget (settings : gmap string num)
    (collections : option (list collections_row))
    (purchases : option (list purchases_row)) : result (list cash_row) :=
  if is_none_or_empty collections || is_none_or_empty purchases then Ok []
  else
    bc ← setting settings "beginning_cash";
    let df := (λ c, {| cb_collections := c;
                      disbursements := zero;
                      beginning_cash := bc;
                      ending_cash := zero |}) <$> frame collections in
    iterrows df (cash_budget_body settings (frame purchases)) df.

Definition compute_income_statement (sales_data : option (list sales_row))
    : result (list income_row) :=
  if is_none_or_empty sales_data then Ok []
  else
    Ok ((λ s,
          let p := sr_period s in
          let total_revenue := nmul (sales_units p) (unit_price p) in
          let cost_per_unit := nmul (unit_price p) cogs_ratio in
          let total_cogs := nmul (sales_units p) cost_per_unit in
          {| is_quarter := quarter p;
             total_revenue := total_revenue;
             total_cogs := total_cogs;
             gross_profit := nsub total_revenue total_cogs |})
         <$> frame sales_data).

(** The receivables loop appends to a Python list. *)
Definition receivables_body (settings : gmap string num) (sales_data : list sales_row)
    (i : nat) (row : sales_row) (receivables : list num) : result (list num) :=
  if i =? 0 then
    cc ← setting settings "sales_collection_current";
    Ok (receivables ++ [nmul (sales_revenue row) (nsub one cc)])
  else
    prev_uncollected ← iloc receivables (i - 1);
    cc ← setting settings "sales_collection_current";
    let current_uncollected := nmul (sales_revenue row) (nsub one cc) in
    prev ← loc sales_data (i - 1);
    cn ← setting settings "sales_collection_next";
    Ok (receivables ++ [nsub (nadd prev_uncollected current_uncollected)
                             (nmul (sales_revenue prev) cn)]).

(** A column assigned to [balance_sheet] is aligned on the row labels of
    [sales_data]: a label the source table lacks yields a missing value. *)
Definition aligned {R : Type} (f : R → num) (src : list R) (i : nat) : num :=
  match src !! i with
  | Some r => f r
  | None => nan
  end.

Definition balance_sheet_row (ratio : num) (cash_budget : list cash_row)
    (purchases : list purchases_row) (receivables : list num)
    (i : nat) (s : sales_row) : balance_row :=
  let cash := aligned ending_cash cash_budget i in
  let inventory :=
    aligned (λ p, nmul (desired_ending_inventory p)
                       (nmul (unit_price (sr_period s)) cogs_ratio)) purchases i in
  let receivables := aligned id receivables i in
  let total_assets := nadd (nadd cash inventory) receivables in
  let external_financing := nmul total_assets ratio in
  let equity := nsub total_assets external_financing in
  {| bs_quarter := quarter (sr_period s);
     cash := cash;
     inventory := inventory;
     receivables := receivables;
     total_assets := total_assets;
     external_financing := external_financing;
     equity := equity;
     liabilities_equity := nadd external_financing equity |}.

Definition compute_balance_sheet (settings : gmap string num)
    (cash_budget : option (list cash_row))
    (purchases : option (list purchases_row))
    (sales_data : option (list sales_row)) : result (list balance_row) :=
  if is_none_or_empty cash_budget || is_none_or_empty purchases
     || is_none_or_empty sales_data then Ok []
  else
    let sd := frame sales_data in
    receivables ← iterrows sd (receivables_body settings sd) [];
    ratio ← setting settings "external_financing_ratio";
    Ok (imap (balance_sheet_row ratio (frame cash_budget) (frame purchases) receivables) sd).

End Engine.

(** ** The stage sequence of the application

    [MainWindow.save_all_reports] runs the six stages in this order on
    [self.data], each stage receiving the frames the earlier ones
    returned. *)

Section Pipeline.
Context {num : Type} {A : Arith num}.

(** A [BudgetCalculator] object: [__init__] stores the settings. *)
Record BudgetCalculator := {
  calc_settings : gmap string num
}.

Record reports := {
  cash_budget_report : list (cash_row (num := num));
  income_statement_report : list (income_row (num := num));
  balance_sheet_report : list (balance_row (num := num))
}.

Definition run_pipeline (self : BudgetCalculator) (data : option (list period))
    : result reports :=
  let settings := calc_settings self in
  sales_data ← compute_sales_revenue data;
  collections ← compute_collections settings (Some sales_data);
  purchases ← compute_purchases settings (Some sales_data);
  cash_budget ← compute_cash_budget settings (Some collections) (Some purchases);
  income_stmt ← compute_income_statement (Some sales_data);
  balance_sheet ← compute_balance_sheet settings (Some cash_budget) (Some purchases)
                                        (Some sales_data);
  Ok {| cash_budget_report := cash_budget;
        income_statement_report := income_stmt;
        balance_sheet_report := balance_sheet |}.

End Pipeline.

(** ** The stage sequence on shared frames

    A DataFrame is a mutable object and a Python name is a reference to
    it: [save_all_reports] hands the one frame [sales_data] to three
    stages, and every stage works on a frame it has copied or created.
    Below, the frames live in a store, a stage receives references, and
    [copy], column assignment and [df.loc[i, col] = v] are operations on
    the store; the settings dict of the calculator is part of the store
    as well.  Every stage is written again on the store, statement by
    statement; the column assignments that follow a [copy] are one
    operation, as no statement between them reads the frame.

    A frame of the stage sequence has one of seven column sets
    ([NoColumns] is [pd.DataFrame()]).  The sequence passes every stage
    the column set it reads; for a frame of another shape the operations
    below answer [KeyError] for a column of the shape they expect. *)

Section Store.
Context {num : Type} {A : Arith num}.

Inductive table :=
| NoColumns
| Periods (rows : list (period (num := num)))
| Sales (rows : list (sales_row (num := num)))
| Collections (rows : list (collections_row (num := num)))
| Purchases (rows : list (purchases_row (num := num)))
| CashBudget (rows : list (cash_row (num := num)))
| IncomeStatement (rows : list (income_row (num := num)))
| BalanceSheet (rows : list (balance_row (num := num))).

(** [len(df)] *)
Definition table_len (t : table) : nat :=
  match t with
  | NoColumns => 0
  | Periods rows => length rows
  | Sales rows => length rows
  | Collections rows => length rows
  | Purchases rows => length rows
  | CashBudget rows => length rows
  | IncomeStatement rows => length rows
  | BalanceSheet rows => length rows
  end.

(** A reference is the position of the frame in the store. *)
Definition ref := nat.

Record store := {
  frames : list table;
  calc_dict : gmap string num   (* [self.settings] of the calculator *)
}.

(** A computation on the store: what it returns or raises, and the store
    it leaves. *)
Definition M (X : Type) : Type := store → result X * store.

Definition hret {X : Type} (x : X) : M X := λ h, (Ok x, h).

Definition hbind {X Y : Type} (m : M X) (k : X → M Y) : M Y := λ h,
  match m h with
  | (Ok x, h') => k x h'
  | (Raise e, h') => (Raise e, h')
  end.

Definition hlift {X : Type} (r : result X) : M X := λ h, (r, h).

(** A column set as a row type. *)
Record shape (R : Type) := {
  of_rows : list R → table;
  as_rows : table → option (list R);
  column : string
}.
Arguments of_rows {R} _ _.
Arguments as_rows {R} _ _.
Arguments column {R} _.

Definition periods_shape : shape (period (num := num)) :=
  {| of_rows := Periods;
     as_rows := λ t, match t with Periods rows => Some rows | _ => None end;
     column := "sales_units" |}.

Definition sales_shape : shape (sales_row (num := num)) :=
  {| of_rows := Sales;
     as_rows := λ t, match t with Sales rows => Some rows | _ => None end;
     column := "sales_revenue" |}.

Definition collections_shape : shape (collections_row (num := num)) :=
  {| of_rows := Collections;
     as_rows := λ t, match t with Collections rows => Some rows | _ => None end;
     column := "collections" |}.

Definition purchases_shape : shape (purchases_row (num := num)) :=
  {| of_rows := Purchases;
     as_rows := λ t, match t with Purchases rows => Some rows | _ => None end;
     column := "purchases_cost" |}.

Definition cash_shape : shape (cash_row (num := num)) :=
  {| of_rows := CashBudget;
     as_rows := λ t, match t with CashBudget rows => Some rows | _ => None end;
     column := "ending_cash" |}.

Definition income_shape : shape (income_row (num := num)) :=
  {| of_rows := IncomeStatement;
     as_rows := λ t, match t with IncomeStatement rows => Some rows | _ => None end;
     column := "gross_profit" |}.

Definition balance_shape : shape (balance_row (num := num)) :=
  {| of_rows := BalanceSheet;
     as_rows := λ t, match t with BalanceSheet rows => Some rows | _ => None end;
     column := "liabilities_equity" |}.

(** The frame a reference names. *)
Definition frame_at (h : store) (r : ref) : table :=
  default NoColumns (frames h !! r).

(** The frame at [r] is replaced: an assignment to the object. *)
Definition put_frame (r : ref) (t : table) (h : store) : store :=
  {| frames := <[r := t]> (frames h); calc_dict := calc_dict h |}.

(** The store with one more frame. *)
Definition extend (h : store) (t : table) : store :=
  {| frames := frames h ++ [t]; calc_dict := calc_dict h |}.

(** [pd.DataFrame()] and [df.copy()] create an object. *)
Definition halloc (t : table) : M ref := λ h, (Ok (length (frames h)), extend h t).

Definition hcopy (r : ref) : M ref := λ h, halloc (frame_at h r) h.

(** The rows of a frame, read with the columns of [S]. *)
Definition hrows {R : Type} (S : shape R) (r : ref) : M (list R) := λ h,
  match as_rows S (frame_at h r) with
  | Some rows => (Ok rows, h)
  | None => (Raise (KeyError (KStr (column S))), h)
  end.

(** [df[col] = values]: the frame gets the columns of [T]. *)
Definition hassign {R R' : Type} (S : shape R) (T : list R' → table)
    (r : ref) (f : list R → list R') : M () :=
  hbind (hrows S r) (λ rows h, (Ok (), put_frame r (T (f rows)) h)).

(** [df.loc[i, col]] and [df.loc[i, col] = v] on the frame at [r]. *)
Definition hloc {R : Type} (S : shape R) (r : ref) (i : nat) : M R :=
  hbind (hrows S r) (λ rows, hlift (loc rows i)).

Definition hloc_set {R : Type} (S : shape R) (r : ref) (i : nat) (f : R → R) : M () :=
  hbind (hrows S r) (λ rows h, (Ok (), put_frame r (of_rows S (loc_set i f rows)) h)).

(** [self.settings[key]] *)
Definition hsetting (key : string) : M num := λ h, (setting (calc_dict h) key, h).

(** [df is None or df.empty] *)
Definition hempty (df : option ref) : M bool := λ h,
  match df with
  | None => (Ok true, h)
  | Some r => (Ok (table_len (frame_at h r) =? 0), h)
  end.

(** [for i, row in df.iterrows(): body]; the rows are a snapshot. *)
Fixpoint hiterrows_from {R T : Type} (body : nat → R → T → M T)
    (i : nat) (rows : list R) (t : T) : M T :=
  match rows with
  | [] => hret t
  | row :: rest => hbind (body i row t) (hiterrows_from body (S i) rest)
  end.

Definition hiterrows {R T : Type} (rows : list R) (body : nat → R → T → M T) (t : T)
    : M T :=
  hiterrows_from body 0 rows t.

End Store.

Arguments of_rows {num R} _ _.
Arguments as_rows {num R} _ _.
Arguments column {num R} _.

Notation "'let!' x := m 'in' k" := (hbind m (λ x, k))
  (at level 10, x name, m at level 200, k at level 200,
   format "'[' 'let!'  x  :=  m  'in'  '/' k ']'").

Section StoreStages.
Context {num : Type} {A : Arith num}.

Definition compute_sales_revenue_h (data : option ref) : M ref :=
  let! empty := hempty data in
  if empty then halloc NoColumns
  else
    let! sales_data := hcopy (default 0 data) in
    let! _ := hassign periods_shape Sales sales_data
          (fmap (λ p, {| sr_period := p;
                         sales_revenue := nmul (sales_units p) (unit_price p) |})) in
    hret sales_data.

Definition collections_body_h (df : ref) (i : nat) (row : collections_row (num := num)) (_ : ())
    : M () :=
  let current_revenue := sales_revenue (cr_sales row) in
  let! cur := hloc collections_shape df i in
  let! cc := hsetting "sales_collection_current" in
  let! _ := hloc_set collections_shape df i
        (set_collections (nadd (collections cur) (nmul current_revenue cc))) in
  if 0 <? i then
    let! prev := hloc collections_shape df (i - 1) in
    let prev_revenue := sales_revenue (cr_sales prev) in
    let! cur := hloc collections_shape df i in
    let! cn := hsetting "sales_collection_next" in
    hloc_set collections_shape df i
      (set_collections (nadd (collections cur) (nmul prev_revenue cn)))
  else hret ().

Definition compute_collections_h (sales_data : option ref) : M ref :=
  let! empty := hempty sales_data in
  if empty then halloc NoColumns
  else
    let! df := hcopy (default 0 sales_data) in
    let! _ := hassign sales_shape Collections df
          (fmap (λ s, {| cr_sales := s; collections := zero |})) in
    let! rows := hrows collections_shape df in
    let! _ := hiterrows rows (collections_body_h df) () in
    hret df.

Definition purchases_body_h (df : ref) (cost_per_unit : list num)
    (i : nat) (row : purchases_row (num := num)) (_ : ()) : M () :=
  let! rows := hrows purchases_shape df in
  let! _ := (if i <? length rows - 1 then
         let! nxt := hloc purchases_shape df (i + 1) in
         let next_q_sales := sales_units (sr_period (pr_sales nxt)) in
         let! pct := hsetting "ending_inventory_pct" in
         hloc_set purchases_shape df i
           (set_desired_ending_inventory (nmul next_q_sales pct))
       else hret ()) in
  let! _ := (if 0 <? i then
         let! prev := hloc purchases_shape df (i - 1) in
         hloc_set purchases_shape df i
           (set_beginning_inventory (desired_ending_inventory prev))
       else hret ()) in
  let! cur := hloc purchases_shape df i in
  let! _ := hloc_set purchases_shape df i
        (set_purchases_units
           (nsub (nadd (sales_units (sr_period (pr_sales row)))
                       (desired_ending_inventory cur))
                 (beginning_inventory cur))) in
  let! cur := hloc purchases_shape df i in
  let! cpu := hlift (iloc cost_per_unit i) in
  hloc_set purchases_shape df i (set_purchases_cost (nmul (purchases_units cur) cpu)).

Definition compute_purchases_h (sales_data : option ref) : M ref :=
  let! empty := hempty sales_data in
  if empty then halloc NoColumns
  else
    let! df := hcopy (default 0 sales_data) in
    let! _ := hassign sales_shape Purchases df
          (fmap (λ s, {| pr_sales := s;
                         desired_ending_inventory := zero;
                         beginning_inventory := zero;
                         purchases_units := zero;
                         purchases_cost := zero |})) in
    let! rows := hrows purchases_shape df in
    let cost_per_unit :=
      (λ r, nmul (unit_price (sr_period (pr_sales r))) cogs_ratio) <$> rows in
    let! _ := hiterrows rows (purchases_body_h df cost_per_unit) () in
    hret df.

Definition cash_budget_body_h (df purchases : ref)
    (i : nat) (row : cash_row (num := num)) (_ : ()) : M () :=
  let! p := hloc purchases_shape purchases i in
  let current_purchases := purchases_cost p in
  let! cur := hloc cash_shape df i in
  let! pay_cur := hsetting "purchases_payment_current" in
  let! _ := hloc_set cash_shape df i
        (set_disbursements (nadd (disbursements cur) (nmul current_purchases pay_cur))) in
  let! _ := (if 0 <? i then
         let! pp := hloc purchases_shape purchases (i - 1) in
         let prev_purchases := purchases_cost pp in
         let! cur := hloc cash_shape df i in
         let! pay_next := hsetting "purchases_payment_next" in
         hloc_set cash_shape df i
           (set_disbursements (nadd (disbursements cur) (nmul prev_purchases pay_next)))
       else hret ()) in
  if i =? 0 then
    let! bc := hsetting "beginning_cash" in
    let! cur := hloc cash_shape df i in
    hloc_set cash_shape df i
      (set_ending_cash (nsub (nadd bc (collections (cb_collections row)))
                             (disbursements cur)))
  else
    let! prev := hloc cash_shape df (i - 1) in
    let! cur := hloc cash_shape df i in
    hloc_set cash_shape df i
      (set_ending_cash (nsub (nadd (ending_cash prev) (collections (cb_collections row)))
                             (disbursements cur))).

Definition compute_cash_budget_h (collections purchases : option ref) : M ref :=
  let! empty_c := hempty collections in
  let! empty_p := hempty purchases in
  if empty_c || empty_p then halloc NoColumns
  else
    let! df := hcopy (default 0 collections) in
    let! bc := hsetting "beginning_cash" in
    let! _ := hassign collections_shape CashBudget df
          (fmap (λ c, {| cb_collections := c;
                         disbursements := zero;
                         beginning_cash := bc;
                         ending_cash := zero |})) in
    let! rows := hrows cash_shape df in
    let! _ := hiterrows rows (cash_budget_body_h df (default 0 purchases)) () in
    hret df.

Definition compute_income_statement_h (sales_data : option ref) : M ref :=
  let! empty := hempty sales_data in
  if empty then halloc NoColumns
  else
    let! income_stmt := halloc NoColumns in
    let! _ := (let! rows := hrows sales_shape (default 0 sales_data) in
         λ h, (Ok (),
               put_frame income_stmt
                 (IncomeStatement
                    ((λ s,
                       let p := sr_period s in
                       let total_revenue := nmul (sales_units p) (unit_price p) in
                       let cost_per_unit := nmul (unit_price p) cogs_ratio in
                       let total_cogs := nmul (sales_units p) cost_per_unit in
                       {| is_quarter := quarter p;
                          total_revenue := total_revenue;
                          total_cogs := total_cogs;
                          gross_profit := nsub total_revenue total_cogs |})
                     <$> rows)) h)) in
    hret income_stmt.

(** The receivables are appended to a list of the stage's own. *)
Definition receivables_body_h (sales_data : ref)
    (i : nat) (row : sales_row (num := num)) (receivables : list num) : M (list num) :=
  if i =? 0 then
    let! cc := hsetting "sales_collection_current" in
    hret (receivables ++ [nmul (sales_revenue row) (nsub one cc)])
  else
    let! prev_uncollected := hlift (iloc receivables (i - 1)) in
    let! cc := hsetting "sales_collection_current" in
    let current_uncollected := nmul (sales_revenue row) (nsub one cc) in
    let! prev := hloc sales_shape sales_data (i - 1) in
    let! cn := hsetting "sales_collection_next" in
    hret (receivables ++ [nsub (nadd prev_uncollected current_uncollected)
                               (nmul (sales_revenue prev) cn)]).

Definition compute_balance_sheet_h (cash_budget purchases sales_data : option ref)
    : M ref :=
  let! empty_c := hempty cash_budget in
  let! empty_p := hempty purchases in
  let! empty_s := hempty sales_data in
  if empty_c || empty_p || empty_s then halloc NoColumns
  else
    let! balance_sheet := halloc NoColumns in
    let! sd := hrows sales_shape (default 0 sales_data) in
    let! cb := hrows cash_shape (default 0 cash_budget) in
    let! pu := hrows purchases_shape (default 0 purchases) in
    let! receivables := hiterrows sd (receivables_body_h (default 0 sales_data)) [] in
    let! ratio := hsetting "external_financing_ratio" in
    let! _ := (λ h, (Ok (),
               put_frame balance_sheet
                 (BalanceSheet (imap (balance_sheet_row ratio cb pu receivables) sd)) h)) in
    hret balance_sheet.

(** The references [save_all_reports] exports. *)
Record report_refs := {
  cash_budget_ref : ref;
  income_statement_ref : ref;
  balance_sheet_ref : ref
}.

Definition run_pipeline_h (data : option ref) : M report_refs :=
  let! sales_data := compute_sales_revenue_h data in
  let! collections := compute_collections_h (Some sales_data) in
  let! purchases := compute_purchases_h (Some sales_data) in
  let! cash_budget := compute_cash_budget_h (Some collections) (Some purchases) in
  let! income_stmt := compute_income_statement_h (Some sales_data) in
  let! balance_sheet := compute_balance_sheet_h (Some cash_budget) (Some purchases)
                    (Some sales_data) in
  hret {| cash_budget_ref := cash_budget;
          income_statement_ref := income_stmt;
          balance_sheet_ref := balance_sheet |}.

(** The reports as the caller reads them off the store. *)
Definition rows_at {R : Type} (S : shape (num := num) R) (h : store (num := num))
    (r : ref) : list R :=
  default [] (as_rows S (frame_at h r)).

Definition read_reports (h : store) (r : result report_refs) : result reports :=
  match r with
  | Ok refs =>
      Ok {| cash_budget_report := rows_at cash_shape h (cash_budget_ref refs);
            income_statement_report := rows_at income_shape h (income_statement_ref refs);
            balance_sheet_report := rows_at balance_shape h (balance_sheet_ref refs) |}
  | Raise e => Raise e
  end.

(** ** What the store holds

    [holds S h r rows]: the reference [r] names a frame of the store
    [h] with the rows [rows] in the columns of [S]; a frame without rows
    may also be [pd.DataFrame()]. *)
Definition holds {R : Type} (S : shape (num := num) R) (h : store (num := num))
    (r : ref) (rows : list R) : Prop :=
  r < length (frames h)
  ∧ (frame_at h r = of_rows S rows ∨ (rows = [] ∧ frame_at h r = NoColumns)).

(** The argument [self.data]: [None], or a reference to the input
    table. *)
Definition input_holds (h : store (num := num)) (data : option ref)
    (table : option (list period)) : Prop :=
  match data, table with
  | None, None => True
  | Some r, Some rows => holds periods_shape h r rows
  | _, _ => False
  end.

(** The store [h'] has the frames of [h], unchanged, maybe followed by
    new ones, and the same settings. *)
Definition store_extends (h h' : store (num := num)) : Prop :=
  frames h `prefix_of` frames h' ∧ calc_dict h' = calc_dict h.

(** [as_rows] reads back what [of_rows] wrote. *)
Definition shape_ok {R : Type} (S : shape (num := num) R) : Prop :=
  ∀ rows, as_rows S (of_rows S rows) = Some rows.

(** A loop on the frame at [df], run from the store [h0] with that frame
    replaced: it leaves [h0] with the frame replaced again, and what it
    returns is what the row computation [pure] returns. *)
Definition outcome {R : Type} (S : shape (num := num) R) (df : ref)
    (h0 : store (num := num)) (pure : result (list R)) (res : result () * store) : Prop :=
  ∃ t, res.2 = put_frame df (of_rows S t) h0
       ∧ match pure with
         | Ok t' => res.1 = Ok () ∧ t = t'
         | Raise e => res.1 = Raise e
         end.

(** A stage run from the store [h]: it adds one frame to the store and
    changes nothing else; when the row computation [pure] returns a table
    the stage returns the reference of the new frame, which holds that
    table. *)
Definition stage_result {R : Type} (S : shape (num := num) R)
    (h : store (num := num)) (pure : result (list R)) (res : result ref * store) : Prop :=
  ∃ t, res.2 = extend h t
       ∧ match pure with
         | Ok out =>
             res.1 = Ok (length (frames h))
             ∧ (t = of_rows S out ∨ (out = [] ∧ t = NoColumns))
         | Raise e => res.1 = Raise e
         end.

End StoreStages.

(** ** Python values and [float()] *)

Inductive pyval :=
| PyNone
| PyBool (b : bool)
| PyInt (z : Z)
| PyFloat (f : float)
| PyStr (s : string).

(** [float(n)] for an [int]: the nearest binary64 (ties to even), and
    [OverflowError] when that is out of range. *)
Definition float_of_int (z : Z) : result float :=
  match binary_normalize prec emax z 0 false with
  | S754_infinity _ => Raise OverflowError
  | sf => Ok (SF2Prim sf)
  end.

Module SettingsManager.
Section WithParser.

(** The grammar of float literals belongs to the interpreter:
    [parse_float s] is the value of [float(s)] for a string, or [None]
    where [float(s)] raises [ValueError]. *)
Variable parse_float : string → option float.

Definition py_float (v : pyval) : result float :=
  match v with
  | PyNone => Raise TypeError
  | PyBool b => Ok (if b then 1%float else 0%float)
  | PyInt z => float_of_int z
  | PyFloat f => Ok f
  | PyStr s =>
      match parse_float s with
      | Some f => Ok f
      | None => Raise ValueError
      end
  end.

Record t := {
  default_settings : gmap string pyval;
  settings : gmap string pyval
}.

(** The dict literal of [__init__]. *)
Definition DEFAULTS : gmap string pyval :=
  <["sales_collection_current" := PyFloat 0.6]>
  (<["sales_collection_next" := PyFloat 0.4]>
  (<["purchases_payment_current" := PyFloat 0.5]>
  (<["purchases_payment_next" := PyFloat 0.5]>
  (<["ending_inventory_pct" := PyFloat 0.2]>
  (<["external_financing_ratio" := PyFloat 0.3]>
  (<["working_capital_turnover" := PyFloat 2.0]>
  (<["beginning_cash" := PyInt 100000]> ∅))))))).

Definition init : t :=
  {| default_settings := DEFAULTS; settings := DEFAULTS |}.

Definition get_setting (self : t) (key : string) : pyval :=
  let fallback := default (PyFloat 0.0) (default_settings self !! key) in
  default fallback (settings self !! key).

(** [try: ... except (ValueError, TypeError): return False]: the two
    named exceptions become the return value [False]; any other
    exception leaves the method. *)
Definition set_setting (self : t) (key : string) (value : pyval) : result (bool * t) :=
  if decide (is_Some (default_settings self !! key)) then
    match py_float value with
    | Ok f =>
        Ok (true, {| default_settings := default_settings self;
                     settings := <[key := PyFloat f]> (settings self) |})
    | Raise ValueError | Raise TypeError => Ok (false, self)
    | Raise e => Raise e
    end
  else Ok (false, self).

Definition get_all_settings (self : t) : gmap string pyval := settings self.

End WithParser.
End SettingsManager.

(** ** Sample inputs *)

(** [DataManager.get_sample_data]. *)
Definition sample_data : list (period (num := float)) :=
  [ {| quarter := "Q1"; sales_units := 10000%float; unit_price := 20%float |};
    {| quarter := "Q2"; sales_units := 12000%float; unit_price := 20%float |};
    {| quarter := "Q3"; sales_units := 15000%float; unit_price := 20%float |};
    {| quarter := "Q4"; sales_units := 13000%float; unit_price := 20%float |} ].

(** The default settings as the calculator uses them: in float arithmetic
    the integer [100000] is [100000.0]. *)
Definition default_policy : gmap string float :=
  <["sales_collection_current" := 0.6%float]>
  (<["sales_collection_next" := 0.4%float]>
  (<["purchases_payment_current" := 0.5%float]>
  (<["purchases_payment_next" := 0.5%float]>
  (<["ending_inventory_pct" := 0.2%float]>
  (<["external_financing_ratio" := 0.3%float]>
  (<["working_capital_turnover" := 2%float]>
  (<["beginning_cash" := 100000%float]> ∅))))))).

(** The collection ratios of the four-quarter scenario. *)
Definition scenario_policy : gmap string float :=
  <["sales_collection_current" := 0.7%float]>
  (<["sales_collection_next" := 0.3%float]> default_policy).

(** One period, one unit at price one. *)
Definition unit_data : list (period (num := float)) :=
  [ {| quarter := "Q1"; sales_units := 1%float; unit_price := 1%float |} ].

(** The revenue table of the four-quarter scenario. *)
Definition sample_sales : list (sales_row (num := float)) :=
  [ {| sr_period := {| quarter := "Q1"; sales_units := 10000%float; unit_price := 20%float |};
       sales_revenue := 200000%float |};
    {| sr_period := {| quarter := "Q2"; sales_units := 12000%float; unit_price := 20%float |};
       sales_revenue := 240000%float |};
    {| sr_period := {| quarter := "Q3"; sales_units := 15000%float; unit_price := 20%float |};
       sales_revenue := 300000%float |};
    {| sr_period := {| quarter := "Q4"; sales_units := 13000%float; unit_price := 20%float |};
       sales_revenue := 260000%float |} ].

(** The tables the stages return on the sample under the default
    settings. *)
Definition sample_collections : list (collections_row (num := float)) :=
  Eval vm_compute in
    match compute_collections default_policy (Some sample_sales) with
    | Ok df => df
    | Raise _ => []
    end.

Definition sample_purchases : list (purchases_row (num := float)) :=
  Eval vm_compute in
    match compute_purchases default_policy (Some sample_sales) with
    | Ok df => df
    | Raise _ => []
    end.

Definition sample_cash_budget : list (cash_row (num := float)) :=
  Eval vm_compute in
    match compute_cash_budget default_policy (Some sample_collections)
            (Some sample_purchases) with
    | Ok df => df
    | Raise _ => []
    end.

(** A parser that accepts no string, for closed examples that pass
    numbers only. *)
Definition no_strings : string → option float := λ _, None.

(** ** Binary64 values that differ at most in the sign of a zero

    [x] and [y] are the same float, or [x] is [+0.0] and [y] is [-0.0]
    (which Python's [==] does not tell apart). *)
Definition same_but_zero_sign (x y : float) : Prop :=
  x = y ∨ (x = 0%float ∧ y = (-0)%float).

(** A binary64 value that is a number: neither an infinity nor NaN. *)
Definition finite64 (x : float) : bool :=
  match Prim2SF x with
  | S754_zero _ | S754_finite _ _ _ => true
  | S754_infinity _ | S754_nan => false
  end.

(** ** What the loops have computed after [k] iterations

    Each loop of the engine finishes one row per iteration.  The
    invariants below describe the table when rows [0 .. k-1] are done and
    the others still hold their initial cells. *)

Section Invariants.
Context {num : Type} {A : Arith num}.

(** The row before row [j], if there is one ([if i > 0: ... loc[i-1]]). *)
Definition prev_row {R : Type} (l : list R) (j : nat) : option R :=
  match j with
  | 0 => None
  | S j' => l !! j'
  end.

(** A cell that starts at [0.0] and receives [+= cur], then [+= prev * w]
    when there is a previous row. *)
Definition two_tap {R : Type} (f : R → num) (w_cur w_prev : num)
    (r : R) (prev : option R) : num :=
  let cur := nadd zero (nmul (f r) w_cur) in
  match prev with
  | Some p => nadd cur (nmul (f p) w_prev)
  | None => cur
  end.

Definition collections_inv (cc cn : num) (sd : list sales_row)
    (k : nat) (df : list collections_row) : Prop :=
  length df = length sd ∧
  ∀ j s, sd !! j = Some s →
    df !! j = Some {| cr_sales := s;
                      collections :=
                        if j <? k then two_tap sales_revenue cc cn s (prev_row sd j)
                        else zero |}.

(** Purchases: the desired ending inventory of row [j] comes from the next
    row's units; a row without a next row keeps its initial [0.0]. *)
Definition desired_at (pct : num) (sd : list sales_row) (j : nat) : num :=
  match sd !! S j with
  | Some nxt => nmul (sales_units (sr_period nxt)) pct
  | None => zero
  end.

Definition beginning_at (pct : num) (sd : list sales_row) (j : nat) : num :=
  match j with
  | 0 => zero
  | S j' => desired_at pct sd j'
  end.

Definition purchased (pct : num) (sd : list sales_row) (j : nat) (s : sales_row)
    : purchases_row :=
  let units := nsub (nadd (sales_units (sr_period s)) (desired_at pct sd j))
                    (beginning_at pct sd j) in
  {| pr_sales := s;
     desired_ending_inventory := desired_at pct sd j;
     beginning_inventory := beginning_at pct sd j;
     purchases_units := units;
     purchases_cost := nmul units (nmul (unit_price (sr_period s)) cogs_ratio) |}.

Definition purchases_init (s : sales_row) : purchases_row :=
  {| pr_sales := s;
     desired_ending_inventory := zero;
     beginning_inventory := zero;
     purchases_units := zero;
     purchases_cost := zero |}.

Definition purchases_inv (pct : num) (sd : list sales_row)
    (k : nat) (df : list purchases_row) : Prop :=
  length df = length sd ∧
  ∀ j s, sd !! j = Some s →
    df !! j = Some (if j <? k then purchased pct sd j s else purchases_init s).

(** Cash budget: the balance a row starts from is the opening cash for
    row 0 and the previous row's ending cash afterwards. *)
Definition opening (bc : num) (df : list cash_row) (j : nat) : option num :=
  match j with
  | 0 => Some bc
  | S j' => ending_cash <$> df !! j'
  end.

Definition cash_row_done (bc pay_cur pay_next : num) (purchases : list purchases_row)
    (df : list cash_row) (j : nat) (r : cash_row) : Prop :=
  (∃ p, purchases !! j = Some p
        ∧ disbursements r = two_tap purchases_cost pay_cur pay_next p (prev_row purchases j))
  ∧ (∃ e, opening bc df j = Some e
          ∧ ending_cash r = nsub (nadd e (collections (cb_collections r))) (disbursements r)).

Definition cash_inv (bc pay_cur pay_next : num) (coll : list collections_row)
    (purchases : list purchases_row) (k : nat) (df : list cash_row) : Prop :=
  length df = length coll ∧
  ∀ j c, coll !! j = Some c →
    ∃ r, df !! j = Some r ∧ cb_collections r = c ∧ beginning_cash r = bc
         ∧ if j <? k then cash_row_done bc pay_cur pay_next purchases df j r
           else disbursements r = zero ∧ ending_cash r = zero.

(** Balance sheet: the receivables list after [k] appends. *)
Definition receivable_ok (cc cn : num) (sd : list sales_row) (recv : list num)
    (j : nat) (s : sales_row) (v : num) : Prop :=
  match j with
  | 0 => v = nmul (sales_revenue s) (nsub one cc)
  | S j' =>
      ∃ p vp, sd !! j' = Some p ∧ recv !! j' = Some vp
              ∧ v = nsub (nadd vp (nmul (sales_revenue s) (nsub one cc)))
                         (nmul (sales_revenue p) cn)
  end.

Definition receivables_inv (cc cn : num) (sd : list sales_row)
    (k : nat) (recv : list num) : Prop :=
  length recv = k ∧
  ∀ j s, sd !! j = Some s → j < k →
    ∃ v, recv !! j = Some v ∧ receivable_ok cc cn sd recv j s v.

End Invariants.

(** ** The settings the stages read *)

Definition engine_keys : list string :=
  [ "sales_collection_current"; "sales_collection_next"; "ending_inventory_pct";
    "beginning_cash"; "purchases_payment_current"; "purchases_payment_next";
    "external_financing_ratio" ].

(** ** More of the settings manager *)

Section SettingsMethods.
Variable parse_float : string → option float.

(** [reset_to_defaults]: [self.settings = self.default_settings.copy()]. *)
Definition reset_to_defaults (self : SettingsManager.t) : SettingsManager.t :=
  {| SettingsManager.default_settings := SettingsManager.default_settings self;
     SettingsManager.settings := SettingsManager.default_settings self |}.

(** [update_settings]: [new_settings.items()] is the list of the entries
    in dict order.  The loop stores as it goes, so the result pairs what
    the call returns or raises with the manager it leaves behind. *)
Fixpoint update_settings (self : SettingsManager.t)
    (new_settings : list (string * pyval)) : result bool * SettingsManager.t :=
  match new_settings with
  | [] => (Ok true, self)
  | (key, value) :: rest =>
      if decide (is_Some (SettingsManager.default_settings self !! key)) then
        match SettingsManager.py_float parse_float value with
        | Ok f =>
            update_settings
              {| SettingsManager.default_settings := SettingsManager.default_settings self;
                 SettingsManager.settings :=
                   <[key := PyFloat f]> (SettingsManager.settings self) |}
              rest
        | Raise ValueError | Raise TypeError => (Ok false, self)
        | Raise e => (Raise e, self)
        end
      else update_settings self rest
  end.

End SettingsMethods.

(** [validate_settings].  [isinstance(value, (int, float))] holds for
    ints, floats and booleans. *)
Definition is_number (v : pyval) : bool :=
  match v with
  | PyBool _ | PyInt _ | PyFloat _ => true
  | PyNone | PyStr _ => false
  end.

(** [value < 0], for a number. *)
Definition below_zero (v : pyval) : bool :=
  match v with
  | PyInt z => (z <? 0)%Z
  | PyFloat f => (f <? 0)%float
  | _ => false
  end.

(** [value > 1.0], for a number; an [int] is compared exactly. *)
Definition above_one (v : pyval) : bool :=
  match v with
  | PyInt z => (1 <? z)%Z
  | PyFloat f => (1 <? f)%float
  | _ => false
  end.

Definition type_name (v : pyval) : string :=
  match v with
  | PyNone => "NoneType"
  | PyBool _ => "bool"
  | PyInt _ => "int"
  | PyFloat _ => "float"
  | PyStr _ => "str"
  end.

Definition percentage_settings : list string :=
  [ "sales_collection_current"; "sales_collection_next";
    "purchases_payment_current"; "purchases_payment_next";
    "ending_inventory_pct"; "external_financing_ratio" ].

(** The first loop, over [self.settings.items()]: the message of the first
    entry that fails, if one does. *)
Fixpoint validate_values (items : list (string * pyval)) : option string :=
  match items with
  | [] => None
  | (key, value) :: rest =>
      if negb (is_number value) then
        Some ("Setting '" +:+ key +:+ "' must be a number")
      else if below_zero value then
        Some ("Setting '" +:+ key +:+ "' must be non-negative")
      else validate_values rest
  end.

(** The second loop: [self.settings[setting] > 1.0].  A missing key raises
    [KeyError] and a value that is no number raises [TypeError]; both are
    caught by [except Exception] and reported with [str(e)]. *)
Fixpoint validate_percentages (settings : gmap string pyval) (keys : list string)
    : option string :=
  match keys with
  | [] => None
  | setting :: rest =>
      match settings !! setting with
      | None => Some ("Settings validation error: '" +:+ setting +:+ "'")
      | Some value =>
          if negb (is_number value) then
            Some ("Settings validation error: '>' not supported between instances of '"
                  +:+ type_name value +:+ "' and 'float'")
          else if above_one value then
            Some ("Setting '" +:+ setting +:+ "' must be between 0 and 1")
          else validate_percentages settings rest
      end
  end.

(** [items] is [self.settings.items()]: the entries of the dict in the
    order the dict holds them. *)
Definition validate_settings (items : list (string * pyval)) (self : SettingsManager.t)
    : bool * string :=
  match validate_values items with
  | Some message => (false, message)
  | None =>
      match validate_percentages (SettingsManager.settings self) percentage_settings with
      | Some message => (false, message)
      | None => (true, "Settings validation passed")
      end
  end.

(** A list is the items of a dict: every key once, and the same
    entries. *)
Definition dict_items (items : list (string * pyval)) (d : gmap string pyval) : Prop :=
  NoDup items.*1 ∧ list_to_map items = d.

(** The dict literal of [__init__], entry by entry. *)
Definition default_items : list (string * pyval) :=
  [ ("sales_collection_current", PyFloat 0.6);
    ("sales_collection_next", PyFloat 0.4);
    ("purchases_payment_current", PyFloat 0.5);
    ("purchases_payment_next", PyFloat 0.5);
    ("ending_inventory_pct", PyFloat 0.2);
    ("external_financing_ratio", PyFloat 0.3);
    ("working_capital_turnover", PyFloat 2.0);
    ("beginning_cash", PyInt 100000) ].

(** ** The schedules of [master_budget_gui.py]

    The first user interface of the repository carries its own schedule
    functions, on plain lists of binary64 numbers.  Each takes here the
    column it reads off its table ([inputs_df['sales_units'].values],
    [sales_df['Sales Revenue'].values]). *)

(** [for i in range(n): body] *)
Fixpoint for_range_from {T : Type} (body : nat → T → result T)
    (i n : nat) (t : T) : result T :=
  match n with
  | 0 => Ok t
  | S n' => t' ← body i t; for_range_from body (S i) n' t'
  end.

Module MasterBudgetGui.
Section WithParser.
Variable parse_float : string → option float.

(** [float(policies[key])] *)
Definition policy (policies : gmap string pyval) (key : string) : result float :=
  match policies !! key with
  | Some v => SettingsManager.py_float parse_float v
  | None => Raise (KeyError (KStr key))
  end.

(** One iteration; the state is [(purchases_units, desired_ending_inv,
    beginning_inventory)]. *)
Definition purchases_step (sales_units : list float) (ending_inv_pct : float)
    (i : nat) (st : list float * list float * list float)
    : result (list float * list float * list float) :=
  let '(purchases_units, desired_ending_inv, beginning_inventory) := st in
  next_q ← (if i + 1 <? length sales_units then iloc sales_units (i + 1)
            else iloc sales_units i);
  let desired_end := (next_q * ending_inv_pct)%float in
  let desired_ending_inv := desired_ending_inv ++ [desired_end] in
  begin_inv ← (if i =? 0 then Ok 0%float else iloc desired_ending_inv (i - 1));
  let beginning_inventory := beginning_inventory ++ [begin_inv] in
  cur ← iloc sales_units i;
  let purchases := (cur + desired_end - begin_inv)%float in
  Ok (purchases_units ++ [purchases], desired_ending_inv, beginning_inventory).

Definition compute_purchases (policies : gmap string pyval) (sales_units : list float)
    : result (list float * list float * list float) :=
  ending_inv_pct ← policy policies "Ending-inventory % of next quarter";
  st ← for_range_from (purchases_step sales_units ending_inv_pct)
         0 (length sales_units) ([], [], [0%float]);
  let '(purchases_units, desired_ending_inv, beginning_inventory) := st in
  Ok (purchases_units, desired_ending_inv, removelast beginning_inventory).

(** [compute_sales] *)
Definition compute_sales (inputs_df : list (period (num := float)))
    : list (sales_row (num := float)) :=
  (λ p, {| sr_period := p;
           sales_revenue := (sales_units p * unit_price p)%float |}) <$> inputs_df.

(** The loop body that [compute_collections] and [compute_disbursements]
    share, up to the names: [curr = xs[i] * w_current],
    [prev = xs[i-1] * w_next if i > 0 else 0], append [curr + prev]. *)
Definition weighted_step (xs : list float) (w_current w_next : float)
    (i : nat) (flow : list float) : result (list float) :=
  x ← iloc xs i;
  let curr := (x * w_current)%float in
  prev ← (if 0 <? i then p ← iloc xs (i - 1); Ok (p * w_next)%float
          else Ok 0%float);
  Ok (flow ++ [(curr + prev)%float]).

Definition compute_collections (policies : gmap string pyval) (sales_rev : list float)
    : result (list float) :=
  collect_current ← policy policies "Sales-collection % current quarter";
  collect_next ← policy policies "Sales-collection % next quarter";
  for_range_from (weighted_step sales_rev collect_current collect_next)
    0 (length sales_rev) [].

Definition compute_disbursements (policies : gmap string pyval)
    (purchases_units : list float) : result (list float) :=
  pay_current ← policy policies "Purchases-payment % current quarter";
  pay_next ← policy policies "Purchases-payment % next quarter";
  for_range_from (weighted_step purchases_units pay_current pay_next)
    0 (length purchases_units) [].

(** [compute_cash_budget]; [inputs_df] is not read.  [beginning_cash] is
    the literal [0]. *)
Definition cash_step (inflow outflow : list float) (i : nat) (cash : list float)
    : result (list float) :=
  begin ← (if i =? 0 then Ok 0%float else iloc cash (i - 1));
  a ← iloc inflow i;
  b ← iloc outflow i;
  Ok (cash ++ [(begin + a - b)%float]).

Definition compute_cash_budget (inflow outflow : list float) : result (list float) :=
  for_range_from (cash_step inflow outflow) 0 (length inflow) [].

(** What the [-GEN-CASH-] event computes before it builds its table. *)
Record cash_run := {
  run_sales : list (sales_row (num := float));
  run_inflow : list float;
  run_purchases_units : list float;
  run_outflow : list float;
  run_cash : list float
}.

Definition gen_cash (policies : gmap string pyval)
    (inputs_df : list (period (num := float))) : result cash_run :=
  let sales_df := compute_sales inputs_df in
  inflow ← compute_collections policies (sales_revenue <$> sales_df);
  st ← compute_purchases policies (sales_units <$> inputs_df);
  let '(purchases_units, desired_ending_inv, beginning_inventory) := st in
  outflow ← compute_disbursements policies purchases_units;
  cash_budget ← compute_cash_budget inflow outflow;
  Ok {| run_sales := sales_df; run_inflow := inflow;
        run_purchases_units := purchases_units; run_outflow := outflow;
        run_cash := cash_budget |}.

End WithParser.
End MasterBudgetGui.

(** The entry that the shared loop body appends at index [j]. *)
Definition weighted_at (xs : list float) (w_current w_next : float)
    (j : nat) (x : float) : float :=
  (x * w_current
   + match j with
     | 0 => 0
     | S j' => match xs !! j' with Some p => p * w_next | None => 0 end
     end)%float.

Definition weighted_inv (xs : list float) (w_current w_next : float)
    (k : nat) (flow : list float) : Prop :=
  length flow = k
  ∧ ∀ j x, j < k → xs !! j = Some x →
      flow !! j = Some (weighted_at xs w_current w_next j x).

(** The cash list after [k] iterations. *)
Definition legacy_cash_inv (inflow outflow : list float) (k : nat)
    (cash : list float) : Prop :=
  length cash = k
  ∧ ∀ j a b, j < k → inflow !! j = Some a → outflow !! j = Some b →
      cash !! j
      = Some (match j with
              | 0 => 0
              | S j' => default 0 (cash !! j')
              end + a - b)%float.

(** What the loop of that function appends at iteration [j]: the desired
    ending inventory, from the next entry or, at the last index, from the
    entry itself; and the beginning inventory. *)
Definition legacy_desired (sales_units : list float) (pct : float) (j : nat) : float :=
  match (if j + 1 <? length sales_units then sales_units !! (j + 1)
         else sales_units !! j) with
  | Some next_q => (next_q * pct)%float
  | None => 0%float
  end.

Definition legacy_begin (sales_units : list float) (pct : float) (j : nat) : float :=
  match j with
  | 0 => 0%float
  | S j' => legacy_desired sales_units pct j'
  end.

(** The state of the loop after [k] iterations. *)
Definition legacy_inv (sales_units : list float) (pct : float) (k : nat)
    (st : list float * list float * list float) : Prop :=
  let '(purchases_units, desired_ending_inv, beginning_inventory) := st in
  length purchases_units = k
  ∧ length desired_ending_inv = k
  ∧ length beginning_inventory = S k
  ∧ beginning_inventory !! 0 = Some 0%float
  ∧ ∀ j cur, j < k → sales_units !! j = Some cur →
      desired_ending_inv !! j = Some (legacy_desired sales_units pct j)
      ∧ purchases_units !! j
        = Some (cur + legacy_desired sales_units pct j
                - legacy_begin sales_units pct j)%float
      ∧ beginning_inventory !! S j = Some (legacy_begin sales_units pct j).

(** ** Saving the settings from the window

    [MainWindow.save_settings] reads the text of every settings entry,
    converts it, hands the result to the settings manager and, when that
    succeeds, builds a new calculator from the manager's settings. *)

(** The message box the method ends with. *)
Inductive message := SettingsSaved | InvalidSettings.

(** The part of the window the method works on: the settings manager and
    the settings the current calculator was built with. *)
Record settings_ui := {
  ui_manager : SettingsManager.t;
  ui_calculator : gmap string pyval
}.

Section SaveSettings.
Variable parse_float : string → option float.

(** [for setting, var in self.setting_vars.items():
       new_settings[setting] = float(var.get())];
    a [StringVar] holds a string. *)
Fixpoint read_setting_vars (setting_vars : list (string * string))
    : result (list (string * pyval)) :=
  match setting_vars with
  | [] => Ok []
  | (setting, text) :: rest =>
      f ← SettingsManager.py_float parse_float (PyStr text);
      new_settings ← read_setting_vars rest;
      Ok ((setting, PyFloat f) :: new_settings)
  end.

Definition save_settings (w : settings_ui) (setting_vars : list (string * string))
    : result message * settings_ui :=
  match read_setting_vars setting_vars with
  | Ok new_settings =>
      match update_settings parse_float (ui_manager w) new_settings with
      | (Ok true, manager) =>
          (Ok SettingsSaved,
           {| ui_manager := manager;
              ui_calculator := SettingsManager.get_all_settings manager |})
      | (Ok false, manager) | (Raise ValueError, manager) =>
          (Ok InvalidSettings,
           {| ui_manager := manager; ui_calculator := ui_calculator w |})
      | (Raise e, manager) =>
          (Raise e, {| ui_manager := manager; ui_calculator := ui_calculator w |})
      end
  | Raise ValueError => (Ok InvalidSettings, w)
  | Raise e => (Raise e, w)
  end.

End SaveSettings.

(** A parser that knows one literal, for closed examples. *)
Definition one_literal : string → option float :=
  λ s, if decide (s = "0.25") then Some 0.25%float else None.

(** * Properties *)

(** ** The result monad and the loop rule *)

Section Access.
Context {num : Type} {A : Arith num}.

Lemma bind_Ok {X Y : Type} (a : X) (f : X → result Y) : (Ok a ≫= f) = f a.
Proof. reflexivity. Qed.

Lemma bind_Raise {X Y : Type} (e : exn) (f : X → result Y) : (Raise e ≫= f) = Raise e.
Proof. reflexivity. Qed.

Lemma setting_Some (settings : gmap string num) (key : string) (v : num) :
  settings !! key = Some v → setting settings key = Ok v.
Proof. intros H. unfold setting. by rewrite H. Qed.

Lemma setting_None (settings : gmap string num) (key : string) :
  settings !! key = None → setting settings key = Raise (KeyError (KStr key)).
Proof. intros H. unfold setting. by rewrite H. Qed.

Lemma loc_Some {R : Type} (df : list R) (i : nat) (r : R) :
  df !! i = Some r → loc df i = Ok r.
Proof. intros H. unfold loc. by rewrite H. Qed.

Lemma iloc_Some {R : Type} (l : list R) (i : nat) (r : R) :
  l !! i = Some r → iloc l i = Ok r.
Proof. intros H. unfold iloc. by rewrite H. Qed.

Lemma loc_set_length {R : Type} (i : nat) (f : R → R) (df : list R) :
  length (loc_set i f df) = length df.
Proof. apply length_alter. Qed.

Lemma loc_set_eq {R : Type} (i : nat) (f : R → R) (df : list R) (r : R) :
  df !! i = Some r → loc_set i f df !! i = Some (f r).
Proof. intros H. unfold loc_set. by rewrite list_lookup_alter_eq, H. Qed.

Lemma loc_set_ne {R : Type} (i j : nat) (f : R → R) (df : list R) :
  i ≠ j → loc_set i f df !! j = df !! j.
Proof. intros H. unfold loc_set. by apply list_lookup_alter_ne. Qed.

(** The invariant rule for [iterrows]: an invariant that every iteration
    re-establishes, without raising, holds when the loop is over. *)
Lemma iterrows_from_inv {R T : Type} (body : nat → R → T → result T)
    (P : nat → T → Prop) (rows : list R) :
  ∀ (i : nat) (t : T),
    P i t →
    (∀ k row t, rows !! k = Some row → P (i + k) t →
       ∃ t', body (i + k) row t = Ok t' ∧ P (S (i + k)) t') →
    ∃ t', iterrows_from body i rows t = Ok t' ∧ P (i + length rows) t'.
Proof.
  induction rows as [|row rest IH]; intros i t Hinit Hstep; simpl.
  - exists t. by rewrite Nat.add_0_r.
  - destruct (Hstep 0 row t) as (t1 & Hbody & HP); [done | by rewrite Nat.add_0_r |].
    rewrite Nat.add_0_r in Hbody, HP. rewrite Hbody, bind_Ok.
    destruct (IH (S i) t1 HP) as (t2 & Hrun & HP2).
    + intros k r u Hk Hu.
      replace (S i + k) with (i + S k) in * by lia.
      by apply Hstep.
    + exists t2. split; [done|].
      by replace (i + S (length rest)) with (S i + length rest) by lia.
Qed.

Lemma iterrows_inv {R T : Type} (body : nat → R → T → result T)
    (P : nat → T → Prop) (df : list R) (t : T) :
  P 0 t →
  (∀ k row t, df !! k = Some row → P k t →
     ∃ t', body k row t = Ok t' ∧ P (S k) t') →
  ∃ t', iterrows df body t = Ok t' ∧ P (length df) t'.
Proof.
  intros Hinit Hstep. unfold iterrows.
  by apply (iterrows_from_inv body P df 0 t).
Qed.

End Access.

(** ** Collections *)

Ltac ltb_cases :=
  repeat match goal with
  | |- context [?a <? ?b] =>
      let E := fresh "E" in destruct (Nat.ltb_spec a b) as [E|E]; try lia
  end.

Section CollectionsFacts.
Context {num : Type} {A : Arith num}.
Variables (settings : gmap string num) (cc cn : num).
Hypothesis Hcc : settings !! "sales_collection_current" = Some cc.
Hypothesis Hcn : settings !! "sales_collection_next" = Some cn.

Lemma collections_body_inv (sd : list sales_row) (k : nat) (s : sales_row)
    (row : collections_row) (df : list collections_row) :
  sd !! k = Some s → cr_sales row = s →
  collections_inv cc cn sd k df →
  ∃ df', collections_body settings k row df = Ok df'
         ∧ collections_inv cc cn sd (S k) df'.
Proof using Hcc Hcn.
  intros Hk Hrow [Hlen Hinv].
  pose proof (Hinv k s Hk) as Hr. rewrite Nat.ltb_irrefl in Hr.
  unfold collections_body.
  rewrite (loc_Some _ _ _ Hr), bind_Ok, (setting_Some _ _ _ Hcc), bind_Ok.
  rewrite Hrow. cbn [collections].
  set (df1 := loc_set k _ df).
  assert (Hdf1 : df1 !! k = Some {| cr_sales := s;
                                    collections := nadd zero (nmul (sales_revenue s) cc) |})
    by (unfold df1; by rewrite (loc_set_eq _ _ _ _ Hr)).
  assert (Hlen1 : length df1 = length sd) by (unfold df1; by rewrite loc_set_length).
  destruct k as [|k'].
  - exists df1. split; [done|]. split; [done|].
    intros j t Hj. destruct j as [|j'].
    + assert (t = s) by congruence; subst t. by rewrite Hdf1.
    + unfold df1. rewrite loc_set_ne by lia. by rewrite (Hinv _ _ Hj).
  - replace (0 <? S k') with true by done. replace (S k' - 1) with k' by lia.
    destruct (lookup_lt_is_Some_2 sd k') as [p Hp];
      [apply lookup_lt_Some in Hk; lia|].
    assert (Hdf1p : df1 !! k' = df !! k') by (unfold df1; by rewrite loc_set_ne by lia).
    rewrite (Hinv _ _ Hp) in Hdf1p.
    rewrite (loc_Some _ _ _ Hdf1p), bind_Ok, (loc_Some _ _ _ Hdf1), bind_Ok.
    rewrite (setting_Some _ _ _ Hcn), bind_Ok. cbn [collections cr_sales].
    eexists. split; [reflexivity|]. split; [by rewrite loc_set_length|].
    intros j t Hj. destruct (decide (j = S k')) as [->|Hne].
    + assert (t = s) by congruence; subst t.
      rewrite (loc_set_eq _ _ _ _ Hdf1). ltb_cases.
      unfold set_collections, two_tap. cbn. by rewrite Hp.
    + rewrite loc_set_ne by done. unfold df1. rewrite loc_set_ne by done.
      rewrite (Hinv _ _ Hj). by ltb_cases.
Qed.

Lemma compute_collections_inv (sd : list sales_row) :
  ∃ out, compute_collections settings (Some sd) = Ok out
         ∧ collections_inv cc cn sd (length sd) out.
Proof using Hcc Hcn.
  destruct sd as [|s0 sd'] eqn:Esd.
  { exists []. split; [done|]. split; [done|]. by intros [|?] ?. }
  rewrite <- Esd. unfold compute_collections.
  replace (is_none_or_empty (Some sd)) with false by (by rewrite Esd).
  change (frame (Some sd)) with sd.
  set (df0 := _ <$> sd).
  destruct (iterrows_inv (collections_body settings) (collections_inv cc cn sd) df0 df0)
    as (out & Hrun & Hout).
  - split; [by unfold df0; rewrite length_fmap|].
    intros j s Hj. unfold df0. rewrite list_lookup_fmap, Hj. done.
  - intros k row df Hk Hinv. unfold df0 in Hk.
    apply list_lookup_fmap_Some_1 in Hk as (s & -> & Hs).
    by apply (collections_body_inv sd k s).
  - exists out. split; [done|].
    by replace (length sd) with (length df0) by (unfold df0; by rewrite length_fmap).
Qed.

(** Without the current-quarter ratio the first iteration raises. *)
Lemma collections_body_missing_key (i : nat) (row r : collections_row)
    (df : list collections_row) :
  df !! i = Some r → settings !! "sales_collection_current" = None →
  collections_body settings i row df
  = Raise (KeyError (KStr "sales_collection_current")).
Proof.
  intros Hr Hnone. unfold collections_body.
  by rewrite (loc_Some _ _ _ Hr), bind_Ok, (setting_None _ _ Hnone), bind_Raise.
Qed.

Lemma compute_collections_missing_key (sd : list sales_row) :
  sd ≠ [] → settings !! "sales_collection_current" = None →
  compute_collections settings (Some sd)
  = Raise (KeyError (KStr "sales_collection_current")).
Proof.
  intros Hne Hnone. destruct sd as [|s sd']; [done|].
  unfold compute_collections, iterrows. cbn [is_none_or_empty frame fmap list_fmap].
  cbn [iterrows_from].
  by rewrite (collections_body_missing_key 0 _ {| cr_sales := s; collections := zero |}).
Qed.

End CollectionsFacts.

(** ** Purchases *)

Section PurchasesFacts.
Context {num : Type} {A : Arith num}.
Variables (settings : gmap string num) (pct : num).
Hypothesis Hpct : settings !! "ending_inventory_pct" = Some pct.

Lemma loc_set_insert {R : Type} (i : nat) (f : R → R) (df : list R) (r : R) :
  df !! i = Some r → loc_set i f df = <[i := f r]> df.
Proof.
  intros H. apply list_eq. intros j. destruct (decide (i = j)) as [<-|Hne].
  - rewrite (loc_set_eq _ _ _ _ H), list_lookup_insert_eq; [done|].
    by apply lookup_lt_Some in H.
  - by rewrite loc_set_ne, list_lookup_insert_ne.
Qed.

(** One iteration rewrites row [k] and nothing else. *)
Lemma purchases_body_eq (cost_per_unit : list num) (k : nat)
    (row r : purchases_row) (c : num) (df : list purchases_row) :
  df !! k = Some r → cost_per_unit !! k = Some c →
  purchases_body settings cost_per_unit k row df =
    Ok (<[k :=
          let dei := match df !! S k with
                     | Some nxt => nmul (sales_units (sr_period (pr_sales nxt))) pct
                     | None => desired_ending_inventory r
                     end in
          let bi := match prev_row df k with
                    | Some p => desired_ending_inventory p
                    | None => beginning_inventory r
                    end in
          let units := nsub (nadd (sales_units (sr_period (pr_sales row))) dei) bi in
          {| pr_sales := pr_sales r;
             desired_ending_inventory := dei;
             beginning_inventory := bi;
             purchases_units := units;
             purchases_cost := nmul units c |}]> df).
Proof using Hpct.
  intros Hr Hc. unfold purchases_body.
  pose proof (lookup_lt_Some _ _ _ Hr) as Hlt.
  rewrite Nat.add_1_r.
  set (df1 := <[k := set_desired_ending_inventory
                        (match df !! S k with
                         | Some nxt => nmul (sales_units (sr_period (pr_sales nxt))) pct
                         | None => desired_ending_inventory r
                         end) r]> df).
  assert (H1 : (if k <? length df - 1
                then nxt ← loc df (S k);
                     pct0 ← setting settings "ending_inventory_pct";
                     Ok (loc_set k (set_desired_ending_inventory
                           (nmul (sales_units (sr_period (pr_sales nxt))) pct0)) df)
                else Ok df) = Ok df1).
  { unfold df1. destruct (Nat.ltb_spec k (length df - 1)) as [E|E].
    - destruct (lookup_lt_is_Some_2 df (S k)) as [nxt Hn]; [lia|].
      rewrite Hn, (loc_Some _ _ _ Hn), bind_Ok, (setting_Some _ _ _ Hpct), bind_Ok.
      by rewrite (loc_set_insert _ _ _ _ Hr).
    - rewrite (lookup_ge_None_2 df (S k)) by lia.
      f_equal. symmetry. destruct r. by apply list_insert_id. }
  rewrite H1, bind_Ok. clear H1.
  assert (Hr1 : df1 !! k = Some (set_desired_ending_inventory
                        (match df !! S k with
                         | Some nxt => nmul (sales_units (sr_period (pr_sales nxt))) pct
                         | None => desired_ending_inventory r
                         end) r))
    by (unfold df1; by rewrite list_lookup_insert_eq).
  set (r1 := set_desired_ending_inventory _ r) in *.
  set (r2 := set_beginning_inventory
               (match prev_row df k with
                | Some p => desired_ending_inventory p
                | None => beginning_inventory r
                end) r1).
  set (df2 := <[k := r2]> df).
  assert (H2 : (if 0 <? k
                then prev ← loc df1 (k - 1);
                     Ok (loc_set k (set_beginning_inventory (desired_ending_inventory prev)) df1)
                else Ok df1) = Ok df2).
  { unfold df2, r2. destruct k as [|k'].
    - reflexivity.
    - replace (0 <? S k') with true by done. replace (S k' - 1) with k' by lia.
      destruct (lookup_lt_is_Some_2 df k') as [p Hp]; [lia|].
      assert (Hp1 : df1 !! k' = Some p)
        by (unfold df1; by rewrite list_lookup_insert_ne by lia).
      rewrite (loc_Some _ _ _ Hp1), bind_Ok, (loc_set_insert _ _ _ _ Hr1).
      unfold df1. rewrite list_insert_insert_eq. cbn [prev_row]. by rewrite Hp. }
  rewrite H2, bind_Ok. clear H2.
  assert (Hr2 : df2 !! k = Some r2) by (unfold df2; by rewrite list_lookup_insert_eq).
  rewrite (loc_Some _ _ _ Hr2), bind_Ok, (loc_set_insert _ _ _ _ Hr2).
  unfold df2. rewrite !list_insert_insert_eq.
  set (r3 := set_purchases_units _ r2).
  assert (Hr3 : <[k := r3]> df !! k = Some r3) by (by rewrite list_lookup_insert_eq).
  rewrite (loc_Some _ _ _ Hr3), bind_Ok, (iloc_Some _ _ _ Hc), bind_Ok.
  rewrite (loc_set_insert _ _ _ _ Hr3), list_insert_insert_eq.
  reflexivity.
Qed.

Lemma purchases_body_inv (sd : list sales_row) (cost_per_unit : list num)
    (k : nat) (s : sales_row) (df : list purchases_row) :
  sd !! k = Some s →
  cost_per_unit !! k = Some (nmul (unit_price (sr_period s)) cogs_ratio) →
  purchases_inv pct sd k df →
  ∃ df', purchases_body settings cost_per_unit k (purchases_init s) df = Ok df'
         ∧ purchases_inv pct sd (S k) df'.
Proof using Hpct.
  intros Hk Hc [Hlen Hinv].
  pose proof (Hinv k s Hk) as Hr. rewrite Nat.ltb_irrefl in Hr.
  rewrite (purchases_body_eq _ _ _ _ _ _ Hr Hc).
  eexists. split; [reflexivity|]. split; [by rewrite length_insert|].
  intros j t Hj. destruct (decide (j = k)) as [->|Hne].
  - assert (t = s) by congruence; subst t.
    rewrite list_lookup_insert_eq by (apply lookup_lt_Some in Hr; lia).
    ltb_cases. f_equal. unfold purchased, desired_at, beginning_at. cbn.
    assert (Hd : match df !! S k with
                 | Some nxt => nmul (sales_units (sr_period (pr_sales nxt))) pct
                 | None => zero
                 end = match sd !! S k with
                       | Some nxt => nmul (sales_units (sr_period nxt)) pct
                       | None => zero
                       end).
    { destruct (sd !! S k) as [nxt|] eqn:En.
      - rewrite (Hinv _ _ En). by ltb_cases.
      - rewrite (lookup_ge_None_2 df (S k)); [done|].
        apply lookup_ge_None_1 in En. lia. }
    assert (Hb : match prev_row df k with
                 | Some p => desired_ending_inventory p
                 | None => zero
                 end = match k with
                       | 0 => zero
                       | S j' => match sd !! S j' with
                                 | Some nxt => nmul (sales_units (sr_period nxt)) pct
                                 | None => zero
                                 end
                       end).
    { destruct k as [|k']; [done|]. cbn [prev_row].
      destruct (lookup_lt_is_Some_2 sd k') as [p Hp];
        [apply lookup_lt_Some in Hk; lia|].
      rewrite (Hinv _ _ Hp). ltb_cases. cbn. unfold desired_at. by rewrite Hk. }
    by rewrite Hd, Hb.
  - rewrite list_lookup_insert_ne by done. rewrite (Hinv _ _ Hj). by ltb_cases.
Qed.

Lemma compute_purchases_inv (sd : list sales_row) :
  ∃ out, compute_purchases settings (Some sd) = Ok out
         ∧ purchases_inv pct sd (length sd) out.
Proof using Hpct.
  destruct sd as [|s0 sd'] eqn:Esd.
  { exists []. split; [done|]. split; [done|]. by intros [|?] ?. }
  rewrite <- Esd. unfold compute_purchases.
  replace (is_none_or_empty (Some sd)) with false by (by rewrite Esd).
  change (frame (Some sd)) with sd.
  fold purchases_init.
  set (df0 := purchases_init <$> sd).
  set (cpu := _ <$> df0).
  assert (Hlen0 : length df0 = length sd) by (unfold df0; by rewrite length_fmap).
  destruct (iterrows_inv (purchases_body settings cpu) (purchases_inv pct sd) df0 df0)
    as (out & Hrun & Hout).
  - split; [done|].
    intros j s Hj. unfold df0. rewrite list_lookup_fmap, Hj. done.
  - intros k row df Hk Hinv. unfold df0 in Hk.
    apply list_lookup_fmap_Some_1 in Hk as (s & -> & Hs).
    apply (purchases_body_inv sd cpu k s); [done| |done].
    unfold cpu, df0. by rewrite !list_lookup_fmap, Hs.
  - exists out. split; [done|]. by rewrite <- Hlen0.
Qed.

End PurchasesFacts.

(** ** Cash budget *)

Section CashBudgetFacts.
Context {num : Type} {A : Arith num}.
Variables (settings : gmap string num) (bc pay_cur pay_next : num).
Hypothesis Hbc : settings !! "beginning_cash" = Some bc.
Hypothesis Hcur : settings !! "purchases_payment_current" = Some pay_cur.
Hypothesis Hnext : settings !! "purchases_payment_next" = Some pay_next.

Lemma cash_budget_body_eq (purchases : list purchases_row) (k : nat)
    (row r : cash_row) (p : purchases_row) (e : num) (df : list cash_row) :
  df !! k = Some r → purchases !! k = Some p → opening bc df k = Some e →
  cash_budget_body settings purchases k row df =
    Ok (<[k :=
          let cur := nadd (disbursements r) (nmul (purchases_cost p) pay_cur) in
          let disb := match prev_row purchases k with
                      | Some pp => nadd cur (nmul (purchases_cost pp) pay_next)
                      | None => cur
                      end in
          {| cb_collections := cb_collections r;
             disbursements := disb;
             beginning_cash := beginning_cash r;
             ending_cash := nsub (nadd e (collections (cb_collections row))) disb |}]> df).
Proof using Hbc Hcur Hnext.
  intros Hr Hp He. unfold cash_budget_body.
  pose proof (lookup_lt_Some _ _ _ Hr) as Hlt.
  pose proof (lookup_lt_Some _ _ _ Hp) as Hltp.
  rewrite (loc_Some _ _ _ Hp), bind_Ok, (loc_Some _ _ _ Hr), bind_Ok.
  rewrite (setting_Some _ _ _ Hcur), bind_Ok, (loc_set_insert _ _ _ _ Hr).
  set (r1 := set_disbursements _ r).
  assert (Hr1 : <[k := r1]> df !! k = Some r1) by (by rewrite list_lookup_insert_eq).
  destruct k as [|k'].
  - cbn [Nat.ltb Nat.leb Nat.eqb prev_row]. rewrite bind_Ok.
    rewrite (setting_Some _ _ _ Hbc), bind_Ok, (loc_Some _ _ _ Hr1), bind_Ok.
    rewrite (loc_set_insert _ _ _ _ Hr1), list_insert_insert_eq.
    cbn in He. by injection He as <-.
  - replace (0 <? S k') with true by done. replace (S k' =? 0) with false by done.
    replace (S k' - 1) with k' by lia. cbn [prev_row].
    destruct (lookup_lt_is_Some_2 purchases k') as [pp Hpp]; [lia|].
    rewrite (loc_Some _ _ _ Hpp), bind_Ok, (loc_Some _ _ _ Hr1), bind_Ok.
    rewrite (setting_Some _ _ _ Hnext), bind_Ok, bind_Ok.
    rewrite (loc_set_insert _ _ _ _ Hr1), list_insert_insert_eq.
    set (r2 := set_disbursements _ r1).
    cbn in He. destruct (df !! k') as [rp|] eqn:Erp; [|done].
    injection He as <-.
    assert (Hrp : <[S k' := r2]> df !! k' = Some rp)
      by (by rewrite list_lookup_insert_ne by lia).
    rewrite (loc_Some _ _ _ Hrp), bind_Ok.
    assert (Hr2 : <[S k' := r2]> df !! S k' = Some r2) by (by rewrite list_lookup_insert_eq).
    rewrite (loc_Some _ _ _ Hr2), bind_Ok.
    rewrite (loc_set_insert _ _ _ _ Hr2), list_insert_insert_eq.
    by rewrite Hpp.
Qed.

Lemma opening_insert (df : list cash_row) (j k : nat) (r : cash_row) :
  j ≤ k → opening bc (<[k := r]> df) j = opening bc df j.
Proof.
  intros Hle. destruct j as [|j']; [done|]. cbn.
  by rewrite list_lookup_insert_ne by lia.
Qed.

Lemma cash_budget_body_inv (coll : list collections_row)
    (purchases : list purchases_row) (k : nat) (c : collections_row)
    (row : cash_row) (df : list cash_row) :
  length coll ≤ length purchases →
  coll !! k = Some c → cb_collections row = c →
  cash_inv bc pay_cur pay_next coll purchases k df →
  ∃ df', cash_budget_body settings purchases k row df = Ok df'
         ∧ cash_inv bc pay_cur pay_next coll purchases (S k) df'.
Proof using Hbc Hcur Hnext.
  intros Hlen2 Hk Hrow [Hlen Hinv].
  destruct (Hinv k c Hk) as (r & Hr & Hrc & Hrb & Hrz).
  rewrite Nat.ltb_irrefl in Hrz. destruct Hrz as [Hd0 He0].
  pose proof (lookup_lt_Some _ _ _ Hk) as Hlt.
  destruct (lookup_lt_is_Some_2 purchases k) as [p Hp]; [lia|].
  assert (He : ∃ e, opening bc df k = Some e).
  { destruct k as [|k']; [by eexists|]. cbn.
    destruct (lookup_lt_is_Some_2 coll k') as [c' Hc']; [lia|].
    destruct (Hinv _ _ Hc') as (r' & Hr' & _). rewrite Hr'. by eexists. }
  destruct He as [e He].
  rewrite (cash_budget_body_eq _ _ _ _ _ _ _ Hr Hp He).
  eexists. split; [reflexivity|]. split; [by rewrite length_insert|].
  intros j t Hj. destruct (decide (j = k)) as [->|Hne].
  - assert (t = c) by congruence; subst t.
    rewrite list_lookup_insert_eq by (apply lookup_lt_Some in Hr; lia).
    eexists. split; [reflexivity|]. ltb_cases.
    cbn [cb_collections beginning_cash]. split; [done|]. split; [done|]. split.
    + exists p. split; [done|]. cbn. rewrite Hd0. unfold two_tap.
      by destruct (prev_row purchases k).
    + exists e. rewrite opening_insert by lia. split; [done|]. cbn.
      by rewrite Hrow, Hrc.
  - rewrite list_lookup_insert_ne by done.
    destruct (Hinv _ _ Hj) as (r' & Hr' & Hrc' & Hrb' & Hrz').
    exists r'. split; [done|]. split; [done|]. split; [done|].
    destruct (Nat.ltb_spec j (S k)) as [E1|E1], (Nat.ltb_spec j k) as [E2|E2];
      try lia; [|done].
    destruct Hrz' as [Hd' (e' & He' & Hec')].
    split; [done|]. exists e'. by rewrite opening_insert by lia.
Qed.

Lemma compute_cash_budget_inv (coll : list collections_row)
    (purchases : list purchases_row) :
  coll ≠ [] → length coll ≤ length purchases →
  ∃ out, compute_cash_budget settings (Some coll) (Some purchases) = Ok out
         ∧ cash_inv bc pay_cur pay_next coll purchases (length coll) out.
Proof using Hbc Hcur Hnext.
  intros Hne Hlen. unfold compute_cash_budget.
  replace (is_none_or_empty (Some coll) || is_none_or_empty (Some purchases))
    with false.
  2:{ destruct coll; [done|]. destruct purchases; [cbn in Hlen; lia | done]. }
  rewrite (setting_Some _ _ _ Hbc), bind_Ok.
  change (frame (Some coll)) with coll. change (frame (Some purchases)) with purchases.
  set (df0 := _ <$> coll).
  assert (Hlen0 : length df0 = length coll) by (unfold df0; by rewrite length_fmap).
  destruct (iterrows_inv (cash_budget_body settings purchases)
              (cash_inv bc pay_cur pay_next coll purchases) df0 df0)
    as (out & Hrun & Hout).
  - split; [done|].
    intros j c Hj. unfold df0. rewrite list_lookup_fmap, Hj.
    eexists. split; [reflexivity|]. done.
  - intros k row df Hk Hinv. unfold df0 in Hk.
    apply list_lookup_fmap_Some_1 in Hk as (c & -> & Hc).
    by apply (cash_budget_body_inv coll purchases k c).
  - exists out. split; [done|]. by rewrite <- Hlen0.
Qed.

End CashBudgetFacts.

(** ** Balance sheet *)

Section BalanceSheetFacts.
Context {num : Type} {A : Arith num}.
Variables (settings : gmap string num) (cc cn ratio : num).
Hypothesis Hcc : settings !! "sales_collection_current" = Some cc.
Hypothesis Hcn : settings !! "sales_collection_next" = Some cn.
Hypothesis Hratio : settings !! "external_financing_ratio" = Some ratio.

Lemma receivable_ok_snoc (sd : list sales_row) (recv : list num) (x : num)
    (j : nat) (s : sales_row) (v : num) :
  j ≤ length recv →
  receivable_ok cc cn sd recv j s v → receivable_ok cc cn sd (recv ++ [x]) j s v.
Proof.
  intros Hle. destruct j as [|j']; [done|]. cbn.
  intros (p & vp & Hp & Hvp & Hv). exists p, vp.
  split; [done|]. split; [|done]. by apply lookup_app_l_Some.
Qed.

Lemma receivables_body_inv (sd : list sales_row) (k : nat) (s : sales_row)
    (recv : list num) :
  sd !! k = Some s →
  receivables_inv cc cn sd k recv →
  ∃ recv', receivables_body settings sd k s recv = Ok recv'
           ∧ receivables_inv cc cn sd (S k) recv'.
Proof using Hcc Hcn.
  intros Hk [Hlen Hinv]. unfold receivables_body.
  assert (Hkeep : ∀ x j t, sd !! j = Some t → j < k →
            ∃ v, (recv ++ [x]) !! j = Some v
                 ∧ receivable_ok cc cn sd (recv ++ [x]) j t v).
  { intros x j t Hj Hjk. destruct (Hinv _ _ Hj Hjk) as (v & Hv & Hok).
    exists v. split; [by apply lookup_app_l_Some|].
    apply receivable_ok_snoc; [lia | done]. }
  destruct k as [|k'].
  - cbn [Nat.eqb]. rewrite (setting_Some _ _ _ Hcc), bind_Ok.
    eexists. split; [reflexivity|]. split.
    + rewrite length_app. cbn. lia.
    + intros j t Hj Hjk. assert (j = 0) by lia; subst j.
      assert (t = s) by congruence; subst t.
      destruct recv; [|done]. eexists. split; [reflexivity|]. done.
  - replace (S k' =? 0) with false by done. replace (S k' - 1) with k' by lia.
    destruct (lookup_lt_is_Some_2 sd k') as [p Hp];
      [apply lookup_lt_Some in Hk; lia|].
    destruct (Hinv _ _ Hp) as (vp & Hvp & _); [lia|].
    rewrite (iloc_Some _ _ _ Hvp), bind_Ok, (setting_Some _ _ _ Hcc), bind_Ok.
    rewrite (loc_Some _ _ _ Hp), bind_Ok, (setting_Some _ _ _ Hcn), bind_Ok.
    eexists. split; [reflexivity|]. split.
    + rewrite length_app. cbn. lia.
    + intros j t Hj Hjk. destruct (decide (j = S k')) as [->|Hne].
      * assert (t = s) by congruence; subst t.
        eexists. split; [by apply list_lookup_middle|].
        cbn. exists p, vp. split; [done|]. split; [|done].
        by apply lookup_app_l_Some.
      * apply Hkeep; [done | lia].
Qed.

Lemma receivables_loop (sd : list sales_row) :
  ∃ recv, iterrows sd (receivables_body settings sd) [] = Ok recv
          ∧ receivables_inv cc cn sd (length sd) recv.
Proof using Hcc Hcn.
  apply (iterrows_inv (receivables_body settings sd) (receivables_inv cc cn sd) sd []).
  - split; [done|]. intros j s _ Hj. lia.
  - intros k row recv Hk Hinv. by apply receivables_body_inv.
Qed.

Lemma compute_balance_sheet_eq (cash_budget : list cash_row)
    (purchases : list purchases_row) (sd : list sales_row) :
  cash_budget ≠ [] → purchases ≠ [] → sd ≠ [] →
  ∃ recv, receivables_inv cc cn sd (length sd) recv
          ∧ compute_balance_sheet settings (Some cash_budget) (Some purchases) (Some sd)
            = Ok (imap (balance_sheet_row ratio cash_budget purchases recv) sd).
Proof using Hcc Hcn Hratio.
  intros H1 H2 H3. unfold compute_balance_sheet.
  replace (is_none_or_empty (Some cash_budget) || is_none_or_empty (Some purchases)
           || is_none_or_empty (Some sd)) with false
    by (by destruct cash_budget, purchases, sd).
  change (frame (Some sd)) with sd.
  change (frame (Some cash_budget)) with cash_budget.
  change (frame (Some purchases)) with purchases.
  destruct (receivables_loop sd) as (recv & Hrun & Hinv).
  exists recv. split; [done|].
  by rewrite Hrun, bind_Ok, (setting_Some _ _ _ Hratio), bind_Ok.
Qed.

End BalanceSheetFacts.

(** ** Adding to the zero a binary64 column starts from *)

Lemma Prim2SF_inj (x y : float) : Prim2SF x = Prim2SF y → x = y.
Proof. intros H. by rewrite <- (SF2Prim_Prim2SF x), H, SF2Prim_Prim2SF. Qed.

Lemma float_neg_zero_dec (x : float) : {x = (-0)%float} + {x ≠ (-0)%float}.
Proof.
  destruct (Prim2SF x) as [[]| | |] eqn:E.
  - left. apply Prim2SF_inj. by rewrite E.
  - right. intros ->. discriminate E.
  - right. intros ->. discriminate E.
  - right. intros ->. discriminate E.
  - right. intros ->. discriminate E.
Qed.

(** [0.0 + x] is [x], except that [0.0 + -0.0] is [0.0]. *)
Lemma float_zero_add (x : float) : x ≠ (-0)%float → (0 + x)%float = x.
Proof.
  intros Hx. apply Prim2SF_inj. rewrite add_spec.
  change (Prim2SF 0) with (S754_zero false).
  destruct (Prim2SF x) as [[]| | |] eqn:E; try reflexivity.
  destruct Hx. apply Prim2SF_inj. by rewrite E.
Qed.

Lemma float_neg_zero_add (x : float) : (-0 + x)%float = x.
Proof.
  apply Prim2SF_inj. rewrite add_spec.
  change (Prim2SF (-0)) with (S754_zero true).
  by destruct (Prim2SF x) as [[]| | |].
Qed.

Lemma float_add_comm (x y : float) : (x + y)%float = (y + x)%float.
Proof.
  apply Prim2SF_inj. rewrite !add_spec. unfold SF64add, SFadd.
  destruct (Prim2SF x) as [[]|[]| |sx mx ex], (Prim2SF y) as [[]|[]| |sy my ey];
    try reflexivity.
  by rewrite Z.min_comm, Z.add_comm.
Qed.

(** A cell that starts at [0.0] and receives [+= a] and [+= b] holds
    [a + b], up to the sign of a zero. *)
Lemma float_accumulate (a b : float) :
  same_but_zero_sign (0 + a + b)%float (a + b)%float.
Proof.
  destruct (float_neg_zero_dec a) as [->|Ha].
  - change (0 + -0)%float with 0%float. rewrite float_neg_zero_add.
    destruct (float_neg_zero_dec b) as [->|Hb].
    + right. by split.
    + left. by apply float_zero_add.
  - left. by rewrite float_zero_add.
Qed.

(** ** The claims about the stages *)

(** C4.  For a non-empty revenue table, [compute_collections] returns a
    table of the same length in which [collections[0]] is
    [sales_revenue[0] * sales_collection_current] (plus nothing) and, for
    [i > 0], [collections[i]] is [sales_revenue[i] * sales_collection_current
    + sales_revenue[i-1] * sales_collection_next].  The column starts at
    the literal [0.0] and is filled with [+=], hence two statements:
    - in any arithmetic, the formula holds as soon as adding the
      current-quarter term to that [0.0] returns the term;
    - in binary64, without that proviso, [collections[0]] is the term plus
      [0.0] and [collections[i]] is the sum of the two terms up to the
      sign of a zero.
    On the four-quarter scenario, in binary64, the revenue is
    [200000, 240000, 300000, 260000] and the first two collections are
    [140000] and [228000]. *)
Theorem compute_collections_two_tap :
  (∀ (num : Type) (A : Arith num) (settings : gmap string num) (cc cn : num)
     (sales_data : list sales_row),
     sales_data ≠ [] →
     settings !! "sales_collection_current" = Some cc →
     settings !! "sales_collection_next" = Some cn →
     Forall (λ s, nadd zero (nmul (sales_revenue s) cc) = nmul (sales_revenue s) cc)
            sales_data →
     ∃ out, compute_collections settings (Some sales_data) = Ok out
       ∧ length out = length sales_data
       ∧ (∀ s r, sales_data !! 0 = Some s → out !! 0 = Some r →
            collections r = nmul (sales_revenue s) cc)
       ∧ (∀ i p s r, sales_data !! i = Some p → sales_data !! S i = Some s →
            out !! S i = Some r →
            collections r = nadd (nmul (sales_revenue s) cc) (nmul (sales_revenue p) cn)))
  ∧ (∀ (settings : gmap string float) (cc cn : float)
       (sales_data : list (sales_row (num := float))),
       sales_data ≠ [] →
       settings !! "sales_collection_current" = Some cc →
       settings !! "sales_collection_next" = Some cn →
       ∃ out, compute_collections settings (Some sales_data) = Ok out
         ∧ length out = length sales_data
         ∧ (∀ s r, sales_data !! 0 = Some s → out !! 0 = Some r →
              collections r = (sales_revenue s * cc + 0)%float)
         ∧ (∀ i p s r, sales_data !! i = Some p → sales_data !! S i = Some s →
              out !! S i = Some r →
              same_but_zero_sign (collections r)
                (sales_revenue s * cc + sales_revenue p * cn)%float))
  ∧ compute_sales_revenue (Some sample_data) = Ok sample_sales
  ∧ sales_revenue <$> sample_sales
    = [200000%float; 240000%float; 300000%float; 260000%float]
  ∧ ∃ out, compute_collections scenario_policy (Some sample_sales) = Ok out
      ∧ collections <$> out !! 0 = Some 140000%float
      ∧ collections <$> out !! 1 = Some 228000%float.
Proof.
  assert (Hrow : ∀ (num : Type) (A : Arith num) (settings : gmap string num)
                   (cc cn : num) (sd : list sales_row),
            settings !! "sales_collection_current" = Some cc →
            settings !! "sales_collection_next" = Some cn →
            ∃ out, compute_collections settings (Some sd) = Ok out
              ∧ length out = length sd
              ∧ ∀ i s r, sd !! i = Some s → out !! i = Some r →
                  collections r = two_tap sales_revenue cc cn s (prev_row sd i)).
  { intros num A settings cc cn sd Hcc Hcn.
    destruct (compute_collections_inv settings cc cn Hcc Hcn sd)
      as (out & Hrun & Hlen & Hrows).
    exists out. split; [done|]. split; [done|].
    intros i s r Hs Hr. rewrite (Hrows _ _ Hs) in Hr. injection Hr as <-.
    pose proof (lookup_lt_Some _ _ _ Hs) as Hlt.
    cbn [collections]. by destruct (Nat.ltb_spec i (length sd)); [|lia]. }
  split; [|split; [|split; [reflexivity|split; [reflexivity|]]]].
  - intros num A settings cc cn sd Hne Hcc Hcn Hzero.
    destruct (Hrow num A settings cc cn sd Hcc Hcn) as (out & Hrun & Hlen & Hrows).
    exists out. split; [done|]. split; [done|]. split.
    + intros s r Hs Hr. rewrite (Hrows _ _ _ Hs Hr).
      by apply (Forall_lookup_1 _ _ _ _ Hzero Hs).
    + intros i p s r Hp Hs Hr. rewrite (Hrows _ _ _ Hs Hr).
      unfold two_tap. cbn [prev_row]. rewrite Hp.
      by rewrite (Forall_lookup_1 _ _ _ _ Hzero Hs).
  - intros settings cc cn sd Hne Hcc Hcn.
    destruct (Hrow float float_arith settings cc cn sd Hcc Hcn)
      as (out & Hrun & Hlen & Hrows).
    exists out. split; [done|]. split; [done|]. split.
    + intros s r Hs Hr. rewrite (Hrows _ _ _ Hs Hr). apply float_add_comm.
    + intros i p s r Hp Hs Hr. rewrite (Hrows _ _ _ Hs Hr).
      unfold two_tap. cbn [prev_row]. rewrite Hp. apply float_accumulate.
  - eexists. split; [vm_compute; reflexivity|]. split; reflexivity.
Qed.

Lemma compute_collections_two_tap_witness :
  (∃ out, compute_collections scenario_policy (Some sample_sales) = Ok out
     ∧ length out = length sample_sales
     ∧ (∀ s r, sample_sales !! 0 = Some s → out !! 0 = Some r →
          collections r = nmul (sales_revenue s) 0.7%float)
     ∧ (∀ i p s r, sample_sales !! i = Some p → sample_sales !! S i = Some s →
          out !! S i = Some r →
          collections r = nadd (nmul (sales_revenue s) 0.7%float)
                               (nmul (sales_revenue p) 0.3%float)))
  ∧ (∃ out, compute_collections scenario_policy (Some sample_sales) = Ok out
       ∧ length out = length sample_sales
       ∧ (∀ s r, sample_sales !! 0 = Some s → out !! 0 = Some r →
            collections r = (sales_revenue s * 0.7 + 0)%float)
       ∧ (∀ i p s r, sample_sales !! i = Some p → sample_sales !! S i = Some s →
            out !! S i = Some r →
            same_but_zero_sign (collections r)
              (sales_revenue s * 0.7 + sales_revenue p * 0.3)%float)).
Proof.
  split.
  - apply (proj1 compute_collections_two_tap float float_arith scenario_policy).
    + discriminate.
    + reflexivity.
    + reflexivity.
    + repeat constructor.
  - apply (proj1 (proj2 compute_collections_two_tap) scenario_policy).
    + discriminate.
    + reflexivity.
    + reflexivity.
Defined.

(** C2.  For non-empty tables, with a purchases row for every collections
    row, [compute_cash_budget] returns a table of the same length in which
    [disbursements[0]] is [purchases_cost[0] * purchases_payment_current]
    (plus nothing), [disbursements[i]] for [i > 0] is [purchases_cost[i] *
    purchases_payment_current + purchases_cost[i-1] *
    purchases_payment_next], [ending_cash[0]] is [beginning_cash +
    collections[0] - disbursements[0]] and [ending_cash[i]] for [i > 0] is
    [ending_cash[i-1] + collections[i] - disbursements[i]].  The
    disbursements column starts at the literal [0.0] and is filled with
    [+=], hence two statements:
    - in any arithmetic, the formulas hold as soon as adding the
      current-quarter term to that [0.0] returns the term;
    - in binary64, without that proviso, [disbursements[0]] is the term
      plus [0.0], [disbursements[i]] is the sum of the two terms up to the
      sign of a zero, and the two [ending_cash] equations hold as they
      are. *)
Theorem compute_cash_budget_recurrence :
  (∀ (num : Type) (A : Arith num) (settings : gmap string num)
     (bc pay_cur pay_next : num)
     (coll : list collections_row) (purchases : list purchases_row),
     coll ≠ [] → length coll ≤ length purchases →
     settings !! "beginning_cash" = Some bc →
     settings !! "purchases_payment_current" = Some pay_cur →
     settings !! "purchases_payment_next" = Some pay_next →
     Forall (λ p, nadd zero (nmul (purchases_cost p) pay_cur)
                  = nmul (purchases_cost p) pay_cur) purchases →
     ∃ out, compute_cash_budget settings (Some coll) (Some purchases) = Ok out
       ∧ length out = length coll
       ∧ (∀ c p r, coll !! 0 = Some c → purchases !! 0 = Some p → out !! 0 = Some r →
            disbursements r = nmul (purchases_cost p) pay_cur
            ∧ ending_cash r = nsub (nadd bc (collections c)) (disbursements r))
       ∧ (∀ i c p pp r rp,
            coll !! S i = Some c → purchases !! S i = Some p →
            purchases !! i = Some pp →
            out !! S i = Some r → out !! i = Some rp →
            disbursements r = nadd (nmul (purchases_cost p) pay_cur)
                                   (nmul (purchases_cost pp) pay_next)
            ∧ ending_cash r = nsub (nadd (ending_cash rp) (collections c))
                                   (disbursements r)))
  ∧ (∀ (settings : gmap string float) (bc pay_cur pay_next : float)
       (coll : list (collections_row (num := float)))
       (purchases : list (purchases_row (num := float))),
       coll ≠ [] → length coll ≤ length purchases →
       settings !! "beginning_cash" = Some bc →
       settings !! "purchases_payment_current" = Some pay_cur →
       settings !! "purchases_payment_next" = Some pay_next →
       ∃ out, compute_cash_budget settings (Some coll) (Some purchases) = Ok out
         ∧ length out = length coll
         ∧ (∀ c p r, coll !! 0 = Some c → purchases !! 0 = Some p →
              out !! 0 = Some r →
              disbursements r = (purchases_cost p * pay_cur + 0)%float
              ∧ ending_cash r = (bc + collections c - disbursements r)%float)
         ∧ (∀ i c p pp r rp,
              coll !! S i = Some c → purchases !! S i = Some p →
              purchases !! i = Some pp →
              out !! S i = Some r → out !! i = Some rp →
              same_but_zero_sign (disbursements r)
                (purchases_cost p * pay_cur + purchases_cost pp * pay_next)%float
              ∧ ending_cash r
                = (ending_cash rp + collections c - disbursements r)%float)).
Proof.
  assert (Hrow : ∀ (num : Type) (A : Arith num) (settings : gmap string num)
                   (bc pay_cur pay_next : num)
                   (coll : list collections_row) (purchases : list purchases_row),
            coll ≠ [] → length coll ≤ length purchases →
            settings !! "beginning_cash" = Some bc →
            settings !! "purchases_payment_current" = Some pay_cur →
            settings !! "purchases_payment_next" = Some pay_next →
            ∃ out, compute_cash_budget settings (Some coll) (Some purchases) = Ok out
              ∧ length out = length coll
              ∧ ∀ i c p r, coll !! i = Some c → purchases !! i = Some p →
                  out !! i = Some r →
                  disbursements r
                  = two_tap purchases_cost pay_cur pay_next p (prev_row purchases i)
                  ∧ ∃ e, opening bc out i = Some e
                         ∧ ending_cash r = nsub (nadd e (collections c)) (disbursements r)).
  { intros num A settings bc pay_cur pay_next coll purchases Hne Hlen2 Hbc Hcur Hnext.
    destruct (compute_cash_budget_inv settings bc pay_cur pay_next Hbc Hcur Hnext
                coll purchases Hne Hlen2) as (out & Hrun & Hlen & Hrows).
    exists out. split; [done|]. split; [done|].
    intros i c p r Hc Hp Hr.
    destruct (Hrows _ _ Hc) as (r' & Hr' & Hrc & _ & Hdone).
    assert (r' = r) by congruence; subst r'.
    pose proof (lookup_lt_Some _ _ _ Hc) as Hlt.
    destruct (Nat.ltb_spec i (length coll)); [|lia].
    destruct Hdone as [(p' & Hp' & Hd) (e & He & Hec)].
    assert (p' = p) by congruence; subst p'.
    split; [done|]. exists e. by rewrite <- Hrc. }
  split.
  - intros num A settings bc pay_cur pay_next coll purchases
      Hne Hlen2 Hbc Hcur Hnext Hzero.
    destruct (Hrow num A settings bc pay_cur pay_next coll purchases
                Hne Hlen2 Hbc Hcur Hnext) as (out & Hrun & Hlen & Hrows).
    exists out. split; [done|]. split; [done|]. split.
    + intros c p r Hc Hp Hr.
      destruct (Hrows _ _ _ _ Hc Hp Hr) as (Hd & e & He & Hec).
      cbn in He. injection He as <-. split; [|done].
      rewrite Hd. by apply (Forall_lookup_1 _ _ _ _ Hzero Hp).
    + intros i c p pp r rp Hc Hp Hpp Hr Hrp.
      destruct (Hrows _ _ _ _ Hc Hp Hr) as (Hd & e & He & Hec).
      cbn in He. rewrite Hrp in He. injection He as <-. split; [|done].
      rewrite Hd. unfold two_tap. cbn [prev_row]. rewrite Hpp.
      by rewrite (Forall_lookup_1 _ _ _ _ Hzero Hp).
  - intros settings bc pay_cur pay_next coll purchases Hne Hlen2 Hbc Hcur Hnext.
    destruct (Hrow float float_arith settings bc pay_cur pay_next coll purchases
                Hne Hlen2 Hbc Hcur Hnext) as (out & Hrun & Hlen & Hrows).
    exists out. split; [done|]. split; [done|]. split.
    + intros c p r Hc Hp Hr.
      destruct (Hrows _ _ _ _ Hc Hp Hr) as (Hd & e & He & Hec).
      cbn in He. injection He as <-. split; [|done].
      rewrite Hd. apply float_add_comm.
    + intros i c p pp r rp Hc Hp Hpp Hr Hrp.
      destruct (Hrows _ _ _ _ Hc Hp Hr) as (Hd & e & He & Hec).
      cbn in He. rewrite Hrp in He. injection He as <-. split; [|done].
      rewrite Hd. unfold two_tap. cbn [prev_row]. rewrite Hpp.
      apply float_accumulate.
Qed.

Lemma compute_cash_budget_recurrence_witness :
  (∃ out, compute_cash_budget default_policy (Some sample_collections)
            (Some sample_purchases) = Ok out
     ∧ length out = length sample_collections
     ∧ (∀ c p r, sample_collections !! 0 = Some c → sample_purchases !! 0 = Some p →
          out !! 0 = Some r →
          disbursements r = nmul (purchases_cost p) 0.5%float
          ∧ ending_cash r = nsub (nadd 100000%float (collections c)) (disbursements r))
     ∧ (∀ i c p pp r rp,
          sample_collections !! S i = Some c → sample_purchases !! S i = Some p →
          sample_purchases !! i = Some pp →
          out !! S i = Some r → out !! i = Some rp →
          disbursements r = nadd (nmul (purchases_cost p) 0.5%float)
                                 (nmul (purchases_cost pp) 0.5%float)
          ∧ ending_cash r = nsub (nadd (ending_cash rp) (collections c))
                                 (disbursements r)))
  ∧ (∃ out, compute_cash_budget default_policy (Some sample_collections)
              (Some sample_purchases) = Ok out
       ∧ length out = length sample_collections
       ∧ (∀ c p r, sample_collections !! 0 = Some c → sample_purchases !! 0 = Some p →
            out !! 0 = Some r →
            disbursements r = (purchases_cost p * 0.5 + 0)%float
            ∧ ending_cash r = (100000 + collections c - disbursements r)%float)
       ∧ (∀ i c p pp r rp,
            sample_collections !! S i = Some c → sample_purchases !! S i = Some p →
            sample_purchases !! i = Some pp →
            out !! S i = Some r → out !! i = Some rp →
            same_but_zero_sign (disbursements r)
              (purchases_cost p * 0.5 + purchases_cost pp * 0.5)%float
            ∧ ending_cash r
              = (ending_cash rp + collections c - disbursements r)%float)).
Proof.
  split.
  - apply (proj1 compute_cash_budget_recurrence float float_arith default_policy).
    + discriminate.
    + vm_compute. lia.
    + reflexivity.
    + reflexivity.
    + reflexivity.
    + repeat constructor.
  - apply (proj2 compute_cash_budget_recurrence default_policy).
    + discriminate.
    + vm_compute. lia.
    + reflexivity.
    + reflexivity.
    + reflexivity.
Defined.

(** C6.  For a non-empty sales table, [compute_purchases] returns a table
    of the same length with [beginning_inventory[0] = 0.0],
    [beginning_inventory[i] = desired_ending_inventory[i-1]] for [i > 0],
    [purchases_units[i] = sales_units[i] + desired_ending_inventory[i]
     - beginning_inventory[i]] and
    [purchases_cost[i] = purchases_units[i] * (unit_price[i] * 0.6)]. *)
Theorem compute_purchases_inventory_roll
    (num : Type) (A : Arith num) (settings : gmap string num) (pct : num)
    (sales_data : list sales_row) :
  sales_data ≠ [] →
  settings !! "ending_inventory_pct" = Some pct →
  ∃ out, compute_purchases settings (Some sales_data) = Ok out
    ∧ length out = length sales_data
    ∧ (∀ r, out !! 0 = Some r → beginning_inventory r = zero)
    ∧ (∀ i r rp, out !! S i = Some r → out !! i = Some rp →
         beginning_inventory r = desired_ending_inventory rp)
    ∧ (∀ i s r, sales_data !! i = Some s → out !! i = Some r →
         purchases_units r
           = nsub (nadd (sales_units (sr_period s)) (desired_ending_inventory r))
                  (beginning_inventory r)
         ∧ purchases_cost r
           = nmul (purchases_units r) (nmul (unit_price (sr_period s)) cogs_ratio)).
Proof.
  intros Hne Hpct.
  destruct (compute_purchases_inv settings pct Hpct sales_data)
    as (out & Hrun & Hlen & Hrows).
  assert (Hrow : ∀ i r, out !! i = Some r →
            ∃ s, sales_data !! i = Some s ∧ r = purchased pct sales_data i s).
  { intros i r Hr. pose proof (lookup_lt_Some _ _ _ Hr) as Hlt.
    destruct (lookup_lt_is_Some_2 sales_data i) as [s Hs]; [lia|].
    exists s. split; [done|]. rewrite (Hrows _ _ Hs) in Hr.
    destruct (Nat.ltb_spec i (length sales_data)); [|lia]. congruence. }
  exists out. split; [done|]. split; [done|]. split; [|split].
  - intros r Hr. by destruct (Hrow _ _ Hr) as (s & _ & ->).
  - intros i r rp Hr Hrp.
    destruct (Hrow _ _ Hr) as (s & _ & ->). by destruct (Hrow _ _ Hrp) as (sp & _ & ->).
  - intros i s r Hs Hr. destruct (Hrow _ _ Hr) as (s' & Hs' & ->).
    assert (s' = s) by congruence; subst s'. done.
Qed.

Lemma compute_purchases_inventory_roll_witness :
  ∃ out, compute_purchases default_policy (Some sample_sales) = Ok out
    ∧ length out = length sample_sales
    ∧ (∀ r, out !! 0 = Some r → beginning_inventory r = 0%float)
    ∧ (∀ i r rp, out !! S i = Some r → out !! i = Some rp →
         beginning_inventory r = desired_ending_inventory rp)
    ∧ (∀ i s r, sample_sales !! i = Some s → out !! i = Some r →
         purchases_units r
           = nsub (nadd (sales_units (sr_period s)) (desired_ending_inventory r))
                  (beginning_inventory r)
         ∧ purchases_cost r
           = nmul (purchases_units r) (nmul (unit_price (sr_period s)) 0.6%float)).
Proof.
  apply (compute_purchases_inventory_roll float float_arith default_policy 0.2%float).
  - discriminate.
  - reflexivity.
Defined.

(** C3.  What [compute_purchases] does with the desired ending inventory:
    a row that has a next row gets [sales_units[i+1] * ending_inventory_pct];
    the last row is never written and keeps the [0.0] the column was
    created with.  On the sample under the default settings the column is
    [2400, 3000, 2600, 0], whereas [ending_inventory_pct * sales_units[last]]
    is [2600]. *)
Theorem compute_purchases_last_period_unwritten :
  (∀ (num : Type) (A : Arith num) (settings : gmap string num) (pct : num)
     (sales_data : list sales_row),
     sales_data ≠ [] →
     settings !! "ending_inventory_pct" = Some pct →
     ∃ out, compute_purchases settings (Some sales_data) = Ok out
       ∧ length out = length sales_data
       ∧ (∀ i nxt r, sales_data !! S i = Some nxt → out !! i = Some r →
            desired_ending_inventory r = nmul (sales_units (sr_period nxt)) pct)
       ∧ (∀ r, out !! (length sales_data - 1) = Some r →
            desired_ending_inventory r = zero))
  ∧ compute_purchases default_policy (Some sample_sales) = Ok sample_purchases
  ∧ desired_ending_inventory <$> sample_purchases
    = [2400%float; 3000%float; 2600%float; 0%float]
  ∧ (0.2 * 13000 = 2600)%float
  ∧ (0 =? 2600)%float = false.
Proof.
  split; [|by vm_compute].
  intros num A settings pct sd Hne Hpct.
  destruct (compute_purchases_inv settings pct Hpct sd) as (out & Hrun & Hlen & Hrows).
  exists out. split; [done|]. split; [done|]. split.
  - intros i nxt r Hn Hr.
    pose proof (lookup_lt_Some _ _ _ Hn) as Hlt.
    destruct (lookup_lt_is_Some_2 sd i) as [s Hs]; [lia|].
    rewrite (Hrows _ _ Hs) in Hr.
    destruct (Nat.ltb_spec i (length sd)); [|lia].
    injection Hr as <-. cbn. unfold desired_at. by rewrite Hn.
  - intros r Hr.
    assert (Hpos : 0 < length sd) by (destruct sd; [done | cbn; lia]).
    destruct (lookup_lt_is_Some_2 sd (length sd - 1)) as [s Hs]; [lia|].
    rewrite (Hrows _ _ Hs) in Hr.
    destruct (Nat.ltb_spec (length sd - 1) (length sd)); [|lia].
    injection Hr as <-. cbn. unfold desired_at.
    by rewrite (lookup_ge_None_2 sd (S (length sd - 1))) by lia.
Qed.

Lemma compute_purchases_last_period_unwritten_witness :
  ∃ out, compute_purchases default_policy (Some sample_sales) = Ok out
    ∧ length out = length sample_sales
    ∧ (∀ i nxt r, sample_sales !! S i = Some nxt → out !! i = Some r →
         desired_ending_inventory r = nmul (sales_units (sr_period nxt)) 0.2%float)
    ∧ (∀ r, out !! (length sample_sales - 1) = Some r →
         desired_ending_inventory r = 0%float).
Proof.
  apply (proj1 compute_purchases_last_period_unwritten
           float float_arith default_policy 0.2%float).
  - discriminate.
  - reflexivity.
Defined.

(** The rows of a balance sheet, once the receivables list is known. *)
Lemma balance_sheet_rows {num : Type} {A : Arith num}
    (settings : gmap string num) (cc cn ratio : num)
    (cash_budget : list cash_row) (purchases : list purchases_row)
    (sales_data : list sales_row) :
  cash_budget ≠ [] → purchases ≠ [] → sales_data ≠ [] →
  settings !! "sales_collection_current" = Some cc →
  settings !! "sales_collection_next" = Some cn →
  settings !! "external_financing_ratio" = Some ratio →
  ∃ recv out,
    compute_balance_sheet settings (Some cash_budget) (Some purchases) (Some sales_data)
      = Ok out
    ∧ length out = length sales_data
    ∧ receivables_inv cc cn sales_data (length sales_data) recv
    ∧ ∀ i r, out !! i = Some r →
        ∃ s, sales_data !! i = Some s
             ∧ r = balance_sheet_row ratio cash_budget purchases recv i s.
Proof.
  intros H1 H2 H3 Hcc Hcn Hratio.
  destruct (compute_balance_sheet_eq settings cc cn ratio Hcc Hcn Hratio
              cash_budget purchases sales_data H1 H2 H3) as (recv & Hinv & Hrun).
  exists recv. eexists. split; [exact Hrun|]. split; [by rewrite length_imap|].
  split; [done|].
  intros i r Hr. apply list_lookup_imap_Some in Hr as (s & Hs & ->). by exists s.
Qed.

(** C5.  For non-empty tables, the receivables column of the balance
    sheet satisfies [receivables[0] = sales_revenue[0] * (1 -
    sales_collection_current)] and, for [i > 0], [receivables[i] =
    receivables[i-1] + sales_revenue[i] * (1 - sales_collection_current)
    - sales_revenue[i-1] * sales_collection_next]. *)
Theorem compute_balance_sheet_receivables
    (num : Type) (A : Arith num) (settings : gmap string num) (cc cn ratio : num)
    (cash_budget : list cash_row) (purchases : list purchases_row)
    (sales_data : list sales_row) :
  cash_budget ≠ [] → purchases ≠ [] → sales_data ≠ [] →
  settings !! "sales_collection_current" = Some cc →
  settings !! "sales_collection_next" = Some cn →
  settings !! "external_financing_ratio" = Some ratio →
  ∃ out,
    compute_balance_sheet settings (Some cash_budget) (Some purchases) (Some sales_data)
      = Ok out
    ∧ length out = length sales_data
    ∧ (∀ s r, sales_data !! 0 = Some s → out !! 0 = Some r →
         receivables r = nmul (sales_revenue s) (nsub one cc))
    ∧ (∀ i p s r rp,
         sales_data !! i = Some p → sales_data !! S i = Some s →
         out !! S i = Some r → out !! i = Some rp →
         receivables r
           = nsub (nadd (receivables rp) (nmul (sales_revenue s) (nsub one cc)))
                  (nmul (sales_revenue p) cn)).
Proof.
  intros H1 H2 H3 Hcc Hcn Hratio.
  destruct (balance_sheet_rows settings cc cn ratio cash_budget purchases sales_data
              H1 H2 H3 Hcc Hcn Hratio) as (recv & out & Hrun & Hlen & [Hrl Hrecv] & Hrows).
  assert (Hcol : ∀ i s r, sales_data !! i = Some s → out !! i = Some r →
            recv !! i = Some (receivables r)
            ∧ receivable_ok cc cn sales_data recv i s (receivables r)).
  { intros i s r Hs Hr. destruct (Hrows _ _ Hr) as (s' & Hs' & ->).
    destruct (Hrecv _ _ Hs) as (v & Hv & Hok); [by apply lookup_lt_Some in Hs|].
    unfold balance_sheet_row, aligned. cbn [receivables]. rewrite Hv. done. }
  exists out. split; [done|]. split; [done|]. split.
  - intros s r Hs Hr. by destruct (Hcol _ _ _ Hs Hr) as [_ Hok].
  - intros i p s r rp Hp Hs Hr Hrp.
    destruct (Hcol _ _ _ Hs Hr) as [_ (p' & vp & Hp' & Hvp & Hv)].
    destruct (Hcol _ _ _ Hp Hrp) as [Hvp' _].
    assert (p' = p) by congruence; subst p'.
    assert (vp = receivables rp) by congruence; subst vp. done.
Qed.

Lemma compute_balance_sheet_receivables_witness :
  ∃ out,
    compute_balance_sheet default_policy (Some sample_cash_budget)
      (Some sample_purchases) (Some sample_sales) = Ok out
    ∧ length out = length sample_sales
    ∧ (∀ s r, sample_sales !! 0 = Some s → out !! 0 = Some r →
         receivables r = nmul (sales_revenue s) (nsub 1%float 0.6%float))
    ∧ (∀ i p s r rp,
         sample_sales !! i = Some p → sample_sales !! S i = Some s →
         out !! S i = Some r → out !! i = Some rp →
         receivables r
           = nsub (nadd (receivables rp)
                        (nmul (sales_revenue s) (nsub 1%float 0.6%float)))
                  (nmul (sales_revenue p) 0.4%float)).
Proof.
  apply (compute_balance_sheet_receivables float float_arith default_policy
           0.6%float 0.4%float 0.3%float).
  - discriminate.
  - discriminate.
  - discriminate.
  - reflexivity.
  - reflexivity.
  - reflexivity.
Defined.

(** ** The plug in binary64

    [liabilities_equity] is [ef + (ta - ef)] with [ef = ta * ratio], three
    rounded operations.  Multiplying a number by [1.0] and subtracting a
    number from itself are exact. *)
Lemma SF64mul_one (s : bool) (m : positive) (e : Z) :
  bounded prec emax m e = true →
  SF64mul (S754_finite s m e) (Prim2SF 1) = S754_finite s m e.
Proof.
  intros Hb. apply andb_prop in Hb as [Hc He].
  unfold canonical_mantissa in Hc. apply Z.eqb_eq in Hc.
  change (Prim2SF 1) with (S754_finite false 4503599627370496 (-52)).
  unfold SF64mul, SFmul. rewrite Pos.mul_comm, xorb_false_r.
  change (4503599627370496 * m)%positive with (Nat.iter 52 xO m).
  unfold binary_round_aux, shr_fexp. cbn [Zdigits2].
  change (digits2_pos (Nat.iter 52 xO m)) with (Nat.iter 52 Pos.succ (digits2_pos m)).
  set (d := digits2_pos m) in *.
  assert (Hd : Z.pos (Nat.iter 52 Pos.succ d) = (Z.pos d + 52)%Z) by (simpl; lia).
  rewrite Hd.
  replace (Z.pos d + 52 + (e + -52))%Z with (Z.pos d + e)%Z by lia.
  rewrite Hc. replace (e - (e + -52))%Z with 52%Z by lia.
  change (shr (shr_record_of_loc (Z.pos (Nat.iter 52 xO m)) loc_Exact) (e + -52) 52)
    with ({| shr_m := Z.pos m; shr_r := false; shr_s := false |}, (e + -52 + 52)%Z).
  cbn [shr_m loc_of_shr_record round_nearest_even shr_record_of_loc Zdigits2].
  fold d. replace (e + -52 + 52)%Z with e by lia.
  rewrite Hc, Z.sub_diag. cbn [shr shr_m]. by rewrite He.
Qed.

Lemma float_mul_one (x : float) : (x * 1)%float = x.
Proof.
  apply Prim2SF_inj. rewrite mul_spec.
  pose proof (Prim2SF_valid x) as Hv.
  destruct (Prim2SF x) as [s|s| |s m e] eqn:E.
  - change (Prim2SF 1) with (S754_finite false 4503599627370496 (-52)).
    cbn. by rewrite xorb_false_r.
  - change (Prim2SF 1) with (S754_finite false 4503599627370496 (-52)).
    cbn. by rewrite xorb_false_r.
  - reflexivity.
  - by apply SF64mul_one.
Qed.

Lemma float_sub_diag (x : float) : finite64 x = true → (x - x)%float = 0%float.
Proof.
  unfold finite64. intros Hf. apply Prim2SF_inj. rewrite sub_spec. revert Hf.
  change (Prim2SF 0) with (S754_zero false).
  destruct (Prim2SF x) as [[]|s| |s m e]; try done. intros _.
  unfold SF64sub, SFsub. by rewrite Z.sub_diag.
Qed.

Lemma SFeqb_finite_refl (s : bool) (m : positive) (e : Z) :
  SFeqb (S754_finite s m e) (S754_finite s m e) = true.
Proof.
  unfold SFeqb, SFcompare. rewrite Z.compare_refl, Pos.compare_cont_refl.
  by destruct s.
Qed.

Lemma float_plug_zero (ta : float) :
  finite64 ta = true → (ta * 0 + (ta - ta * 0) =? ta)%float = true.
Proof.
  unfold finite64.
  rewrite FloatAxioms.eqb_spec, add_spec, sub_spec, mul_spec.
  change (Prim2SF 0) with (S754_zero false).
  destruct (Prim2SF ta) as [[]|s| |s m e]; try done. intros _.
  cbn. apply SFeqb_finite_refl.
Qed.

Lemma float_plug_one (ta : float) :
  finite64 ta = true → (ta * 1 + (ta - ta * 1) =? ta)%float = true.
Proof.
  intros Hf. rewrite float_mul_one, float_sub_diag by done.
  rewrite FloatAxioms.eqb_spec, add_spec. unfold finite64 in Hf. revert Hf.
  change (Prim2SF 0) with (S754_zero false).
  destruct (Prim2SF ta) as [[]|s| |s m e]; try done. intros _.
  cbn. apply SFeqb_finite_refl.
Qed.

Lemma float_plug_not_finite (ta ratio : float) :
  finite64 ta = false → (ta * ratio + (ta - ta * ratio))%float = PrimFloat.nan.
Proof.
  unfold finite64. intros Hf. apply Prim2SF_inj.
  rewrite add_spec, sub_spec, mul_spec. revert Hf.
  change (Prim2SF PrimFloat.nan) with S754_nan.
  destruct (Prim2SF ta) as [s|s| |s m e]; try done; intros _.
  destruct (Prim2SF ratio) as [r|r| |r m e]; destruct s; try destruct r; reflexivity.
Qed.




(** C7.  Every stage returns the empty table, and raises nothing, when a
    table it is given is [None] or empty, whatever the settings mapping
    holds and whatever the other tables are. *)
Theorem empty_input_is_noop (num : Type) (A : Arith num) (settings : gmap string num) :
  (compute_sales_revenue (num := num) None = Ok []
   ∧ compute_sales_revenue (num := num) (Some []) = Ok [])
  ∧ (compute_collections settings None = Ok []
     ∧ compute_collections settings (Some []) = Ok [])
  ∧ (compute_purchases settings None = Ok []
     ∧ compute_purchases settings (Some []) = Ok [])
  ∧ (∀ df, compute_cash_budget settings None df = Ok []
           ∧ compute_cash_budget settings (Some []) df = Ok [])
  ∧ (∀ df, compute_cash_budget settings df None = Ok []
           ∧ compute_cash_budget settings df (Some []) = Ok [])
  ∧ (compute_income_statement (num := num) None = Ok []
     ∧ compute_income_statement (num := num) (Some []) = Ok [])
  ∧ (∀ p s, compute_balance_sheet settings None p s = Ok []
            ∧ compute_balance_sheet settings (Some []) p s = Ok [])
  ∧ (∀ c s, compute_balance_sheet settings c None s = Ok []
            ∧ compute_balance_sheet settings c (Some []) s = Ok [])
  ∧ (∀ c p, compute_balance_sheet settings c p None = Ok []
            ∧ compute_balance_sheet settings c p (Some []) = Ok []).
Proof.
  repeat split; try reflexivity.
  - unfold compute_cash_budget. by destruct (is_none_or_empty df).
  - unfold compute_cash_budget. by destruct (is_none_or_empty df).
  - unfold compute_balance_sheet. by destruct (is_none_or_empty c).
  - unfold compute_balance_sheet. by destruct (is_none_or_empty c).
  - unfold compute_balance_sheet.
    by destruct (is_none_or_empty c), (is_none_or_empty p).
  - unfold compute_balance_sheet.
    by destruct (is_none_or_empty c), (is_none_or_empty p).
Qed.

(** ** The stage sequence on shared frames *)

Section StoreFacts.
Context {num : Type} {A : Arith num}.
Implicit Types h : store (num := num).

Lemma put_frame_put_frame h (r : ref) (t t' : table) :
  put_frame r t (put_frame r t' h) = put_frame r t h.
Proof. unfold put_frame. cbn. by rewrite list_insert_insert_eq. Qed.

Lemma frame_at_put_frame h (r : ref) (t : table) :
  r < length (frames h) → frame_at (put_frame r t h) r = t.
Proof. intros Hr. unfold frame_at, put_frame. cbn. by rewrite list_lookup_insert_eq. Qed.

Lemma frame_at_put_frame_ne h (r r' : ref) (t : table) :
  r ≠ r' → frame_at (put_frame r t h) r' = frame_at h r'.
Proof. intros Hr. unfold frame_at, put_frame. cbn. by rewrite list_lookup_insert_ne. Qed.

Lemma put_frame_length h (r : ref) (t : table) :
  length (frames (put_frame r t h)) = length (frames h).
Proof. unfold put_frame. cbn. apply length_insert. Qed.

Lemma hbind_assoc {X Y Z : Type} (m : M X) (f : X → M Y) (k : Y → M Z) h :
  hbind (hbind m f) k h = hbind m (λ x, hbind (f x) k) h.
Proof. unfold hbind. by destruct (m h) as [[x|e] h']. Qed.

Lemma hret_bind {X Y : Type} (x : X) (k : X → M Y) h : hbind (hret x) k h = k x h.
Proof. reflexivity. Qed.

Section OneFrame.
Context {R : Type} (S : shape (num := num) R) (HS : shape_ok S).
Variables (df : ref) (h0 : store (num := num)).
Hypothesis Hdf : df < length (frames h0).

Lemma hrows_put {Y : Type} (t : list R) (k : list R → M Y) :
  hbind (hrows S df) k (put_frame df (of_rows S t) h0)
  = k t (put_frame df (of_rows S t) h0).
Proof using HS Hdf.
  unfold hbind, hrows. by rewrite frame_at_put_frame, HS.
Qed.

Lemma hloc_put {Y : Type} (t : list R) (i : nat) (k : R → M Y) :
  hbind (hloc S df i) k (put_frame df (of_rows S t) h0)
  = match loc t i with
    | Ok x => k x (put_frame df (of_rows S t) h0)
    | Raise e => (Raise e, put_frame df (of_rows S t) h0)
    end.
Proof using HS Hdf.
  unfold hloc. unfold hbind at 1. rewrite hrows_put. unfold hlift.
  by destruct (loc t i).
Qed.

Lemma hloc_set_put (t : list R) (i : nat) (f : R → R) :
  hloc_set S df i f (put_frame df (of_rows S t) h0)
  = (Ok (), put_frame df (of_rows S (loc_set i f t)) h0).
Proof using HS Hdf.
  unfold hloc_set. rewrite hrows_put. by rewrite put_frame_put_frame.
Qed.

Lemma hloc_set_put_bind {Y : Type} (t : list R) (i : nat) (f : R → R) (k : () → M Y) :
  hbind (hloc_set S df i f) k (put_frame df (of_rows S t) h0)
  = k () (put_frame df (of_rows S (loc_set i f t)) h0).
Proof using HS Hdf. unfold hbind at 1. by rewrite hloc_set_put. Qed.

Lemma hsetting_put {Y : Type} (t : table) (key : string) (k : num → M Y) :
  hbind (hsetting key) k (put_frame df t h0)
  = match setting (calc_dict h0) key with
    | Ok x => k x (put_frame df t h0)
    | Raise e => (Raise e, put_frame df t h0)
    end.
Proof. unfold hbind, hsetting. cbn. by destruct (setting _ _). Qed.

Lemma hlift_bind {X Y : Type} (r : result X) (k : X → M Y) h :
  hbind (hlift r) k h
  = match r with
    | Ok x => k x h
    | Raise e => (Raise e, h)
    end.
Proof. unfold hbind, hlift. by destruct r. Qed.

(** A read of another frame is not affected by the writes to [df]. *)
Lemma hloc_other {R' Y : Type} (S' : shape (num := num) R') (p : ref) (rows : list R')
    (t : table) (i : nat) (k : R' → M Y) :
  shape_ok S' → p ≠ df → frame_at h0 p = of_rows S' rows →
  hbind (hloc S' p i) k (put_frame df t h0)
  = match loc rows i with
    | Ok x => k x (put_frame df t h0)
    | Raise e => (Raise e, put_frame df t h0)
    end.
Proof.
  intros HS' Hp Hrows. unfold hloc, hbind, hrows, hlift.
  rewrite frame_at_put_frame_ne by done. rewrite Hrows, HS'.
  by destruct (loc rows i).
Qed.

Lemma outcome_Ok (t : list R) :
  outcome S df h0 (Ok t) (Ok (), put_frame df (of_rows S t) h0).
Proof. by exists t. Qed.

Lemma outcome_Raise (e : exn) (t : list R) :
  outcome S df h0 (Raise e) (Raise e, put_frame df (of_rows S t) h0).
Proof. by exists t. Qed.

(** The loop, from the iteration. *)
Lemma hiterrows_from_outcome (body_h : nat → R → () → M ())
    (body : nat → R → list R → result (list R)) :
  (∀ i row t,
     outcome S df h0 (body i row t) (body_h i row () (put_frame df (of_rows S t) h0))) →
  ∀ rows i t,
    outcome S df h0 (iterrows_from body i rows t)
      (hiterrows_from body_h i rows () (put_frame df (of_rows S t) h0)).
Proof.
  intros Hbody. induction rows as [|row rest IH]; intros i t.
  - apply outcome_Ok.
  - cbn [hiterrows_from iterrows_from]. unfold hbind.
    destruct (Hbody i row t) as (t1 & Hst & Hres).
    destruct (body_h i row () _) as [r h1]. cbn in Hst, Hres. subst h1.
    destruct (body i row t) as [t'|e].
    + destruct Hres as [-> ->]. rewrite bind_Ok. apply IH.
    + subst r. apply outcome_Raise.
Qed.

End OneFrame.
End StoreFacts.

Section BodyFacts.
Context {num : Type} {A : Arith num}.
Implicit Types h : store (num := num).

Lemma collections_shape_ok : shape_ok (collections_shape (num := num)).
Proof. by intros rows. Qed.

Lemma purchases_shape_ok : shape_ok (purchases_shape (num := num)).
Proof. by intros rows. Qed.

Lemma cash_shape_ok : shape_ok (cash_shape (num := num)).
Proof. by intros rows. Qed.

Lemma sales_shape_ok : shape_ok (sales_shape (num := num)).
Proof. by intros rows. Qed.

Lemma periods_shape_ok : shape_ok (periods_shape (num := num)).
Proof. by intros rows. Qed.

(** One step of a loop body: the next operation of the stage is run and,
    when it raises, so does the row computation. *)
Tactic Notation "hread" uconstr(lem) :=
  rewrite lem;
  match goal with
  | |- outcome _ _ _ _ (match ?x with _ => _ end) =>
      destruct x; [rewrite ?bind_Ok | apply outcome_Raise]
  end.

Lemma collections_body_h_outcome (df : ref) h0 (i : nat) (row : collections_row)
    (t : list collections_row) :
  df < length (frames h0) →
  outcome collections_shape df h0 (collections_body (calc_dict h0) i row t)
    (collections_body_h df i row () (put_frame df (of_rows collections_shape t) h0)).
Proof.
  intros Hdf. unfold collections_body_h, collections_body.
  hread (hloc_put _ collections_shape_ok df h0 Hdf).
  hread hsetting_put. cbn zeta.
  rewrite (hloc_set_put_bind _ collections_shape_ok df h0 Hdf).
  destruct (0 <? i); [|apply outcome_Ok].
  hread (hloc_put _ collections_shape_ok df h0 Hdf).
  hread (hloc_put _ collections_shape_ok df h0 Hdf).
  hread hsetting_put.
  rewrite (hloc_set_put _ collections_shape_ok df h0 Hdf). apply outcome_Ok.
Qed.

Lemma purchases_body_h_outcome (df : ref) h0 (cost_per_unit : list num) (i : nat)
    (row : purchases_row) (t : list purchases_row) :
  df < length (frames h0) →
  outcome purchases_shape df h0 (purchases_body (calc_dict h0) cost_per_unit i row t)
    (purchases_body_h df cost_per_unit i row ()
       (put_frame df (of_rows purchases_shape t) h0)).
Proof.
  intros Hdf. unfold purchases_body_h, purchases_body.
  rewrite (hrows_put _ purchases_shape_ok df h0 Hdf).
  assert (Htail : ∀ t1,
    outcome purchases_shape df h0
      (cur ← loc t1 i;
       let df1 := loc_set i (set_purchases_units
                               (nsub (nadd (sales_units (sr_period (pr_sales row)))
                                           (desired_ending_inventory cur))
                                     (beginning_inventory cur))) t1 in
       cur ← loc df1 i;
       cpu ← iloc cost_per_unit i;
       Ok (loc_set i (set_purchases_cost (nmul (purchases_units cur) cpu)) df1))
      ((let! cur := hloc purchases_shape df i in
        let! _ := hloc_set purchases_shape df i
                    (set_purchases_units
                       (nsub (nadd (sales_units (sr_period (pr_sales row)))
                                   (desired_ending_inventory cur))
                             (beginning_inventory cur))) in
        let! cur := hloc purchases_shape df i in
        let! cpu := hlift (iloc cost_per_unit i) in
        hloc_set purchases_shape df i
          (set_purchases_cost (nmul (purchases_units cur) cpu)))
         (put_frame df (of_rows purchases_shape t1) h0))).
  { intros t1. hread (hloc_put _ purchases_shape_ok df h0 Hdf). cbn zeta.
    rewrite (hloc_set_put_bind _ purchases_shape_ok df h0 Hdf).
    hread (hloc_put _ purchases_shape_ok df h0 Hdf).
    hread hlift_bind.
    rewrite (hloc_set_put _ purchases_shape_ok df h0 Hdf). apply outcome_Ok. }
  assert (Hmid : ∀ t1,
    outcome purchases_shape df h0
      (df1 ← (if 0 <? i
              then prev ← loc t1 (i - 1);
                   Ok (loc_set i (set_beginning_inventory
                                    (desired_ending_inventory prev)) t1)
              else Ok t1);
       cur ← loc df1 i;
       let df2 := loc_set i (set_purchases_units
                               (nsub (nadd (sales_units (sr_period (pr_sales row)))
                                           (desired_ending_inventory cur))
                                     (beginning_inventory cur))) df1 in
       cur ← loc df2 i;
       cpu ← iloc cost_per_unit i;
       Ok (loc_set i (set_purchases_cost (nmul (purchases_units cur) cpu)) df2))
      ((let! _ := (if 0 <? i
                   then let! prev := hloc purchases_shape df (i - 1) in
                        hloc_set purchases_shape df i
                          (set_beginning_inventory (desired_ending_inventory prev))
                   else hret ()) in
        let! cur := hloc purchases_shape df i in
        let! _ := hloc_set purchases_shape df i
                    (set_purchases_units
                       (nsub (nadd (sales_units (sr_period (pr_sales row)))
                                   (desired_ending_inventory cur))
                             (beginning_inventory cur))) in
        let! cur := hloc purchases_shape df i in
        let! cpu := hlift (iloc cost_per_unit i) in
        hloc_set purchases_shape df i
          (set_purchases_cost (nmul (purchases_units cur) cpu)))
         (put_frame df (of_rows purchases_shape t1) h0))).
  { intros t1. destruct (0 <? i).
    - rewrite hbind_assoc. hread (hloc_put _ purchases_shape_ok df h0 Hdf).
      rewrite (hloc_set_put_bind _ purchases_shape_ok df h0 Hdf). apply Htail.
    - rewrite hret_bind, bind_Ok. apply Htail. }
  destruct (i <? length t - 1).
  - rewrite hbind_assoc. hread (hloc_put _ purchases_shape_ok df h0 Hdf).
    rewrite hbind_assoc. hread hsetting_put.
    rewrite (hloc_set_put_bind _ purchases_shape_ok df h0 Hdf). apply Hmid.
  - rewrite hret_bind, bind_Ok. apply Hmid.
Qed.

Lemma cash_budget_body_h_outcome (df purchases : ref) h0
    (pr : list purchases_row) (i : nat) (row : cash_row) (t : list cash_row) :
  df < length (frames h0) → purchases ≠ df →
  frame_at h0 purchases = of_rows purchases_shape pr →
  outcome cash_shape df h0 (cash_budget_body (calc_dict h0) pr i row t)
    (cash_budget_body_h df purchases i row ()
       (put_frame df (of_rows cash_shape t) h0)).
Proof.
  intros Hdf Hne Hpr. unfold cash_budget_body_h, cash_budget_body.
  hread (hloc_other df h0 purchases_shape purchases pr _ _ _ purchases_shape_ok Hne Hpr).
  hread (hloc_put _ cash_shape_ok df h0 Hdf).
  hread hsetting_put. cbn zeta.
  rewrite (hloc_set_put_bind _ cash_shape_ok df h0 Hdf).
  assert (Htail : ∀ t1,
    outcome cash_shape df h0
      (if i =? 0
       then bc ← setting (calc_dict h0) "beginning_cash";
            cur ← loc t1 i;
            Ok (loc_set i (set_ending_cash
                             (nsub (nadd bc (collections (cb_collections row)))
                                   (disbursements cur))) t1)
       else prev ← loc t1 (i - 1);
            cur ← loc t1 i;
            Ok (loc_set i (set_ending_cash
                             (nsub (nadd (ending_cash prev)
                                         (collections (cb_collections row)))
                                   (disbursements cur))) t1))
      ((if i =? 0
        then let! bc := hsetting "beginning_cash" in
             let! cur := hloc cash_shape df i in
             hloc_set cash_shape df i
               (set_ending_cash (nsub (nadd bc (collections (cb_collections row)))
                                      (disbursements cur)))
        else let! prev := hloc cash_shape df (i - 1) in
             let! cur := hloc cash_shape df i in
             hloc_set cash_shape df i
               (set_ending_cash (nsub (nadd (ending_cash prev)
                                            (collections (cb_collections row)))
                                      (disbursements cur))))
         (put_frame df (of_rows cash_shape t1) h0))).
  { intros t1. destruct (i =? 0).
    - hread hsetting_put. hread (hloc_put _ cash_shape_ok df h0 Hdf).
      rewrite (hloc_set_put _ cash_shape_ok df h0 Hdf). apply outcome_Ok.
    - hread (hloc_put _ cash_shape_ok df h0 Hdf).
      hread (hloc_put _ cash_shape_ok df h0 Hdf).
      rewrite (hloc_set_put _ cash_shape_ok df h0 Hdf). apply outcome_Ok. }
  destruct (0 <? i).
  - rewrite hbind_assoc.
    hread (hloc_other df h0 purchases_shape purchases pr _ _ _ purchases_shape_ok Hne Hpr).
    rewrite hbind_assoc. hread (hloc_put _ cash_shape_ok df h0 Hdf).
    rewrite hbind_assoc. hread hsetting_put.
    rewrite (hloc_set_put_bind _ cash_shape_ok df h0 Hdf). apply Htail.
  - rewrite hret_bind, bind_Ok. apply Htail.
Qed.

End BodyFacts.

Section StageFacts.
Context {num : Type} {A : Arith num}.
Implicit Types h : store (num := num).

Lemma frame_at_extend h (t : table) : frame_at (extend h t) (length (frames h)) = t.
Proof.
  unfold frame_at, extend. cbn. by rewrite lookup_app_r, Nat.sub_diag by lia.
Qed.

Lemma frame_at_extend_old h (t : table) (r : ref) :
  r < length (frames h) → frame_at (extend h t) r = frame_at h r.
Proof. intros Hr. unfold frame_at, extend. cbn. by rewrite lookup_app_l. Qed.

Lemma put_frame_extend h (t t' : table) :
  put_frame (length (frames h)) t' (extend h t) = extend h t'.
Proof.
  unfold put_frame, extend. cbn. f_equal.
  rewrite insert_app_r_alt, Nat.sub_diag by lia. done.
Qed.

Lemma extend_length h (t : table) :
  length (frames (extend h t)) = S (length (frames h)).
Proof. unfold extend. cbn. rewrite length_app. cbn. lia. Qed.

Lemma holds_extend {R : Type} (S : shape R) h (t : table) (r : ref) (rows : list R) :
  holds S h r rows → holds S (extend h t) r rows.
Proof.
  intros [Hr Hf]. split; [rewrite extend_length; lia|].
  by rewrite frame_at_extend_old.
Qed.

Lemma holds_new {R : Type} (S : shape R) h (t : table) (rows : list R) :
  t = of_rows S rows ∨ (rows = [] ∧ t = NoColumns) →
  holds S (extend h t) (length (frames h)) rows.
Proof.
  intros Ht. split; [rewrite extend_length; lia|]. by rewrite frame_at_extend.
Qed.

(** The frame a stage has just copied, as the frame [outcome] speaks of. *)
Lemma extend_as_put h (t t0 : table) :
  extend h t = put_frame (length (frames h)) t (extend h t0).
Proof. by rewrite put_frame_extend. Qed.

Lemma stage_result_empty {R : Type} (S : shape R) h :
  stage_result S h (Ok []) (halloc NoColumns h).
Proof. exists NoColumns. split; [done|]. split; [done|]. by right. Qed.

Lemma stage_result_loop {R : Type} (S : shape R) h (t0 : table)
    (pure : result (list R)) (res : result () * store) :
  outcome S (length (frames h)) (extend h t0) pure res →
  stage_result S h pure
    (match res with
     | (Ok _, h') => (Ok (length (frames h)), h')
     | (Raise e, h') => (Raise e, h')
     end).
Proof.
  intros (t & Hst & Hres). destruct res as [r h']. cbn in Hst, Hres. subst h'.
  rewrite put_frame_extend. exists (of_rows S t).
  destruct pure as [out|e].
  - destruct Hres as [-> ->]. split; [done|]. split; [done|]. by left.
  - subst r. by split.
Qed.

Lemma hempty_holds {R : Type} (S : shape R) h (r : ref) (rows : list R) :
  (∀ l, table_len (of_rows S l) = length l) →
  holds S h r rows →
  hempty (Some r) h = (Ok (is_none_or_empty (Some rows)), h).
Proof.
  intros Hlen [_ [Hf | [-> Hf]]]; unfold hempty; rewrite Hf.
  - rewrite Hlen. by destruct rows.
  - done.
Qed.

Lemma holds_nonempty {R : Type} (S : shape R) h (r : ref) (rows : list R) :
  holds S h r rows → is_none_or_empty (Some rows) = false →
  r < length (frames h) ∧ frame_at h r = of_rows S rows.
Proof. intros [Hr [Hf | [-> Hf]]] Hne; [done | discriminate]. Qed.

Lemma hcopy_bind {Y : Type} h (r : ref) (k : ref → M Y) :
  hbind (hcopy r) k h = k (length (frames h)) (extend h (frame_at h r)).
Proof. reflexivity. Qed.

Lemma halloc_bind {Y : Type} h (t : table) (k : ref → M Y) :
  hbind (halloc t) k h = k (length (frames h)) (extend h t).
Proof. reflexivity. Qed.

Lemma hassign_new {R R' Y : Type} (S : shape R) (T : list R' → table) h
    (f : list R → list R') (rows : list R) (k : () → M Y) :
  shape_ok S →
  hbind (hassign S T (length (frames h)) f) k (extend h (of_rows S rows))
  = k () (extend h (T (f rows))).
Proof.
  intros HS. unfold hassign, hbind, hrows.
  by rewrite frame_at_extend, HS, put_frame_extend.
Qed.

Lemma hrows_new {R Y : Type} (S : shape R) h (rows : list R) (k : list R → M Y) :
  shape_ok S →
  hbind (hrows S (length (frames h))) k (extend h (of_rows S rows))
  = k rows (extend h (of_rows S rows)).
Proof. intros HS. unfold hbind, hrows. by rewrite frame_at_extend, HS. Qed.

Lemma hrows_old {R Y : Type} (S : shape R) h (r : ref) (rows : list R) (k : list R → M Y) :
  shape_ok S → frame_at h r = of_rows S rows →
  hbind (hrows S r) k h = k rows h.
Proof. intros HS Hf. unfold hbind, hrows. by rewrite Hf, HS. Qed.

Lemma hsetting_bind {Y : Type} h (key : string) (k : num → M Y) :
  hbind (hsetting key) k h
  = match setting (calc_dict h) key with
    | Ok x => k x h
    | Raise e => (Raise e, h)
    end.
Proof. unfold hbind, hsetting. by destruct (setting _ _). Qed.

Lemma compute_sales_revenue_h_spec h (data : option ref) (table : option (list period)) :
  input_holds h data table →
  stage_result sales_shape h (compute_sales_revenue table) (compute_sales_revenue_h data h).
Proof.
  intros Hin. unfold compute_sales_revenue_h, compute_sales_revenue.
  destruct data as [r|], table as [rows|]; try done; [|apply stage_result_empty].
  cbn in Hin. unfold hbind at 1.
  rewrite (hempty_holds periods_shape h r rows) by done.
  destruct (is_none_or_empty (Some rows)) eqn:Hne; [apply stage_result_empty|].
  destruct (holds_nonempty _ _ _ _ Hin Hne) as [Hr Hf].
  change (default 0 (Some r)) with r. change (frame (Some rows)) with rows.
  rewrite hcopy_bind, Hf, (hassign_new periods_shape) by apply periods_shape_ok.
  eexists. split; [reflexivity|]. split; [done|]. by left.
Qed.

Lemma compute_collections_h_spec h (sales_data : ref) (rows : list sales_row) :
  holds sales_shape h sales_data rows →
  stage_result collections_shape h (compute_collections (calc_dict h) (Some rows))
    (compute_collections_h (Some sales_data) h).
Proof.
  intros Hin. unfold compute_collections_h, compute_collections.
  unfold hbind at 1. rewrite (hempty_holds sales_shape h _ rows) by done.
  destruct (is_none_or_empty (Some rows)) eqn:Hne; [apply stage_result_empty|].
  destruct (holds_nonempty _ _ _ _ Hin Hne) as [Hr Hf].
  change (default 0 (Some sales_data)) with sales_data.
  change (frame (Some rows)) with rows.
  rewrite hcopy_bind, Hf, (hassign_new sales_shape) by apply sales_shape_ok.
  change (@Collections num) with (of_rows (collections_shape (num := num))).
  rewrite (hrows_new collections_shape) by apply collections_shape_ok.
  unfold hbind, hiterrows, iterrows.
  rewrite (extend_as_put h (of_rows collections_shape _) (of_rows sales_shape rows)).
  apply (stage_result_loop collections_shape h (of_rows sales_shape rows)).
  apply hiterrows_from_outcome. intros i row t.
  apply (collections_body_h_outcome _ (extend h (of_rows sales_shape rows))).
  rewrite extend_length. lia.
Qed.

Lemma compute_purchases_h_spec h (sales_data : ref) (rows : list sales_row) :
  holds sales_shape h sales_data rows →
  stage_result purchases_shape h (compute_purchases (calc_dict h) (Some rows))
    (compute_purchases_h (Some sales_data) h).
Proof.
  intros Hin. unfold compute_purchases_h, compute_purchases.
  unfold hbind at 1. rewrite (hempty_holds sales_shape h _ rows) by done.
  destruct (is_none_or_empty (Some rows)) eqn:Hne; [apply stage_result_empty|].
  destruct (holds_nonempty _ _ _ _ Hin Hne) as [Hr Hf].
  change (default 0 (Some sales_data)) with sales_data.
  change (frame (Some rows)) with rows.
  rewrite hcopy_bind, Hf, (hassign_new sales_shape) by apply sales_shape_ok.
  change (@Purchases num) with (of_rows (purchases_shape (num := num))).
  rewrite (hrows_new purchases_shape) by apply purchases_shape_ok.
  unfold hbind, hiterrows, iterrows.
  rewrite (extend_as_put h (of_rows purchases_shape _) (of_rows sales_shape rows)).
  apply (stage_result_loop purchases_shape h (of_rows sales_shape rows)).
  apply hiterrows_from_outcome. intros i row t.
  apply (purchases_body_h_outcome _ (extend h (of_rows sales_shape rows))).
  rewrite extend_length. lia.
Qed.

Lemma compute_cash_budget_h_spec h (collections purchases : ref)
    (crows : list collections_row) (prows : list purchases_row) :
  holds collections_shape h collections crows →
  holds purchases_shape h purchases prows →
  stage_result cash_shape h
    (compute_cash_budget (calc_dict h) (Some crows) (Some prows))
    (compute_cash_budget_h (Some collections) (Some purchases) h).
Proof.
  intros Hc Hp. unfold compute_cash_budget_h, compute_cash_budget.
  unfold hbind at 1. rewrite (hempty_holds collections_shape h _ crows) by done.
  unfold hbind at 1. rewrite (hempty_holds purchases_shape h _ prows) by done.
  destruct (is_none_or_empty (Some crows)) eqn:Hnc; [apply stage_result_empty|].
  destruct (is_none_or_empty (Some prows)) eqn:Hnp; [apply stage_result_empty|].
  cbn [orb].
  destruct (holds_nonempty _ _ _ _ Hc Hnc) as [Hrc Hfc].
  destruct (holds_nonempty _ _ _ _ Hp Hnp) as [Hrp Hfp].
  change (default 0 (Some collections)) with collections.
  change (default 0 (Some purchases)) with purchases.
  change (frame (Some crows)) with crows. change (frame (Some prows)) with prows.
  rewrite hcopy_bind, Hfc, hsetting_bind.
  change (calc_dict (extend h (of_rows collections_shape crows))) with (calc_dict h).
  destruct (setting (calc_dict h) "beginning_cash") as [bc|e].
  2:{ eexists. split; [reflexivity|]. done. }
  rewrite bind_Ok, (hassign_new collections_shape) by apply collections_shape_ok.
  change (@CashBudget num) with (of_rows (cash_shape (num := num))).
  rewrite (hrows_new cash_shape) by apply cash_shape_ok.
  unfold hbind, hiterrows, iterrows.
  rewrite (extend_as_put h (of_rows cash_shape _) (of_rows collections_shape crows)).
  apply (stage_result_loop cash_shape h (of_rows collections_shape crows)).
  apply hiterrows_from_outcome. intros i row t.
  apply (cash_budget_body_h_outcome _ _ (extend h (of_rows collections_shape crows))).
  - rewrite extend_length. lia.
  - lia.
  - by rewrite frame_at_extend_old.
Qed.

Lemma compute_income_statement_h_spec h (sales_data : ref) (rows : list sales_row) :
  holds sales_shape h sales_data rows →
  stage_result income_shape h (compute_income_statement (Some rows))
    (compute_income_statement_h (Some sales_data) h).
Proof.
  intros Hin. unfold compute_income_statement_h, compute_income_statement.
  unfold hbind at 1. rewrite (hempty_holds sales_shape h _ rows) by done.
  destruct (is_none_or_empty (Some rows)) eqn:Hne; [apply stage_result_empty|].
  destruct (holds_nonempty _ _ _ _ Hin Hne) as [Hr Hf].
  change (default 0 (Some sales_data)) with sales_data.
  change (frame (Some rows)) with rows.
  rewrite halloc_bind, hbind_assoc.
  rewrite (hrows_old sales_shape _ sales_data rows);
    [|apply sales_shape_ok | by rewrite frame_at_extend_old].
  unfold hbind, hret. rewrite put_frame_extend.
  eexists. split; [reflexivity|]. split; [done|]. by left.
Qed.

Lemma hloc_old {R Y : Type} (S : shape R) h (r : ref) (rows : list R) (i : nat)
    (k : R → M Y) :
  shape_ok S → frame_at h r = of_rows S rows →
  hbind (hloc S r i) k h
  = match loc rows i with
    | Ok x => k x h
    | Raise e => (Raise e, h)
    end.
Proof.
  intros HS Hf. unfold hloc, hbind, hrows, hlift. rewrite Hf, HS.
  by destruct (loc rows i).
Qed.

Lemma receivables_body_h_eq h (sales_data : ref) (rows : list sales_row)
    (i : nat) (row : sales_row) (receivables : list num) :
  frame_at h sales_data = of_rows sales_shape rows →
  receivables_body_h sales_data i row receivables h
  = (receivables_body (calc_dict h) rows i row receivables, h).
Proof.
  intros Hf. unfold receivables_body_h, receivables_body.
  destruct (i =? 0).
  - rewrite hsetting_bind. by destruct (setting _ _).
  - rewrite hlift_bind. destruct (iloc _ _) as [pu|e]; [|done]. rewrite bind_Ok.
    rewrite hsetting_bind. destruct (setting _ _) as [cc|e]; [|done]. rewrite bind_Ok.
    cbn zeta. rewrite (hloc_old sales_shape h _ rows) by (apply sales_shape_ok || done).
    destruct (loc _ _) as [prev|e]; [|done]. rewrite bind_Ok.
    rewrite hsetting_bind. by destruct (setting _ _).
Qed.

Lemma receivables_loop_h h (sales_data : ref) (rows : list sales_row) :
  frame_at h sales_data = of_rows sales_shape rows →
  ∀ rest i receivables,
    hiterrows_from (receivables_body_h sales_data) i rest receivables h
    = (iterrows_from (receivables_body (calc_dict h) rows) i rest receivables, h).
Proof.
  intros Hf. induction rest as [|row rest IH]; intros i receivables; [done|].
  cbn [hiterrows_from iterrows_from]. unfold hbind.
  rewrite (receivables_body_h_eq h _ rows) by done.
  destruct (receivables_body _ _ _ _ _) as [r|e]; [|done].
  by rewrite bind_Ok, IH.
Qed.

Lemma compute_balance_sheet_h_spec h (cash_budget purchases sales_data : ref)
    (cb : list cash_row) (pu : list purchases_row) (sd : list sales_row) :
  holds cash_shape h cash_budget cb →
  holds purchases_shape h purchases pu →
  holds sales_shape h sales_data sd →
  stage_result balance_shape h
    (compute_balance_sheet (calc_dict h) (Some cb) (Some pu) (Some sd))
    (compute_balance_sheet_h (Some cash_budget) (Some purchases) (Some sales_data) h).
Proof.
  intros Hc Hp Hs. unfold compute_balance_sheet_h, compute_balance_sheet.
  unfold hbind at 1. rewrite (hempty_holds cash_shape h _ cb) by done.
  unfold hbind at 1. rewrite (hempty_holds purchases_shape h _ pu) by done.
  unfold hbind at 1. rewrite (hempty_holds sales_shape h _ sd) by done.
  destruct (is_none_or_empty (Some cb)) eqn:Hnc; [apply stage_result_empty|].
  destruct (is_none_or_empty (Some pu)) eqn:Hnp; [apply stage_result_empty|].
  destruct (is_none_or_empty (Some sd)) eqn:Hns; [apply stage_result_empty|].
  cbn [orb].
  destruct (holds_nonempty _ _ _ _ Hc Hnc) as [Hrc Hfc].
  destruct (holds_nonempty _ _ _ _ Hp Hnp) as [Hrp Hfp].
  destruct (holds_nonempty _ _ _ _ Hs Hns) as [Hrs Hfs].
  change (default 0 (Some cash_budget)) with cash_budget.
  change (default 0 (Some purchases)) with purchases.
  change (default 0 (Some sales_data)) with sales_data.
  change (frame (Some cb)) with cb. change (frame (Some pu)) with pu.
  change (frame (Some sd)) with sd.
  rewrite halloc_bind.
  rewrite (hrows_old sales_shape _ sales_data sd);
    [|apply sales_shape_ok | by rewrite frame_at_extend_old].
  rewrite (hrows_old cash_shape _ cash_budget cb);
    [|apply cash_shape_ok | by rewrite frame_at_extend_old].
  rewrite (hrows_old purchases_shape _ purchases pu);
    [|apply purchases_shape_ok | by rewrite frame_at_extend_old].
  unfold hbind at 1. unfold hiterrows, iterrows.
  rewrite (receivables_loop_h _ sales_data sd) by (by rewrite frame_at_extend_old).
  change (calc_dict (extend h NoColumns)) with (calc_dict h).
  destruct (iterrows_from _ _ _ _) as [recv|e].
  2:{ eexists. split; [reflexivity|]. done. }
  rewrite bind_Ok, hsetting_bind.
  change (calc_dict (extend h NoColumns)) with (calc_dict h).
  destruct (setting _ _) as [ratio|e].
  2:{ eexists. split; [reflexivity|]. done. }
  rewrite bind_Ok. unfold hbind, hret. rewrite put_frame_extend.
  eexists. split; [reflexivity|]. split; [done|]. by left.
Qed.

End StageFacts.

Section PipelineOnStore.
Context {num : Type} {A : Arith num}.
Implicit Types h : store (num := num).

Lemma store_extends_refl h : store_extends h h.
Proof. by split. Qed.

Lemma store_extends_extend h h' (t : table) :
  store_extends h h' → store_extends h (extend h' t).
Proof.
  intros [Hp Hd]. split; [|done]. cbn. by apply prefix_app_r.
Qed.

Lemma holds_store_extends {R : Type} (S : shape R) h h' (r : ref) (rows : list R) :
  store_extends h h' → holds S h r rows → holds S h' r rows.
Proof.
  intros [[extra Hp] _] [Hr Hf]. unfold holds, frame_at in *. rewrite Hp.
  rewrite length_app, lookup_app_l by done. split; [lia | done].
Qed.

Lemma rows_at_holds {R : Type} (S : shape R) h (r : ref) (rows : list R) :
  shape_ok S → as_rows S NoColumns = None →
  holds S h r rows → rows_at S h r = rows.
Proof.
  intros HS Hno [_ [Hf | [-> Hf]]]; unfold rows_at; rewrite Hf.
  - by rewrite HS.
  - by rewrite Hno.
Qed.

(** A stage inside the sequence. *)
Lemma hbind_stage {R Y : Type} (S : shape R) h (pure : result (list R))
    (m : M ref) (k : ref → M Y) :
  stage_result S h pure (m h) →
  ∃ t, match pure with
       | Ok out => hbind m k h = k (length (frames h)) (extend h t)
                   ∧ holds S (extend h t) (length (frames h)) out
       | Raise e => hbind m k h = (Raise e, extend h t)
       end.
Proof.
  intros (t & Hst & Hres). exists t. unfold hbind.
  destruct (m h) as [r h1]. cbn in Hst, Hres. subst h1.
  destruct pure as [out|e].
  - destruct Hres as [-> Ht]. split; [done|]. by apply holds_new.
  - by subst r.
Qed.

Lemma income_shape_ok : shape_ok (income_shape (num := num)).
Proof. by intros rows. Qed.

Lemma balance_shape_ok : shape_ok (balance_shape (num := num)).
Proof. by intros rows. Qed.

(** The stage sequence on the store computes what the stage sequence on
    the tables computes, and leaves every frame it was given, and the
    settings, as they were. *)
Lemma run_pipeline_h_spec h (data : option ref) (table : option (list period)) :
  input_holds h data table →
  store_extends h (run_pipeline_h data h).2
  ∧ read_reports (run_pipeline_h data h).2 (run_pipeline_h data h).1
    = run_pipeline {| calc_settings := calc_dict h |} table
  ∧ match (run_pipeline_h data h).1 with
    | Ok refs =>
        cash_budget_ref refs < length (frames (run_pipeline_h data h).2)
        ∧ income_statement_ref refs < length (frames (run_pipeline_h data h).2)
        ∧ balance_sheet_ref refs < length (frames (run_pipeline_h data h).2)
    | Raise _ => True
    end.
Proof.
  intros Hin. unfold run_pipeline_h, run_pipeline. cbn [calc_settings].
  lazymatch goal with
  | |- context [hbind (compute_sales_revenue_h ?a) ?k ?h0] =>
      destruct (hbind_stage sales_shape h0 _ (compute_sales_revenue_h a) k
                  (compute_sales_revenue_h_spec h data table Hin)) as [t1 H1]
  end.
  destruct (compute_sales_revenue table) as [sd|e].
  2:{ rewrite H1. split; [|done]. apply store_extends_extend, store_extends_refl. }
  destruct H1 as [-> Hsd]. rewrite bind_Ok.
  set (h1 := extend h t1) in *. set (r1 := length (frames h)) in *.
  assert (E1 : store_extends h h1) by apply store_extends_extend, store_extends_refl.
  lazymatch goal with
  | |- context [hbind (compute_collections_h ?a) ?k ?h0] =>
      destruct (hbind_stage collections_shape h0 _ (compute_collections_h a) k
                  (compute_collections_h_spec h1 r1 sd Hsd)) as [t2 H2]
  end.
  change (calc_dict h1) with (calc_dict h) in H2.
  destruct (compute_collections (calc_dict h) (Some sd)) as [co|e].
  2:{ rewrite H2. split; [|done]. by apply store_extends_extend. }
  destruct H2 as [-> Hco]. rewrite bind_Ok.
  set (h2 := extend h1 t2) in *. set (r2 := length (frames h1)) in *.
  assert (E2 : store_extends h h2) by (by apply store_extends_extend).
  assert (Hsd2 : holds sales_shape h2 r1 sd) by (by apply holds_extend).
  lazymatch goal with
  | |- context [hbind (compute_purchases_h ?a) ?k ?h0] =>
      destruct (hbind_stage purchases_shape h0 _ (compute_purchases_h a) k
                  (compute_purchases_h_spec h2 r1 sd Hsd2)) as [t3 H3]
  end.
  change (calc_dict h2) with (calc_dict h) in H3.
  destruct (compute_purchases (calc_dict h) (Some sd)) as [pu|e].
  2:{ rewrite H3. split; [|done]. by apply store_extends_extend. }
  destruct H3 as [-> Hpu]. rewrite bind_Ok.
  set (h3 := extend h2 t3) in *. set (r3 := length (frames h2)) in *.
  assert (E3 : store_extends h h3) by (by apply store_extends_extend).
  assert (Hsd3 : holds sales_shape h3 r1 sd) by (by apply holds_extend).
  assert (Hco3 : holds collections_shape h3 r2 co) by (by apply holds_extend).
  lazymatch goal with
  | |- context [hbind (compute_cash_budget_h ?a ?b) ?k ?h0] =>
      destruct (hbind_stage cash_shape h0 _ (compute_cash_budget_h a b) k
                  (compute_cash_budget_h_spec h3 r2 r3 co pu Hco3 Hpu)) as [t4 H4]
  end.
  change (calc_dict h3) with (calc_dict h) in H4.
  destruct (compute_cash_budget (calc_dict h) (Some co) (Some pu)) as [cb|e].
  2:{ rewrite H4. split; [|done]. by apply store_extends_extend. }
  destruct H4 as [-> Hcb]. rewrite bind_Ok.
  set (h4 := extend h3 t4) in *. set (r4 := length (frames h3)) in *.
  assert (E4 : store_extends h h4) by (by apply store_extends_extend).
  assert (Hsd4 : holds sales_shape h4 r1 sd) by (by apply holds_extend).
  assert (Hpu4 : holds purchases_shape h4 r3 pu) by (by apply holds_extend).
  lazymatch goal with
  | |- context [hbind (compute_income_statement_h ?a) ?k ?h0] =>
      destruct (hbind_stage income_shape h0 _ (compute_income_statement_h a) k
                  (compute_income_statement_h_spec h4 r1 sd Hsd4)) as [t5 H5]
  end.
  destruct (compute_income_statement (Some sd)) as [inc|e].
  2:{ rewrite H5. split; [|done]. by apply store_extends_extend. }
  destruct H5 as [-> Hinc]. rewrite bind_Ok.
  set (h5 := extend h4 t5) in *. set (r5 := length (frames h4)) in *.
  assert (E5 : store_extends h h5) by (by apply store_extends_extend).
  assert (Hsd5 : holds sales_shape h5 r1 sd) by (by apply holds_extend).
  assert (Hpu5 : holds purchases_shape h5 r3 pu) by (by apply holds_extend).
  assert (Hcb5 : holds cash_shape h5 r4 cb) by (by apply holds_extend).
  lazymatch goal with
  | |- context [hbind (compute_balance_sheet_h ?a ?b ?c) ?k ?h0] =>
      destruct (hbind_stage balance_shape h0 _ (compute_balance_sheet_h a b c) k
                  (compute_balance_sheet_h_spec h5 r4 r3 r1 cb pu sd Hcb5 Hpu5 Hsd5))
        as [t6 H6]
  end.
  change (calc_dict h5) with (calc_dict h) in H6.
  destruct (compute_balance_sheet (calc_dict h) (Some cb) (Some pu) (Some sd)) as [bs|e].
  2:{ rewrite H6. split; [|done]. by apply store_extends_extend. }
  destruct H6 as [-> Hbs]. rewrite bind_Ok.
  split; [by apply store_extends_extend|].
  cbn [hret fst snd read_reports cash_budget_ref income_statement_ref balance_sheet_ref].
  assert (Hcb6 : holds cash_shape (extend h5 t6) r4 cb) by (by apply holds_extend).
  assert (Hinc6 : holds income_shape (extend h5 t6) r5 inc) by (by apply holds_extend).
  split.
  - f_equal. f_equal.
    + by apply rows_at_holds; [apply cash_shape_ok | done |].
    + by apply rows_at_holds; [apply income_shape_ok | done |].
    + by apply rows_at_holds; [apply balance_shape_ok | done |].
  - split; [apply Hcb6|]. split; [apply Hinc6 | apply Hbs].
Qed.

Lemma rows_at_store_extends {R : Type} (S : shape R) h h' (r : ref) :
  store_extends h h' → r < length (frames h) → rows_at S h' r = rows_at S h r.
Proof.
  intros [[extra Hp] _] Hr. unfold rows_at, frame_at. rewrite Hp.
  by rewrite lookup_app_l.
Qed.

Lemma store_extends_trans h1 h2 h3 :
  store_extends h1 h2 → store_extends h2 h3 → store_extends h1 h3.
Proof.
  intros [Hp Hd] [Hp' Hd']. split; [by etrans | congruence].
Qed.

Lemma input_holds_store_extends h h' (data : option ref) (table : option (list period)) :
  store_extends h h' → input_holds h data table → input_holds h' data table.
Proof.
  intros He. destruct data, table; try done. cbn. by apply holds_store_extends.
Qed.

End PipelineOnStore.

Lemma stage_result_extends {num : Type} {R : Type} (S : shape (num := num) R)
    (h : store) (pure : result (list R)) (res : result ref * store) :
  stage_result S h pure res → store_extends h res.2.
Proof.
  intros (t & -> & _). apply store_extends_extend, store_extends_refl.
Qed.

(** C9.  The stage sequence, run on a store of shared frames, returns
    reports that are a function of the input table and the settings
    alone: two runs on the same table and the same settings return the
    same reports (or raise the same exception) whatever else the two
    stores hold and wherever the table lies in them.  A run changes no
    frame that was in the store before it, the input table included, and
    does not change the settings; so a second run, in the store the
    first one left, returns the reports of the first again and leaves the
    frames of the first intact.  Inside a run, every stage leaves the
    frames it is handed as they were: the one sales frame that three
    stages receive, the collections and the purchases handed on to the
    cash budget and the balance sheet. *)
Theorem run_pipeline_deterministic
    (num : Type) (A : Arith num) (h h' : store) (data data' : option ref)
    (table : option (list period)) :
  input_holds h data table → input_holds h' data' table →
  calc_dict h = calc_dict h' →
  let first := run_pipeline_h data h in
  let other := run_pipeline_h data' h' in
  let second := run_pipeline_h data first.2 in
  read_reports first.2 first.1 = read_reports other.2 other.1
  ∧ read_reports second.2 second.1 = read_reports first.2 first.1
  ∧ read_reports second.2 first.1 = read_reports first.2 first.1
  ∧ store_extends h first.2
  ∧ input_holds first.2 data table
  ∧ read_reports first.2 first.1 = run_pipeline {| calc_settings := calc_dict h |} table
  ∧ (∀ h0 sales_data rows, holds sales_shape h0 sales_data rows →
       store_extends h0 (compute_collections_h (Some sales_data) h0).2
       ∧ store_extends h0 (compute_purchases_h (Some sales_data) h0).2
       ∧ store_extends h0 (compute_income_statement_h (Some sales_data) h0).2)
  ∧ (∀ h0 collections purchases crows prows,
       holds collections_shape h0 collections crows →
       holds purchases_shape h0 purchases prows →
       store_extends h0
         (compute_cash_budget_h (Some collections) (Some purchases) h0).2)
  ∧ (∀ h0 cash_budget purchases sales_data cb pu sd,
       holds cash_shape h0 cash_budget cb →
       holds purchases_shape h0 purchases pu →
       holds sales_shape h0 sales_data sd →
       store_extends h0
         (compute_balance_sheet_h (Some cash_budget) (Some purchases)
            (Some sales_data) h0).2).
Proof.
  intros Hin Hin' Hd. cbn zeta.
  destruct (run_pipeline_h_spec h data table Hin) as (E1 & R1 & V1).
  destruct (run_pipeline_h_spec h' data' table Hin') as (_ & R' & _).
  pose proof (input_holds_store_extends _ _ _ _ E1 Hin) as Hin1.
  destruct (run_pipeline_h_spec _ data table Hin1) as (E2 & R2 & _).
  assert (Hd1 : calc_dict (run_pipeline_h data h).2 = calc_dict h) by apply E1.
  split; [by rewrite R1, R', Hd|].
  split; [by rewrite R2, R1, Hd1|].
  split.
  { destruct (run_pipeline_h data h).1 as [refs|e]; [|done].
    destruct V1 as (V1 & V2 & V3). cbn [read_reports].
    by rewrite !(rows_at_store_extends _ _ _ _ E2). }
  do 3 (split; [done|]).
  split; [|split].
  - intros h0 sales_data rows Hs. split; [|split].
    + eapply stage_result_extends. by apply compute_collections_h_spec.
    + eapply stage_result_extends. by apply compute_purchases_h_spec.
    + eapply stage_result_extends. by apply compute_income_statement_h_spec.
  - intros h0 c p crows prows Hc Hp.
    eapply stage_result_extends. by apply compute_cash_budget_h_spec.
  - intros h0 c p s cb pu sd Hc Hp Hs.
    eapply stage_result_extends. by apply compute_balance_sheet_h_spec.
Qed.

Lemma run_pipeline_deterministic_witness :
  let h := {| frames := [Periods sample_data]; calc_dict := default_policy |} in
  let h' := {| frames := [NoColumns; Periods sample_data];
               calc_dict := default_policy |} in
  let first := run_pipeline_h (Some 0) h in
  let other := run_pipeline_h (Some 1) h' in
  let second := run_pipeline_h (Some 0) first.2 in
  read_reports first.2 first.1 = read_reports other.2 other.1
  ∧ read_reports second.2 second.1 = read_reports first.2 first.1
  ∧ read_reports second.2 first.1 = read_reports first.2 first.1
  ∧ store_extends h first.2
  ∧ input_holds first.2 (Some 0) (Some sample_data)
  ∧ read_reports first.2 first.1
    = run_pipeline {| calc_settings := calc_dict h |} (Some sample_data).
Proof.
  destruct (run_pipeline_deterministic float float_arith
              {| frames := [Periods sample_data]; calc_dict := default_policy |}
              {| frames := [NoColumns; Periods sample_data];
                 calc_dict := default_policy |}
              (Some 0) (Some 1) (Some sample_data))
    as (H1 & H2 & H3 & H4 & H5 & H6 & _).
  - split; [cbn; lia | by left].
  - split; [cbn; lia | by left].
  - reflexivity.
  - exact (conj H1 (conj H2 (conj H3 (conj H4 (conj H5 H6))))).
Defined.


(** ** The claims about the settings manager *)

(** C8.  When the settings mapping lacks a key of the default set,
    [get_setting] returns the default: 0.6 and 0.4 for the collection
    ratios, 0.5 and 0.5 for the payment ratios, 0.2 for the ending
    inventory, 0.3 for the external financing, 2.0 for the working capital
    turnover and the integer 100000 for the beginning cash. *)
Theorem get_setting_falls_back_to_default
    (current : gmap string pyval) (key : string) (v : pyval) :
  (key, v) ∈ [ ("sales_collection_current", PyFloat 0.6);
               ("sales_collection_next", PyFloat 0.4);
               ("purchases_payment_current", PyFloat 0.5);
               ("purchases_payment_next", PyFloat 0.5);
               ("ending_inventory_pct", PyFloat 0.2);
               ("external_financing_ratio", PyFloat 0.3);
               ("working_capital_turnover", PyFloat 2.0);
               ("beginning_cash", PyInt 100000) ] →
  current !! key = None →
  SettingsManager.get_setting
    {| SettingsManager.default_settings := SettingsManager.DEFAULTS;
       SettingsManager.settings := current |} key = v.
Proof.
  intros Hin Hnone. unfold SettingsManager.get_setting.
  cbn [SettingsManager.settings SettingsManager.default_settings].
  rewrite Hnone.
  repeat (apply elem_of_cons in Hin as [Heq|Hin];
          [injection Heq as -> ->; reflexivity|]).
  by apply elem_of_nil in Hin.
Qed.

Lemma get_setting_falls_back_to_default_witness :
  SettingsManager.get_setting
    {| SettingsManager.default_settings := SettingsManager.DEFAULTS;
       SettingsManager.settings := ∅ |} "beginning_cash" = PyInt 100000.
Proof.
  apply (get_setting_falls_back_to_default ∅ "beginning_cash" (PyInt 100000)).
  - do 7 (apply elem_of_cons; right). apply elem_of_cons. by left.
  - reflexivity.
Defined.

(** C10, as amended.  [set_setting] returns [False] and leaves the
    settings mapping as it is for a key outside the default set; for a key
    of the default set it stores [float(value)] and returns [True] when
    the conversion succeeds, and returns [False] with the mapping unchanged
    when the conversion raises [ValueError] or [TypeError]; the
    [OverflowError] of an [int] too large for a float is not caught. *)
Theorem set_setting_outcomes
    (parse_float : string → option float) (self : SettingsManager.t)
    (key : string) (value : pyval) :
  (SettingsManager.default_settings self !! key = None →
   SettingsManager.set_setting parse_float self key value = Ok (false, self))
  ∧ (∀ d f,
       SettingsManager.default_settings self !! key = Some d →
       SettingsManager.py_float parse_float value = Ok f →
       SettingsManager.set_setting parse_float self key value
       = Ok (true,
             {| SettingsManager.default_settings := SettingsManager.default_settings self;
                SettingsManager.settings :=
                  <[key := PyFloat f]> (SettingsManager.settings self) |}))
  ∧ (∀ d,
       SettingsManager.default_settings self !! key = Some d →
       SettingsManager.py_float parse_float value = Raise ValueError
       ∨ SettingsManager.py_float parse_float value = Raise TypeError →
       SettingsManager.set_setting parse_float self key value = Ok (false, self))
  ∧ (∀ d,
       SettingsManager.default_settings self !! key = Some d →
       SettingsManager.py_float parse_float value = Raise OverflowError →
       SettingsManager.set_setting parse_float self key value = Raise OverflowError).
Proof.
  unfold SettingsManager.set_setting. split; [|split; [|split]].
  - intros Hnone. rewrite Hnone. by case_decide as H; [destruct H|].
  - intros d f Hd Hf. rewrite Hd, Hf. by case_decide as H; [|destruct H].
  - intros d Hd Hf. rewrite Hd.
    case_decide as H; [|by destruct H]. by destruct Hf as [-> | ->].
  - intros d Hd Hf. rewrite Hd, Hf. by case_decide as H; [|destruct H].
Qed.

Lemma set_setting_outcomes_witness :
  SettingsManager.set_setting no_strings SettingsManager.init "discount" (PyFloat 1)
  = Ok (false, SettingsManager.init)
  ∧ SettingsManager.set_setting no_strings SettingsManager.init "beginning_cash" (PyInt 5)
    = Ok (true,
          {| SettingsManager.default_settings := SettingsManager.DEFAULTS;
             SettingsManager.settings :=
               <["beginning_cash" := PyFloat 5]> SettingsManager.DEFAULTS |})
  ∧ SettingsManager.set_setting no_strings SettingsManager.init "beginning_cash"
      (PyStr "abc")
    = Ok (false, SettingsManager.init)
  ∧ SettingsManager.set_setting no_strings SettingsManager.init "beginning_cash"
      (PyInt (2 ^ 1024))
    = Raise OverflowError.
Proof.
  split; [|split; [|split]].
  - apply (proj1 (set_setting_outcomes no_strings SettingsManager.init
                    "discount" (PyFloat 1))).
    reflexivity.
  - apply (proj1 (proj2 (set_setting_outcomes no_strings SettingsManager.init
                           "beginning_cash" (PyInt 5))) (PyInt 100000) 5%float).
    + reflexivity.
    + reflexivity.
  - apply (proj1 (proj2 (proj2 (set_setting_outcomes no_strings SettingsManager.init
                                  "beginning_cash" (PyStr "abc")))) (PyInt 100000)).
    + reflexivity.
    + left. reflexivity.
  - apply (proj2 (proj2 (proj2 (set_setting_outcomes no_strings SettingsManager.init
                                  "beginning_cash" (PyInt (2 ^ 1024))))) (PyInt 100000)).
    + reflexivity.
    + vm_compute. reflexivity.
Defined.

(** C10, as stated, fails: [2 ** 1024] is an [int] that [float()] cannot
    convert, [beginning_cash] is a key of the default set, and
    [set_setting] raises [OverflowError] instead of returning [False]. *)
Lemma set_setting_overflow_escapes :
  is_Some (SettingsManager.default_settings SettingsManager.init !! "beginning_cash")
  ∧ SettingsManager.py_float no_strings (PyInt (2 ^ 1024)) = Raise OverflowError
  ∧ SettingsManager.set_setting no_strings SettingsManager.init "beginning_cash"
      (PyInt (2 ^ 1024)) = Raise OverflowError
  ∧ SettingsManager.set_setting no_strings SettingsManager.init "beginning_cash"
      (PyInt (2 ^ 1024)) ≠ Ok (false, SettingsManager.init).
Proof.
  assert (Hraise : SettingsManager.set_setting no_strings SettingsManager.init
                     "beginning_cash" (PyInt (2 ^ 1024)) = Raise OverflowError)
    by (vm_compute; reflexivity).
  split; [by eexists|]. split; [vm_compute; reflexivity|]. split; [done|].
  by rewrite Hraise.
Qed.

(** * Further properties of the engine *)

Section PipelineFacts.
Context {num : Type} {A : Arith num}.

Lemma compute_sales_revenue_rows (data : list period) :
  ∃ sd, compute_sales_revenue (Some data) = Ok sd
    ∧ length sd = length data
    ∧ ∀ i p, data !! i = Some p →
        sd !! i = Some {| sr_period := p;
                          sales_revenue := nmul (sales_units p) (unit_price p) |}.
Proof.
  destruct data as [|p0 data'] eqn:E; [by exists []|]. rewrite <- E.
  eexists. split; [by rewrite E|]. change (frame (Some data)) with data.
  split; [by rewrite length_fmap|].
  intros i p Hp. by rewrite list_lookup_fmap, Hp.
Qed.

(** X1.  With the seven settings present, the stage sequence succeeds on
    every non-empty table: the three reports have one row per input
    quarter, in the input order, the cash budget keeps the input row and
    shows the [beginning_cash] setting in every row, the income statement
    shows the revenue of the sales table, and the balance sheet takes its
    cash from the cash budget's ending cash of the same quarter. *)
Theorem run_pipeline_aligned (self : BudgetCalculator) (data : list period)
    (cc cn pct bc pay_cur pay_next ratio : num) :
  data ≠ [] →
  calc_settings self !! "sales_collection_current" = Some cc →
  calc_settings self !! "sales_collection_next" = Some cn →
  calc_settings self !! "ending_inventory_pct" = Some pct →
  calc_settings self !! "beginning_cash" = Some bc →
  calc_settings self !! "purchases_payment_current" = Some pay_cur →
  calc_settings self !! "purchases_payment_next" = Some pay_next →
  calc_settings self !! "external_financing_ratio" = Some ratio →
  ∃ reps, run_pipeline self (Some data) = Ok reps
    ∧ length (cash_budget_report reps) = length data
    ∧ length (income_statement_report reps) = length data
    ∧ length (balance_sheet_report reps) = length data
    ∧ ∀ i p, data !! i = Some p →
        ∃ cb inc bs,
          cash_budget_report reps !! i = Some cb
          ∧ income_statement_report reps !! i = Some inc
          ∧ balance_sheet_report reps !! i = Some bs
          ∧ sr_period (cr_sales (cb_collections cb)) = p
          ∧ beginning_cash cb = bc
          ∧ is_quarter inc = quarter p
          ∧ total_revenue inc = sales_revenue (cr_sales (cb_collections cb))
          ∧ bs_quarter bs = quarter p
          ∧ cash bs = ending_cash cb
          ∧ total_assets bs = nadd (nadd (cash bs) (inventory bs)) (receivables bs).
Proof.
  intros Hne Hcc Hcn Hpct Hbc Hcur Hnext Hratio. unfold run_pipeline.
  destruct (compute_sales_revenue_rows data) as (sd & Hsd & Hlsd & Hsrows).
  rewrite Hsd, bind_Ok.
  destruct (compute_collections_inv _ cc cn Hcc Hcn sd) as (coll & Hcoll & Hlc & Hcrows).
  rewrite Hcoll, bind_Ok.
  destruct (compute_purchases_inv _ pct Hpct sd) as (purch & Hpurch & Hlp & Hprows).
  rewrite Hpurch, bind_Ok.
  assert (Hsdne : sd ≠ []) by (destruct sd, data; done).
  assert (Hcne : coll ≠ []) by (destruct coll, sd; done).
  destruct (compute_cash_budget_inv _ bc pay_cur pay_next Hbc Hcur Hnext coll purch Hcne)
    as (cbt & Hcb & Hlcb & Hcbrows); [lia|].
  rewrite Hcb, bind_Ok.
  assert (Hinc : compute_income_statement (Some sd)
                 = Ok ((λ s,
          let p := sr_period s in
          let total_revenue := nmul (sales_units p) (unit_price p) in
          let cost_per_unit := nmul (unit_price p) cogs_ratio in
          let total_cogs := nmul (sales_units p) cost_per_unit in
          {| is_quarter := quarter p;
             total_revenue := total_revenue;
             total_cogs := total_cogs;
             gross_profit := nsub total_revenue total_cogs |}) <$> sd)).
  { unfold compute_income_statement. by destruct sd. }
  rewrite Hinc, bind_Ok.
  destruct (compute_balance_sheet_eq _ cc cn ratio Hcc Hcn Hratio cbt purch sd)
    as (recv & Hrecv & Hbs); [by destruct cbt, coll | by destruct purch, sd | done |].
  rewrite Hbs, bind_Ok.
  eexists. split; [reflexivity|]. cbn [cash_budget_report income_statement_report balance_sheet_report].
  split; [lia|]. split; [rewrite length_fmap; lia|]. split; [rewrite length_imap; lia|].
  intros i p Hp. pose proof (Hsrows _ _ Hp) as Hs.
  pose proof (Hcrows _ _ Hs) as Hc.
  destruct (Hcbrows _ _ Hc) as (cb & Hcbi & Hcbc & Hcbb & _).
  exists cb. eexists. eexists.
  split; [done|]. split; [by rewrite list_lookup_fmap, Hs|].
  split; [by rewrite list_lookup_imap, Hs|].
  rewrite Hcbc. cbn. unfold aligned. rewrite Hcbi. done.
Qed.
End PipelineFacts.

Lemma run_pipeline_aligned_witness :
  ∃ reps, run_pipeline {| calc_settings := default_policy |} (Some sample_data) = Ok reps
    ∧ length (cash_budget_report reps) = length sample_data
    ∧ length (income_statement_report reps) = length sample_data
    ∧ length (balance_sheet_report reps) = length sample_data.
Proof.
  destruct (run_pipeline_aligned (num := float) {| calc_settings := default_policy |}
              sample_data 0.6%float 0.4%float 0.2%float 100000%float 0.5%float
              0.5%float 0.3%float)
    as (reps & Hrun & Hcb & Hinc & Hbs & _).
  - discriminate.
  - reflexivity.
  - reflexivity.
  - reflexivity.
  - reflexivity.
  - reflexivity.
  - reflexivity.
  - reflexivity.
  - exists reps. repeat split; assumption.
Defined.

Section ReadKeys.
Context {num : Type} {A : Arith num}.

Lemma setting_agree (s1 s2 : gmap string num) (key : string) :
  s1 !! key = s2 !! key → setting s1 key = setting s2 key.
Proof. intros H. unfold setting. by rewrite H. Qed.

Lemma stages_agree (s1 s2 : gmap string num) :
  Forall (λ k, s1 !! k = s2 !! k) engine_keys →
  (∀ sd, compute_collections s1 sd = compute_collections s2 sd)
  ∧ (∀ sd, compute_purchases s1 sd = compute_purchases s2 sd)
  ∧ (∀ c p, compute_cash_budget s1 c p = compute_cash_budget s2 c p)
  ∧ (∀ c p sd, compute_balance_sheet s1 c p sd = compute_balance_sheet s2 c p sd).
Proof.
  intros H.
  apply Forall_cons in H as [H1%setting_agree H].
  apply Forall_cons in H as [H2%setting_agree H].
  apply Forall_cons in H as [H3%setting_agree H].
  apply Forall_cons in H as [H4%setting_agree H].
  apply Forall_cons in H as [H5%setting_agree H].
  apply Forall_cons in H as [H6%setting_agree H].
  apply Forall_cons in H as [H7%setting_agree _].
  repeat split; intros.
  - unfold compute_collections, collections_body. by rewrite H1, H2.
  - unfold compute_purchases, purchases_body. by rewrite H3.
  - unfold compute_cash_budget, cash_budget_body. by rewrite H4, H5, H6.
  - unfold compute_balance_sheet, receivables_body. by rewrite H1, H2, H7.
Qed.

(** X2.  The stage sequence reads seven settings and nothing else: two
    calculators whose settings agree on those keys give the same result on
    every table.  In particular [working_capital_turnover] has no effect
    on any report. *)
Theorem run_pipeline_reads_seven_keys (self1 self2 : BudgetCalculator)
    (data : option (list period)) :
  Forall (λ k, calc_settings self1 !! k = calc_settings self2 !! k) engine_keys →
  run_pipeline self1 data = run_pipeline self2 data.
Proof.
  intros H. destruct (stages_agree _ _ H) as (Hc & Hp & Hb & Hs).
  unfold run_pipeline.
  destruct (compute_sales_revenue data) as [sd|e]; [|done]. rewrite !bind_Ok.
  rewrite Hc, Hp. destruct (compute_collections _ _) as [c|e]; [|done]. rewrite !bind_Ok.
  destruct (compute_purchases _ _) as [p|e]; [|done]. rewrite !bind_Ok.
  rewrite Hb. destruct (compute_cash_budget _ _ _) as [cb|e]; [|done]. rewrite !bind_Ok.
  destruct (compute_income_statement _) as [inc|e]; [|done]. rewrite !bind_Ok.
  by rewrite Hs.
Qed.
End ReadKeys.

Lemma run_pipeline_reads_seven_keys_witness :
  run_pipeline {| calc_settings := default_policy |} (Some sample_data)
  = run_pipeline {| calc_settings := delete "working_capital_turnover" default_policy |}
      (Some sample_data).
Proof.
  apply (run_pipeline_reads_seven_keys (num := float)).
  repeat constructor.
Defined.

Section LazyKeys.
Context {num : Type} {A : Arith num}.

Lemma purchases_body_missing_key (settings : gmap string num) (cpu : list num)
    (i : nat) (row nxt : purchases_row) (df : list purchases_row) :
  df !! (i + 1) = Some nxt → settings !! "ending_inventory_pct" = None →
  purchases_body settings cpu i row df = Raise (KeyError (KStr "ending_inventory_pct")).
Proof.
  intros Hn Hnone. unfold purchases_body.
  pose proof (lookup_lt_Some _ _ _ Hn) as Hlt.
  destruct (Nat.ltb_spec i (length df - 1)); [|lia].
  by rewrite (loc_Some _ _ _ Hn), bind_Ok, (setting_None _ _ Hnone), !bind_Raise.
Qed.

(** X3.  [compute_purchases] reads [ending_inventory_pct] only for a row
    that has a next row: without the key, a one-row table still gives its
    row (no desired ending inventory, no beginning inventory), and a longer
    table raises [KeyError] at its first row. *)
Theorem compute_purchases_reads_key_when_next_row
    (settings : gmap string num) (s : sales_row) (rest : list sales_row) :
  settings !! "ending_inventory_pct" = None →
  compute_purchases settings (Some (s :: rest)) =
    match rest with
    | [] =>
        let units := nsub (nadd (sales_units (sr_period s)) zero) zero in
        Ok [ {| pr_sales := s;
                desired_ending_inventory := zero;
                beginning_inventory := zero;
                purchases_units := units;
                purchases_cost := nmul units (nmul (unit_price (sr_period s)) cogs_ratio) |} ]
    | _ :: _ => Raise (KeyError (KStr "ending_inventory_pct"))
    end.
Proof.
  intros Hnone. destruct rest as [|s1 rest]; [reflexivity|].
  unfold compute_purchases, iterrows.
  cbn [is_none_or_empty frame fmap list_fmap iterrows_from].
  by erewrite purchases_body_missing_key.
Qed.

Lemma collections_body_missing_next (settings : gmap string num) (cc : num)
    (i : nat) (row r prev : collections_row) (df : list collections_row) :
  df !! S i = Some r → df !! i = Some prev →
  settings !! "sales_collection_current" = Some cc →
  settings !! "sales_collection_next" = None →
  collections_body settings (S i) row df
  = Raise (KeyError (KStr "sales_collection_next")).
Proof.
  intros Hr Hp Hcc Hnone. unfold collections_body.
  rewrite (loc_Some _ _ _ Hr), bind_Ok, (setting_Some _ _ _ Hcc), bind_Ok.
  replace (0 <? S i) with true by done. replace (S i - 1) with i by lia.
  rewrite (loc_Some _ i prev) by (by rewrite loc_set_ne by lia).
  rewrite bind_Ok. erewrite loc_Some by (by apply loc_set_eq).
  by rewrite bind_Ok, (setting_None _ _ Hnone), !bind_Raise.
Qed.

Lemma collections_body_first (settings : gmap string num) (cc : num)
    (row r : collections_row) (df : list collections_row) :
  settings !! "sales_collection_current" = Some cc →
  collections_body settings 0 row (r :: df)
  = Ok (set_collections (nadd (collections r) (nmul (sales_revenue (cr_sales row)) cc)) r
        :: df).
Proof.
  intros Hcc. unfold collections_body.
  by rewrite (loc_Some _ 0 r), bind_Ok, (setting_Some _ _ _ Hcc), bind_Ok.
Qed.

(** X4.  [compute_collections] raises [KeyError] for
    [sales_collection_current] at the first row when that key is missing;
    [sales_collection_next] is read from the second row on, so without it
    a one-row table succeeds and a longer one raises [KeyError] for it. *)
Theorem compute_collections_missing_keys
    (settings : gmap string num) (s : sales_row) (rest : list sales_row) :
  (settings !! "sales_collection_current" = None →
   compute_collections settings (Some (s :: rest))
   = Raise (KeyError (KStr "sales_collection_current")))
  ∧ (∀ cc, settings !! "sales_collection_current" = Some cc →
       settings !! "sales_collection_next" = None →
       compute_collections settings (Some (s :: rest)) =
         match rest with
         | [] => Ok [ {| cr_sales := s;
                         collections := nadd zero (nmul (sales_revenue s) cc) |} ]
         | _ :: _ => Raise (KeyError (KStr "sales_collection_next"))
         end).
Proof.
  split.
  - intros Hnone. by apply compute_collections_missing_key.
  - intros cc Hcc Hnone.
    unfold compute_collections, iterrows.
    cbn [is_none_or_empty frame fmap list_fmap iterrows_from].
    rewrite (collections_body_first _ _ _ _ _ Hcc), bind_Ok.
    destruct rest as [|s1 rest]; [reflexivity|].
    cbn [fmap list_fmap iterrows_from].
    by erewrite (collections_body_missing_next _ cc 0).
Qed.
End LazyKeys.

Lemma compute_purchases_reads_key_when_next_row_witness :
  compute_purchases (∅ : gmap string float) (Some sample_sales)
  = Raise (KeyError (KStr "ending_inventory_pct")).
Proof.
  unfold sample_sales.
  apply (compute_purchases_reads_key_when_next_row (num := float) ∅).
  reflexivity.
Defined.

Lemma compute_collections_missing_keys_witness :
  compute_collections (∅ : gmap string float) (Some sample_sales)
  = Raise (KeyError (KStr "sales_collection_current"))
  ∧ compute_collections
      (delete "sales_collection_next" default_policy) (Some sample_sales)
    = Raise (KeyError (KStr "sales_collection_next")).
Proof.
  unfold sample_sales. split.
  - apply (proj1 (compute_collections_missing_keys (num := float) ∅ _ _)).
    reflexivity.
  - match goal with
    | |- context [Some (?s :: ?rest)] =>
        exact (proj2 (compute_collections_missing_keys (num := float)
                        (delete "sales_collection_next" default_policy) s rest)
                 0.6%float eq_refl eq_refl)
    end.
Defined.

Section Misaligned.
Context {num : Type} {A : Arith num}.

Lemma iterrows_from_app {R T : Type} (body : nat → R → T → result T)
    (l1 l2 : list R) :
  ∀ (i : nat) (t : T),
    iterrows_from body i (l1 ++ l2) t
    = iterrows_from body i l1 t ≫= iterrows_from body (i + length l1) l2.
Proof.
  induction l1 as [|r l1 IH]; intros i t; simpl.
  - by rewrite Nat.add_0_r.
  - destruct (body i r t) as [t'|e]; [|done]. simpl. rewrite IH.
    by replace (S i + length l1) with (i + S (length l1)) by lia.
Qed.

(** One iteration keeps the invariant as long as purchases has the row. *)
Lemma cash_budget_body_inv_lt (settings : gmap string num) (bc pay_cur pay_next : num)
    (coll : list collections_row) (purchases : list purchases_row) (k : nat)
    (c : collections_row) (row : cash_row) (df : list cash_row) :
  settings !! "beginning_cash" = Some bc →
  settings !! "purchases_payment_current" = Some pay_cur →
  settings !! "purchases_payment_next" = Some pay_next →
  k < length purchases →
  coll !! k = Some c → cb_collections row = c →
  cash_inv bc pay_cur pay_next coll purchases k df →
  ∃ df', cash_budget_body settings purchases k row df = Ok df'
         ∧ cash_inv bc pay_cur pay_next coll purchases (S k) df'.
Proof.
  intros Hbc Hcur Hnext Hkp Hk Hrow [Hlen Hinv].
  destruct (Hinv k c Hk) as (r & Hr & Hrc & Hrb & Hrz).
  rewrite Nat.ltb_irrefl in Hrz. destruct Hrz as [Hd0 He0].
  pose proof (lookup_lt_Some _ _ _ Hk) as Hlt.
  destruct (lookup_lt_is_Some_2 purchases k) as [p Hp]; [lia|].
  assert (He : ∃ e, opening bc df k = Some e).
  { destruct k as [|k']; [by eexists|]. cbn.
    destruct (lookup_lt_is_Some_2 coll k') as [c' Hc']; [lia|].
    destruct (Hinv _ _ Hc') as (r' & Hr' & _). rewrite Hr'. by eexists. }
  destruct He as [e He].
  rewrite (cash_budget_body_eq settings bc pay_cur pay_next Hbc Hcur Hnext
             _ _ _ _ _ _ _ Hr Hp He).
  eexists. split; [reflexivity|]. split; [by rewrite length_insert|].
  intros j t Hj. destruct (decide (j = k)) as [->|Hne].
  - assert (t = c) by congruence; subst t.
    rewrite list_lookup_insert_eq by (apply lookup_lt_Some in Hr; lia).
    eexists. split; [reflexivity|]. ltb_cases.
    cbn [cb_collections beginning_cash]. split; [done|]. split; [done|]. split.
    + exists p. split; [done|]. cbn. rewrite Hd0. unfold two_tap.
      by destruct (prev_row purchases k).
    + exists e. rewrite opening_insert by lia. split; [done|]. cbn.
      by rewrite Hrow, Hrc.
  - rewrite list_lookup_insert_ne by done.
    destruct (Hinv _ _ Hj) as (r' & Hr' & Hrc' & Hrb' & Hrz').
    exists r'. split; [done|]. split; [done|]. split; [done|].
    destruct (Nat.ltb_spec j (S k)) as [E1|E1], (Nat.ltb_spec j k) as [E2|E2];
      try lia; [|done].
    destruct Hrz' as [Hd' (e' & He' & Hec')].
    split; [done|]. exists e'. by rewrite opening_insert by lia.
Qed.

Lemma cash_budget_body_no_row (settings : gmap string num)
    (purchases : list purchases_row) (i : nat) (row : cash_row) (df : list cash_row) :
  purchases !! i = None →
  cash_budget_body settings purchases i row df = Raise (KeyError (KRow i)).
Proof. intros H. unfold cash_budget_body, loc. by rewrite H. Qed.

(** X5.  When the purchases table is shorter than the collections table
    (and not empty), [compute_cash_budget] raises [KeyError] for the first
    row label the purchases table lacks. *)
Theorem compute_cash_budget_short_purchases
    (settings : gmap string num) (bc pay_cur pay_next : num)
    (coll : list collections_row) (purchases : list purchases_row) :
  settings !! "beginning_cash" = Some bc →
  settings !! "purchases_payment_current" = Some pay_cur →
  settings !! "purchases_payment_next" = Some pay_next →
  0 < length purchases → length purchases < length coll →
  compute_cash_budget settings (Some coll) (Some purchases)
  = Raise (KeyError (KRow (length purchases))).
Proof.
  intros Hbc Hcur Hnext Hpos Hshort. unfold compute_cash_budget.
  replace (is_none_or_empty (Some coll) || is_none_or_empty (Some purchases))
    with false by (destruct coll, purchases; cbn in *; done || lia).
  rewrite (setting_Some _ _ _ Hbc), bind_Ok.
  change (frame (Some coll)) with coll. change (frame (Some purchases)) with purchases.
  set (df0 := _ <$> coll). set (n := length purchases).
  assert (Hlen0 : length df0 = length coll) by (unfold df0; by rewrite length_fmap).
  unfold iterrows. rewrite <- (take_drop n df0) at 1. rewrite iterrows_from_app.
  destruct (iterrows_from_inv (cash_budget_body settings purchases)
              (cash_inv bc pay_cur pay_next coll purchases) (take n df0) 0 df0)
    as (df1 & Hrun & Hlen1 & Hrows).
  - split; [done|]. intros j c Hj. unfold df0. rewrite list_lookup_fmap, Hj.
    eexists. split; [reflexivity|]. done.
  - intros k row df Hk Hinv. cbn [Nat.add] in *.
    apply lookup_take_Some in Hk as [Hk Hkn]. unfold df0 in Hk.
    apply list_lookup_fmap_Some_1 in Hk as (c & -> & Hc).
    by apply (cash_budget_body_inv_lt settings bc pay_cur pay_next coll purchases k c).
  - rewrite Hrun, bind_Ok. rewrite length_take, Hlen0. cbn [Nat.add].
    replace (n `min` length coll) with n by lia.
    destruct (drop n df0) as [|row rest] eqn:Ed.
    { apply (f_equal length) in Ed. rewrite length_drop in Ed. cbn in Ed. lia. }
    cbn [iterrows_from].
    by rewrite cash_budget_body_no_row by (by apply lookup_ge_None_2).
Qed.
End Misaligned.

Lemma compute_cash_budget_short_purchases_witness :
  compute_cash_budget default_policy (Some sample_collections)
    (Some (take 2 sample_purchases))
  = Raise (KeyError (KRow (length (take 2 sample_purchases)))).
Proof.
  apply (compute_cash_budget_short_purchases (num := float) default_policy
           100000%float 0.5%float 0.5%float).
  - reflexivity.
  - reflexivity.
  - reflexivity.
  - vm_compute. lia.
  - vm_compute. lia.
Defined.

(** ** Missing rows in the balance sheet *)

Lemma float_nan_add_l (x : float) : (PrimFloat.nan + x)%float = PrimFloat.nan.
Proof. apply Prim2SF_inj. rewrite add_spec. reflexivity. Qed.

Lemma float_nan_add_r (x : float) : (x + PrimFloat.nan)%float = PrimFloat.nan.
Proof. by rewrite float_add_comm, float_nan_add_l. Qed.

Lemma float_nan_mul_l (x : float) : (PrimFloat.nan * x)%float = PrimFloat.nan.
Proof. apply Prim2SF_inj. rewrite mul_spec. reflexivity. Qed.

Lemma float_nan_sub_l (x : float) : (PrimFloat.nan - x)%float = PrimFloat.nan.
Proof. apply Prim2SF_inj. rewrite sub_spec. reflexivity. Qed.

(** X6.  [compute_balance_sheet] does not raise when the cash budget or
    the purchases table is shorter than the sales table: it still returns
    one row per sales row, and in binary64 a row past the end of the cash
    budget has a NaN cash, a row past the end of the purchases table has a
    NaN inventory, and in either case total assets, external financing,
    equity and liabilities-and-equity are NaN. *)
Theorem compute_balance_sheet_short_tables
    (settings : gmap string float) (cc cn ratio : float)
    (cash_budget : list (cash_row (num := float)))
    (purchases : list (purchases_row (num := float)))
    (sales_data : list (sales_row (num := float))) :
  cash_budget ≠ [] → purchases ≠ [] → sales_data ≠ [] →
  settings !! "sales_collection_current" = Some cc →
  settings !! "sales_collection_next" = Some cn →
  settings !! "external_financing_ratio" = Some ratio →
  ∃ out,
    compute_balance_sheet settings (Some cash_budget) (Some purchases) (Some sales_data)
      = Ok out
    ∧ length out = length sales_data
    ∧ (∀ i r, out !! i = Some r → length cash_budget ≤ i → cash r = PrimFloat.nan)
    ∧ (∀ i r, out !! i = Some r → length purchases ≤ i → inventory r = PrimFloat.nan)
    ∧ (∀ i r, out !! i = Some r →
         length cash_budget ≤ i ∨ length purchases ≤ i →
         total_assets r = PrimFloat.nan
         ∧ external_financing r = PrimFloat.nan
         ∧ equity r = PrimFloat.nan
         ∧ liabilities_equity r = PrimFloat.nan).
Proof.
  intros H1 H2 H3 Hcc Hcn Hratio.
  destruct (balance_sheet_rows settings cc cn ratio cash_budget purchases sales_data
              H1 H2 H3 Hcc Hcn Hratio) as (recv & out & Hrun & Hlen & _ & Hrows).
  exists out. split; [done|]. split; [done|].
  assert (Hc : ∀ i r, out !! i = Some r → length cash_budget ≤ i → cash r = PrimFloat.nan).
  { intros i r Hr Hi. destruct (Hrows _ _ Hr) as (s & _ & ->).
    unfold balance_sheet_row, aligned. cbn [cash].
    by rewrite (lookup_ge_None_2 cash_budget i). }
  assert (Hi : ∀ i r, out !! i = Some r → length purchases ≤ i → inventory r = PrimFloat.nan).
  { intros i r Hr Hi. destruct (Hrows _ _ Hr) as (s & _ & ->).
    unfold balance_sheet_row, aligned. cbn [inventory].
    by rewrite (lookup_ge_None_2 purchases i). }
  split; [done|]. split; [done|].
  intros i r Hr Hshort.
  assert (Hta : total_assets r = PrimFloat.nan).
  { destruct (Hrows _ _ Hr) as (s & _ & Er).
    assert (total_assets r = (cash r + inventory r + receivables r)%float) as -> by (by subst r).
    destruct Hshort as [Hs|Hs].
    - by rewrite (Hc _ _ Hr Hs), !float_nan_add_l.
    - by rewrite (Hi _ _ Hr Hs), float_nan_add_r, float_nan_add_l. }
  destruct (Hrows _ _ Hr) as (s & _ & Er).
  assert (Hef : external_financing r = (total_assets r * ratio)%float) by (by subst r).
  assert (Heq : equity r = (total_assets r - external_financing r)%float) by (by subst r).
  assert (Hle : liabilities_equity r = (external_financing r + equity r)%float) by (by subst r).
  rewrite Hta, float_nan_mul_l in Hef. rewrite Hta, float_nan_sub_l in Heq.
  rewrite Hef, float_nan_add_l in Hle. done.
Qed.

Lemma compute_balance_sheet_short_tables_witness :
  ∃ out,
    compute_balance_sheet default_policy (Some (take 2 sample_cash_budget))
      (Some sample_purchases) (Some sample_sales) = Ok out
    ∧ length out = length sample_sales
    ∧ (∀ i r, out !! i = Some r → length (take 2 sample_cash_budget) ≤ i →
         cash r = PrimFloat.nan)
    ∧ (∀ i r, out !! i = Some r → length sample_purchases ≤ i →
         inventory r = PrimFloat.nan)
    ∧ (∀ i r, out !! i = Some r →
         length (take 2 sample_cash_budget) ≤ i ∨ length sample_purchases ≤ i →
         total_assets r = PrimFloat.nan
         ∧ external_financing r = PrimFloat.nan
         ∧ equity r = PrimFloat.nan
         ∧ liabilities_equity r = PrimFloat.nan).
Proof.
  apply (compute_balance_sheet_short_tables default_policy 0.6%float 0.4%float 0.3%float).
  - discriminate.
  - discriminate.
  - discriminate.
  - reflexivity.
  - reflexivity.
  - reflexivity.
Defined.

(** * Further properties of the settings manager *)

Section SettingsFacts.
Variable parse_float : string → option float.

(** [default_settings] is never assigned after [__init__]. *)
Lemma set_setting_default_settings (self self' : SettingsManager.t) (key : string)
    (value : pyval) (b : bool) :
  SettingsManager.set_setting parse_float self key value = Ok (b, self') →
  SettingsManager.default_settings self' = SettingsManager.default_settings self.
Proof.
  unfold SettingsManager.set_setting. intros H. case_decide as Hk.
  - destruct (SettingsManager.py_float parse_float value) as [f|[]];
      try discriminate; by injection H as <- <-.
  - by injection H as <- <-.
Qed.

Lemma update_settings_default_settings (self self' : SettingsManager.t)
    (items : list (string * pyval)) (r : result bool) :
  update_settings parse_float self items = (r, self') →
  SettingsManager.default_settings self' = SettingsManager.default_settings self.
Proof.
  revert self. induction items as [|[key value] items IH]; intros self H; cbn in H.
  - by injection H as <- <-.
  - case_decide as Hk; [|by apply IH in H].
    destruct (SettingsManager.py_float parse_float value) as [f|e].
    + by apply IH in H.
    + by destruct e; injection H as <- <-.
Qed.

(** X8.  A call of [set_setting] that returns changes at most the entry of
    its key: the default settings and what [get_setting] returns for every
    other key stay the same; when it returns [True], [get_setting] of the
    key returns the stored [float(value)], and when it returns [False] the
    manager is unchanged. *)
Theorem set_setting_then_get (self self' : SettingsManager.t) (key : string)
    (value : pyval) (b : bool) :
  SettingsManager.set_setting parse_float self key value = Ok (b, self') →
  SettingsManager.default_settings self' = SettingsManager.default_settings self
  ∧ (∀ k, k ≠ key →
       SettingsManager.get_setting self' k = SettingsManager.get_setting self k)
  ∧ if b then ∃ f, SettingsManager.py_float parse_float value = Ok f
                   ∧ SettingsManager.get_setting self' key = PyFloat f
    else self' = self.
Proof.
  unfold SettingsManager.set_setting. intros H.
  case_decide as Hk.
  - destruct (SettingsManager.py_float parse_float value) as [f|[]] eqn:Ef;
      try discriminate; injection H as <- <-; try done.
    split; [done|]. split.
    + intros k Hne. unfold SettingsManager.get_setting. cbn.
      by rewrite lookup_insert_ne.
    + exists f. split; [done|]. unfold SettingsManager.get_setting. cbn.
      by rewrite lookup_insert_eq.
  - by injection H as <- <-.
Qed.

(** X9.  An update with a single entry behaves as [set_setting] on that
    entry when the key is in the default set; for a key outside the
    default set [update_settings] returns [True] (the entry is skipped,
    its value is not even converted) where [set_setting] returns
    [False]. *)
Theorem update_settings_single (self : SettingsManager.t) (key : string) (value : pyval) :
  update_settings parse_float self [(key, value)] =
    match SettingsManager.default_settings self !! key with
    | None => (Ok true, self)
    | Some _ =>
        match SettingsManager.set_setting parse_float self key value with
        | Ok (b, self') => (Ok b, self')
        | Raise e => (Raise e, self)
        end
    end
  ∧ (SettingsManager.default_settings self !! key = None →
     SettingsManager.set_setting parse_float self key value = Ok (false, self)).
Proof.
  unfold SettingsManager.set_setting. cbn [update_settings].
  destruct (SettingsManager.default_settings self !! key) as [d|] eqn:Ed.
  - split; [|done]. case_decide as H; [|by destruct H].
    by destruct (SettingsManager.py_float parse_float value) as [f|[]].
  - split; [|intros _]; by case_decide as H; [destruct H|].
Qed.

(** X10.  Whatever [update_settings] returns or raises, it leaves the
    default settings as they were, does not touch an entry whose key is
    outside the default set, stores only floats, and keeps the settings on
    the key set of the defaults when they were on it before. *)
Theorem update_settings_keeps_keys (self self' : SettingsManager.t)
    (items : list (string * pyval)) (r : result bool) :
  update_settings parse_float self items = (r, self') →
  SettingsManager.default_settings self' = SettingsManager.default_settings self
  ∧ (∀ k, SettingsManager.default_settings self !! k = None →
       SettingsManager.settings self' !! k = SettingsManager.settings self !! k)
  ∧ (∀ k v, SettingsManager.settings self' !! k = Some v →
       SettingsManager.settings self !! k = Some v ∨ ∃ f, v = PyFloat f)
  ∧ (dom (SettingsManager.settings self) = dom (SettingsManager.default_settings self) →
     dom (SettingsManager.settings self') = dom (SettingsManager.default_settings self')).
Proof.
  revert self. induction items as [|[key value] items IH]; intros self H; cbn in H.
  - injection H as <- <-. repeat split; auto.
  - case_decide as Hk.
    + destruct (SettingsManager.py_float parse_float value) as [f|e] eqn:Ef.
      * apply IH in H as (Hd & Hother & Hval & Hdom). cbn in *.
        split; [done|]. split; [|split].
        -- intros k Hnone. rewrite (Hother k Hnone).
           apply lookup_insert_ne. intros ->. rewrite Hnone in Hk. by destruct Hk.
        -- intros k v Hv. destruct (Hval k v Hv) as [Hold|?]; [|by right].
           destruct (decide (key = k)) as [->|Hne].
           ++ rewrite lookup_insert_eq in Hold. injection Hold as <-. right. by eexists.
           ++ rewrite lookup_insert_ne in Hold by done. by left.
        -- intros Hwf. apply Hdom. rewrite dom_insert_L, Hwf.
           apply subseteq_union_1_L, singleton_subseteq_l. by apply elem_of_dom.
      * destruct e; injection H as <- <-; repeat split; auto.
    + by apply IH in H.
Qed.

Lemma update_settings_app (self : SettingsManager.t) (l1 l2 : list (string * pyval)) :
  update_settings parse_float self (l1 ++ l2) =
    match update_settings parse_float self l1 with
    | (Ok true, mid) => update_settings parse_float mid l2
    | stopped => stopped
    end.
Proof.
  revert self. induction l1 as [|[key value] l1 IH]; intros self; [done|].
  simpl. case_decide as Hk; [|by apply IH].
  destruct (SettingsManager.py_float parse_float value) as [f|[]]; done.
Qed.

(** The run of [update_settings] on entries that all convert. *)
Lemma update_settings_convertible (self : SettingsManager.t)
    (items : list (string * pyval)) :
  NoDup items.*1 →
  Forall (λ kv, is_Some (SettingsManager.default_settings self !! kv.1) →
                ∃ f, SettingsManager.py_float parse_float kv.2 = Ok f) items →
  ∃ self',
    update_settings parse_float self items = (Ok true, self')
    ∧ (∀ k v f, (k, v) ∈ items →
         is_Some (SettingsManager.default_settings self !! k) →
         SettingsManager.py_float parse_float v = Ok f →
         SettingsManager.settings self' !! k = Some (PyFloat f))
    ∧ (∀ k, k ∉ items.*1 ∨ SettingsManager.default_settings self !! k = None →
         SettingsManager.settings self' !! k = SettingsManager.settings self !! k).
Proof.
  revert self. induction items as [|[key value] items IH]; intros self Hnd Hall.
  { exists self. split; [done|]. split; [|done]. intros k v f Hin. by apply elem_of_nil in Hin. }
  cbn in Hnd. apply NoDup_cons in Hnd as [Hfresh Hnd].
  apply Forall_cons in Hall as [Hhead Hall]. cbn [fst snd] in Hhead.
  cbn [update_settings]. case_decide as Hk.
  - destruct (Hhead Hk) as [f Hf]. rewrite Hf.
    set (mid := {| SettingsManager.default_settings := _; SettingsManager.settings := _ |}).
    destruct (IH mid Hnd Hall) as (self' & Hrun & Hset & Hkeep).
    exists self'. split; [done|]. split.
    + intros k v g Hin Hknown Hg. apply elem_of_cons in Hin as [Heq|Hin].
      * injection Heq as -> ->. rewrite Hkeep by (by left).
        cbn. rewrite lookup_insert_eq. congruence.
      * by apply (Hset k v g).
    + intros k Hk'. rewrite Hkeep.
      * cbn. apply lookup_insert_ne. intros ->. destruct Hk' as [Hk'|Hk'].
        -- apply Hk'. cbn. apply elem_of_cons. by left.
        -- rewrite Hk' in Hk. by destruct Hk.
      * destruct Hk' as [Hk'|Hk']; [left|by right].
        intros Hin. apply Hk'. cbn. apply elem_of_cons. by right.
  - destruct (IH self Hnd Hall) as (self' & Hrun & Hset & Hkeep).
    exists self'. split; [done|]. split.
    + intros k v g Hin Hknown Hg. apply elem_of_cons in Hin as [Heq|Hin].
      * injection Heq as -> ->. by destruct Hk.
      * by apply (Hset k v g).
    + intros k Hk'. apply Hkeep. destruct Hk' as [Hk'|Hk']; [left|by right].
      intros Hin. apply Hk'. cbn. apply elem_of_cons. by right.
Qed.

(** X11.  When every entry with a key of the default set has a value that
    [float()] converts, [update_settings] returns [True]; afterwards each
    such key holds the float of its value, every other key holds what
    it held before, and the settings still have exactly the keys of the
    defaults if they had before. *)
Theorem update_settings_all_convertible (self : SettingsManager.t)
    (items : list (string * pyval)) :
  NoDup items.*1 →
  Forall (λ kv, is_Some (SettingsManager.default_settings self !! kv.1) →
                ∃ f, SettingsManager.py_float parse_float kv.2 = Ok f) items →
  ∃ self',
    update_settings parse_float self items = (Ok true, self')
    ∧ (∀ k v f, (k, v) ∈ items →
         is_Some (SettingsManager.default_settings self !! k) →
         SettingsManager.py_float parse_float v = Ok f →
         SettingsManager.settings self' !! k = Some (PyFloat f))
    ∧ (∀ k, k ∉ items.*1 ∨ SettingsManager.default_settings self !! k = None →
         SettingsManager.settings self' !! k = SettingsManager.settings self !! k)
    ∧ (dom (SettingsManager.settings self) = dom (SettingsManager.default_settings self) →
       dom (SettingsManager.settings self') = dom (SettingsManager.default_settings self)).
Proof.
  intros Hnd Hall.
  destruct (update_settings_convertible self items Hnd Hall) as (self' & Hrun & Hset & Hkeep).
  exists self'. split; [done|]. split; [done|]. split; [done|].
  intros Hdom. apply set_eq. intros k. rewrite !elem_of_dom.
  destruct (SettingsManager.default_settings self !! k) as [d|] eqn:Ed.
  - split; [by eexists|]. intros _.
    destruct (decide (k ∈ items.*1)) as [Hin|Hout].
    + apply list_elem_of_fmap in Hin as ([k' v] & -> & Hin). cbn in *.
      pose proof (proj1 (Forall_forall _ _) Hall _ Hin) as Hconv. cbn in Hconv.
      destruct Hconv as [f Hf]; [by rewrite Ed|].
      rewrite (Hset k' v f Hin); [by eexists | by rewrite Ed | done].
    + rewrite Hkeep by (by left). apply elem_of_dom. rewrite Hdom.
      apply elem_of_dom. by rewrite Ed.
  - rewrite Hkeep by (by right). rewrite <- !elem_of_dom, Hdom, elem_of_dom, Ed.
    split; intros [? ?]; done.
Qed.

(** X12.  [update_settings] is not all-or-nothing: when an entry with a
    key of the default set has a value whose conversion raises
    [ValueError] or [TypeError], the call returns [False], the entries
    before it stay stored and the entries after it are not looked at. *)
Theorem update_settings_stops_at_first_failure (self mid : SettingsManager.t)
    (good rest : list (string * pyval)) (key : string) (bad d : pyval) :
  update_settings parse_float self good = (Ok true, mid) →
  SettingsManager.default_settings self !! key = Some d →
  SettingsManager.py_float parse_float bad = Raise ValueError
  ∨ SettingsManager.py_float parse_float bad = Raise TypeError →
  update_settings parse_float self (good ++ (key, bad) :: rest) = (Ok false, mid).
Proof.
  intros Hgood Hkey Hbad. rewrite update_settings_app, Hgood.
  pose proof (update_settings_default_settings _ _ _ _ Hgood) as Hd.
  cbn [update_settings]. rewrite Hd, Hkey.
  case_decide as H; [|by destruct H]. by destruct Hbad as [-> | ->].
Qed.

(** X13.  [reset_to_defaults] undoes every update: after any
    [update_settings] or [set_setting] it gives the manager that resetting
    at once would have given, in which [get_setting] returns the default
    of every key (and [0.0] for a key that has none). *)
Theorem reset_to_defaults_undoes_updates (self : SettingsManager.t)
    (items : list (string * pyval)) (key : string) (value : pyval) :
  reset_to_defaults (update_settings parse_float self items).2 = reset_to_defaults self
  ∧ (∀ b self', SettingsManager.set_setting parse_float self key value = Ok (b, self') →
       reset_to_defaults self' = reset_to_defaults self)
  ∧ (∀ k, SettingsManager.get_setting (reset_to_defaults self) k
          = default (PyFloat 0) (SettingsManager.default_settings self !! k)).
Proof.
  split; [|split].
  - destruct (update_settings parse_float self items) as [r self'] eqn:E.
    pose proof (update_settings_default_settings _ _ _ _ E) as Hd.
    unfold reset_to_defaults. cbn. by rewrite Hd.
  - intros b self' H. pose proof (set_setting_default_settings _ _ _ _ _ H) as Hd.
    unfold reset_to_defaults. by rewrite Hd.
  - intros k. unfold SettingsManager.get_setting, reset_to_defaults. cbn.
    by destruct (SettingsManager.default_settings self !! k).
Qed.

End SettingsFacts.

Lemma set_setting_then_get_witness :
  SettingsManager.default_settings
    {| SettingsManager.default_settings := SettingsManager.DEFAULTS;
       SettingsManager.settings :=
         <["beginning_cash" := PyFloat 5]> SettingsManager.DEFAULTS |}
  = SettingsManager.default_settings SettingsManager.init
  ∧ (∀ k, k ≠ "beginning_cash" →
       SettingsManager.get_setting
         {| SettingsManager.default_settings := SettingsManager.DEFAULTS;
            SettingsManager.settings :=
              <["beginning_cash" := PyFloat 5]> SettingsManager.DEFAULTS |} k
       = SettingsManager.get_setting SettingsManager.init k)
  ∧ ∃ f, SettingsManager.py_float no_strings (PyInt 5) = Ok f
         ∧ SettingsManager.get_setting
             {| SettingsManager.default_settings := SettingsManager.DEFAULTS;
                SettingsManager.settings :=
                  <["beginning_cash" := PyFloat 5]> SettingsManager.DEFAULTS |}
             "beginning_cash" = PyFloat f.
Proof.
  apply (set_setting_then_get no_strings SettingsManager.init _ "beginning_cash"
           (PyInt 5) true).
  reflexivity.
Defined.

Lemma update_settings_single_witness :
  update_settings no_strings SettingsManager.init [("discount", PyStr "abc")]
  = (Ok true, SettingsManager.init)
  ∧ SettingsManager.set_setting no_strings SettingsManager.init "discount" (PyStr "abc")
    = Ok (false, SettingsManager.init).
Proof.
  split.
  - exact (proj1 (update_settings_single no_strings SettingsManager.init
                    "discount" (PyStr "abc"))).
  - apply (proj2 (update_settings_single no_strings SettingsManager.init
                    "discount" (PyStr "abc"))).
    reflexivity.
Defined.

Lemma update_settings_keeps_keys_witness :
  SettingsManager.default_settings
    {| SettingsManager.default_settings := SettingsManager.DEFAULTS;
       SettingsManager.settings :=
         <["beginning_cash" := PyFloat 5]> SettingsManager.DEFAULTS |}
  = SettingsManager.DEFAULTS.
Proof.
  exact (proj1 (update_settings_keeps_keys no_strings SettingsManager.init
                  {| SettingsManager.default_settings := SettingsManager.DEFAULTS;
                     SettingsManager.settings :=
                       <["beginning_cash" := PyFloat 5]> SettingsManager.DEFAULTS |}
                  [("beginning_cash", PyInt 5); ("discount", PyStr "abc")] (Ok true)
                  eq_refl)).
Defined.

Lemma update_settings_all_convertible_witness :
  ∃ self',
    update_settings no_strings SettingsManager.init
      [("beginning_cash", PyInt 5); ("discount", PyStr "abc")] = (Ok true, self')
    ∧ SettingsManager.settings self' !! "beginning_cash" = Some (PyFloat 5)
    ∧ SettingsManager.settings self' !! "discount" = None.
Proof.
  destruct (update_settings_all_convertible no_strings SettingsManager.init
              [("beginning_cash", PyInt 5); ("discount", PyStr "abc")])
    as (self' & Hrun & Hset & Hkeep & _).
  - apply (bool_decide_unpack _). vm_compute. reflexivity.
  - constructor; [|constructor; [|constructor]].
    + intros _. by exists 5%float.
    + intros [d Hd]. discriminate Hd.
  - exists self'. split; [exact Hrun|]. split.
    + apply (Hset "beginning_cash" (PyInt 5) 5%float).
      * apply elem_of_cons. by left.
      * by eexists.
      * reflexivity.
    + rewrite Hkeep; [reflexivity|]. by right.
Defined.

Lemma update_settings_stops_at_first_failure_witness :
  update_settings no_strings SettingsManager.init
    ([("beginning_cash", PyInt 5)] ++ [("ending_inventory_pct", PyStr "abc");
                                        ("sales_collection_next", PyFloat 1)])
  = (Ok false,
     {| SettingsManager.default_settings := SettingsManager.DEFAULTS;
        SettingsManager.settings :=
          <["beginning_cash" := PyFloat 5]> SettingsManager.DEFAULTS |}).
Proof.
  apply (update_settings_stops_at_first_failure no_strings SettingsManager.init _
           [("beginning_cash", PyInt 5)] _ "ending_inventory_pct" (PyStr "abc")
           (PyFloat 0.2)).
  - reflexivity.
  - reflexivity.
  - left. reflexivity.
Defined.

Lemma reset_to_defaults_undoes_updates_witness :
  reset_to_defaults
    (update_settings no_strings SettingsManager.init [("beginning_cash", PyInt 5)]).2
  = reset_to_defaults SettingsManager.init.
Proof.
  exact (proj1 (reset_to_defaults_undoes_updates no_strings SettingsManager.init
                  [("beginning_cash", PyInt 5)] "beginning_cash" (PyInt 5))).
Defined.

Lemma validate_values_None (items : list (string * pyval)) :
  validate_values items = None
  ↔ Forall (λ kv, is_number kv.2 = true ∧ below_zero kv.2 = false) items.
Proof.
  induction items as [|[key value] items IH]; cbn.
  - split; [by constructor | done].
  - destruct (is_number value) eqn:En; cbn.
    + destruct (below_zero value) eqn:Eb.
      * split; [done|]. intros [[_ H] _]%Forall_cons. cbn in H. congruence.
      * rewrite IH. split.
        -- intros H. by constructor.
        -- by intros [_ H]%Forall_cons.
    + split; [done|]. intros [[H _] _]%Forall_cons. cbn in H. congruence.
Qed.

Lemma validate_percentages_None (settings : gmap string pyval) (keys : list string) :
  validate_percentages settings keys = None
  ↔ Forall (λ k, ∃ v, settings !! k = Some v
                      ∧ is_number v = true ∧ above_one v = false) keys.
Proof.
  induction keys as [|k keys IH]; cbn.
  - split; [by constructor | done].
  - destruct (settings !! k) as [v|] eqn:Ev.
    + destruct (is_number v) eqn:En; cbn.
      * destruct (above_one v) eqn:Ea.
        -- split; [done|]. intros [(v' & Hv' & _ & Ha) _]%Forall_cons. congruence.
        -- rewrite IH. split.
           ++ intros H. constructor; [|done]. by exists v.
           ++ by intros [_ H]%Forall_cons.
      * split; [done|]. intros [(v' & Hv' & Hn & _) _]%Forall_cons. congruence.
    + split; [done|]. intros [(v' & Hv' & _) _]%Forall_cons. congruence.
Qed.

(** X14.  [validate_settings] returns [True] exactly when every value of
    the settings is a number that is not below zero and each of the six
    percentage settings is present and not above one, in whatever order
    the dict holds its entries.  (A NaN is neither below zero nor above
    one.) *)
Theorem validate_settings_passes_iff (items : list (string * pyval))
    (self : SettingsManager.t) :
  dict_items items (SettingsManager.settings self) →
  (validate_settings items self).1 = true
  ↔ (∀ k v, SettingsManager.settings self !! k = Some v →
       is_number v = true ∧ below_zero v = false)
    ∧ (∀ k, k ∈ percentage_settings →
         ∃ v, SettingsManager.settings self !! k = Some v ∧ above_one v = false).
Proof.
  intros [Hnd Hmap]. unfold validate_settings.
  assert (Hvals : validate_values items = None
                  ↔ ∀ k v, SettingsManager.settings self !! k = Some v →
                      is_number v = true ∧ below_zero v = false).
  { rewrite validate_values_None, Forall_forall. split.
    - intros H k v Hkv. rewrite <- Hmap in Hkv.
      apply elem_of_list_to_map in Hkv; [|done]. by apply (H (k, v)).
    - intros H [k v] Hin. apply (H k). rewrite <- Hmap.
      by apply elem_of_list_to_map. }
  split.
  - destruct (validate_values items) as [msg|] eqn:Ev; [done|].
    destruct (validate_percentages _ _) as [msg|] eqn:Ep; [done|]. intros _.
    split; [by apply Hvals|].
    apply validate_percentages_None in Ep. rewrite Forall_forall in Ep.
    intros k Hk. destruct (Ep k Hk) as (v & Hv & _ & Ha). by exists v.
  - intros [Hv Hp]. rewrite (proj2 Hvals Hv).
    assert (validate_percentages (SettingsManager.settings self) percentage_settings = None)
      as ->; [|done].
    apply validate_percentages_None, Forall_forall. intros k Hk.
    destruct (Hp k Hk) as (v & Hv' & Ha). exists v.
    split; [done|]. split; [|done]. by destruct (Hv k v Hv').
Qed.

Lemma validate_settings_passes_iff_witness :
  (validate_settings default_items SettingsManager.init).1 = true
  ↔ (∀ k v, SettingsManager.settings SettingsManager.init !! k = Some v →
       is_number v = true ∧ below_zero v = false)
    ∧ (∀ k, k ∈ percentage_settings →
         ∃ v, SettingsManager.settings SettingsManager.init !! k = Some v
              ∧ above_one v = false).
Proof.
  apply (validate_settings_passes_iff default_items SettingsManager.init).
  split.
  - apply (bool_decide_unpack _). vm_compute. reflexivity.
  - reflexivity.
Defined.

(** * The two purchases schedules *)

Lemma for_range_from_inv {T : Type} (body : nat → T → result T)
    (P : nat → T → Prop) (n : nat) :
  ∀ (i : nat) (t : T),
    P i t →
    (∀ k t, i ≤ k < i + n → P k t → ∃ t', body k t = Ok t' ∧ P (S k) t') →
    ∃ t', for_range_from body i n t = Ok t' ∧ P (i + n) t'.
Proof.
  induction n as [|n IH]; intros i t Hinit Hstep; simpl.
  - exists t. by rewrite Nat.add_0_r.
  - destruct (Hstep i t) as (t1 & Hbody & HP); [lia | done |].
    rewrite Hbody, bind_Ok.
    destruct (IH (S i) t1 HP) as (t2 & Hrun & HP2).
    + intros k u Hk Hu. apply Hstep; [lia | done].
    + exists t2. split; [done|]. by replace (i + S n) with (S i + n) by lia.
Qed.

Lemma legacy_purchases_step_inv (sales_units : list float) (pct : float) (k : nat)
    (st : list float * list float * list float) :
  k < length sales_units →
  legacy_inv sales_units pct k st →
  ∃ st', MasterBudgetGui.purchases_step sales_units pct k st = Ok st'
         ∧ legacy_inv sales_units pct (S k) st'.
Proof.
  intros Hk. destruct st as [[pu dei] bi]. intros (Hpu & Hdei & Hbi & Hb0 & Hrows).
  unfold MasterBudgetGui.purchases_step.
  destruct (lookup_lt_is_Some_2 sales_units k) as [cur Hcur]; [done|].
  assert (Hnext : ∃ nxt,
            (if k + 1 <? length sales_units then iloc sales_units (k + 1)
             else iloc sales_units k) = Ok nxt
            ∧ legacy_desired sales_units pct k = (nxt * pct)%float).
  { unfold legacy_desired. destruct (Nat.ltb_spec (k + 1) (length sales_units)).
    - destruct (lookup_lt_is_Some_2 sales_units (k + 1)) as [x Hx]; [done|].
      exists x. rewrite Hx. split; [by apply iloc_Some | done].
    - exists cur. rewrite Hcur. split; [by apply iloc_Some | done]. }
  destruct Hnext as (nxt & -> & Hd). rewrite bind_Ok.
  assert (Hbegin : (if k =? 0 then Ok 0%float
                    else iloc (dei ++ [(nxt * pct)%float]) (k - 1))
                   = Ok (legacy_begin sales_units pct k)).
  { destruct k as [|k']; [done|]. replace (S k' =? 0) with false by done.
    replace (S k' - 1) with k' by lia.
    destruct (lookup_lt_is_Some_2 sales_units k') as [p Hp]; [lia|].
    destruct (Hrows k' p) as (Hdp & _); [lia | done |].
    apply iloc_Some. by apply lookup_app_l_Some. }
  rewrite Hbegin, bind_Ok.
  rewrite (iloc_Some _ _ _ Hcur), bind_Ok.
  eexists. split; [reflexivity|]. unfold legacy_inv.
  split; [rewrite length_app; cbn; lia|].
  split; [rewrite length_app; cbn; lia|].
  split; [rewrite length_app; cbn; lia|].
  split; [by apply lookup_app_l_Some|].
  intros j c Hj Hc. destruct (decide (j = k)) as [->|Hne].
  - assert (c = cur) as -> by congruence.
    split; [|split].
    + rewrite Hd. by apply list_lookup_middle.
    + rewrite Hd. by apply list_lookup_middle.
    + by apply list_lookup_middle.
  - destruct (Hrows j c) as (H1 & H2 & H3); [lia | done |].
    split; [|split]; by apply lookup_app_l_Some.
Qed.

Lemma removelast_lookup {T : Type} (l : list T) (i : nat) :
  S i < length l → removelast l !! i = l !! i.
Proof.
  intros Hi. rewrite removelast_firstn_len.
  apply lookup_take_lt. lia.
Qed.

(** The run of [master_budget_gui.compute_purchases], row by row. *)
Lemma legacy_compute_purchases_rows
    (parse_float : string → option float) (policies : gmap string pyval)
    (v : pyval) (pct : float) (sales_units : list float) :
  policies !! "Ending-inventory % of next quarter" = Some v →
  SettingsManager.py_float parse_float v = Ok pct →
  ∃ purchases_units desired_ending_inv beginning_inventory,
    MasterBudgetGui.compute_purchases parse_float policies sales_units
    = Ok (purchases_units, desired_ending_inv, beginning_inventory)
    ∧ length purchases_units = length sales_units
    ∧ length desired_ending_inv = length sales_units
    ∧ length beginning_inventory = length sales_units
    ∧ ∀ i cur, sales_units !! i = Some cur →
        desired_ending_inv !! i = Some (legacy_desired sales_units pct i)
        ∧ purchases_units !! i
          = Some (cur + legacy_desired sales_units pct i
                  - legacy_begin sales_units pct i)%float
        ∧ beginning_inventory !! i
          = Some (match i with
                  | 0 => 0%float
                  | S i' => legacy_begin sales_units pct i'
                  end).
Proof.
  intros Hv Hpct. unfold MasterBudgetGui.compute_purchases, MasterBudgetGui.policy.
  rewrite Hv, Hpct, bind_Ok.
  destruct (for_range_from_inv (MasterBudgetGui.purchases_step sales_units pct)
              (legacy_inv sales_units pct) (length sales_units) 0 ([], [], [0%float]))
    as ([[pu dei] bi] & Hrun & Hpu & Hdei & Hbi & Hb0 & Hrows).
  - repeat split; try done. all: intros; lia.
  - intros k st Hk Hinv. apply legacy_purchases_step_inv; [lia | done].
  - rewrite Hrun, bind_Ok. cbn [Nat.add] in *.
    do 3 eexists. split; [reflexivity|]. split; [done|]. split; [done|].
    split.
    { rewrite removelast_firstn_len, length_take. lia. }
    intros i cur Hi. pose proof (lookup_lt_Some _ _ _ Hi) as Hlt.
    destruct (Hrows i cur Hlt Hi) as (H1 & H2 & H3).
    split; [done|]. split; [done|].
    rewrite removelast_lookup by lia.
    destruct i as [|i']; [done|].
    destruct (lookup_lt_is_Some_2 sales_units i') as [p Hp]; [lia|].
    by destruct (Hrows i' p) as (_ & _ & ?); [lia | done |].
Qed.

(** X15.  [master_budget_gui.compute_purchases] returns three lists as long
    as the input.  Every quarter gets a desired ending inventory: the next
    quarter's units times the ratio, and for the last quarter its own
    units times the ratio.  The purchases of a quarter are its units plus
    its desired ending inventory less the one of the quarter before
    (nothing for the first).  The returned beginning inventory lags the
    one the purchases were computed with by a quarter: its first two
    entries are 0 and entry [i + 2] is the desired ending inventory of
    quarter [i]. *)
Theorem legacy_compute_purchases_schedule
    (parse_float : string → option float) (policies : gmap string pyval)
    (v : pyval) (pct : float) (sales_units : list float) :
  policies !! "Ending-inventory % of next quarter" = Some v →
  SettingsManager.py_float parse_float v = Ok pct →
  ∃ purchases_units desired_ending_inv beginning_inventory,
    MasterBudgetGui.compute_purchases parse_float policies sales_units
    = Ok (purchases_units, desired_ending_inv, beginning_inventory)
    ∧ length purchases_units = length sales_units
    ∧ length desired_ending_inv = length sales_units
    ∧ length beginning_inventory = length sales_units
    ∧ (∀ i nxt, sales_units !! S i = Some nxt →
         desired_ending_inv !! i = Some (nxt * pct)%float)
    ∧ (∀ lst, sales_units !! (length sales_units - 1) = Some lst →
         desired_ending_inv !! (length sales_units - 1) = Some (lst * pct)%float)
    ∧ (∀ cur d, sales_units !! 0 = Some cur → desired_ending_inv !! 0 = Some d →
         purchases_units !! 0 = Some (cur + d - 0)%float)
    ∧ (∀ i cur d d', sales_units !! S i = Some cur →
         desired_ending_inv !! S i = Some d → desired_ending_inv !! i = Some d' →
         purchases_units !! S i = Some (cur + d - d')%float)
    ∧ (∀ i, i < length sales_units →
         beginning_inventory !! i
         = match i with
           | 0 | 1 => Some 0%float
           | S (S i') => desired_ending_inv !! i'
           end).
Proof.
  intros Hv Hpct.
  destruct (legacy_compute_purchases_rows parse_float policies v pct sales_units Hv Hpct)
    as (pu & dei & bi & Hrun & Hpu & Hdei & Hbi & Hrows).
  exists pu, dei, bi. do 4 (split; [done|]).
  split; [|split; [|split; [|split]]].
  - intros i nxt Hn. pose proof (lookup_lt_Some _ _ _ Hn) as Hlt.
    destruct (lookup_lt_is_Some_2 sales_units i) as [cur Hcur]; [lia|].
    destruct (Hrows i cur Hcur) as (-> & _). unfold legacy_desired.
    destruct (Nat.ltb_spec (i + 1) (length sales_units)); [|lia].
    by rewrite Nat.add_1_r, Hn.
  - intros lst Hl. pose proof (lookup_lt_Some _ _ _ Hl) as Hlt.
    destruct (Hrows _ lst Hl) as (-> & _). unfold legacy_desired.
    destruct (Nat.ltb_spec (length sales_units - 1 + 1) (length sales_units)); [lia|].
    by rewrite Hl.
  - intros cur d Hc Hd. destruct (Hrows 0 cur Hc) as (Hd' & -> & _).
    cbn [legacy_begin]. congruence.
  - intros i cur d d' Hc Hd Hd'. pose proof (lookup_lt_Some _ _ _ Hc) as Hlt.
    destruct (Hrows (S i) cur Hc) as (Hd1 & -> & _).
    destruct (lookup_lt_is_Some_2 sales_units i) as [p Hp]; [lia|].
    destruct (Hrows i p Hp) as (Hd2 & _).
    cbn [legacy_begin]. congruence.
  - intros i Hi. destruct (lookup_lt_is_Some_2 sales_units i) as [cur Hcur]; [done|].
    destruct (Hrows i cur Hcur) as (_ & _ & ->).
    destruct i as [|[|i']]; [done | done |]. cbn [legacy_begin].
    destruct (lookup_lt_is_Some_2 sales_units i') as [p Hp]; [lia|].
    by destruct (Hrows i' p Hp) as (-> & _).
Qed.

Lemma legacy_compute_purchases_schedule_witness :
  ∃ purchases_units desired_ending_inv beginning_inventory,
    MasterBudgetGui.compute_purchases no_strings
      {[ "Ending-inventory % of next quarter" := PyFloat 0.2 ]}
      [10000; 12000; 15000; 13000]%float
    = Ok (purchases_units, desired_ending_inv, beginning_inventory)
    ∧ desired_ending_inv !! 3 = Some (13000 * 0.2)%float
    ∧ beginning_inventory !! 2 = desired_ending_inv !! 0.
Proof.
  destruct (legacy_compute_purchases_schedule no_strings
              {[ "Ending-inventory % of next quarter" := PyFloat 0.2 ]}
              (PyFloat 0.2) 0.2%float [10000; 12000; 15000; 13000]%float)
    as (pu & dei & bi & Hrun & _ & _ & _ & _ & Hlast & _ & _ & Hlag).
  - reflexivity.
  - reflexivity.
  - exists pu, dei, bi. split; [exact Hrun|]. split.
    + apply (Hlast 13000%float). reflexivity.
    + apply (Hlag 2). cbn. lia.
Defined.

(** X16.  On the same units and the same ratio, the purchases schedule of
    [BudgetCalculator] and the one of [master_budget_gui.py] agree, in
    binary64, on the desired ending inventory and on the purchased units
    of every quarter that has a next quarter.  They differ on the last
    quarter, where [BudgetCalculator] leaves the desired ending inventory
    at [0.0] and [master_budget_gui.py] sets it to the quarter's own units
    times the ratio. *)
Theorem purchases_schedules_compare
    (parse_float : string → option float) (policies : gmap string pyval)
    (v : pyval) (settings : gmap string float) (pct : float)
    (sales_data : list (sales_row (num := float))) :
  policies !! "Ending-inventory % of next quarter" = Some v →
  SettingsManager.py_float parse_float v = Ok pct →
  settings !! "ending_inventory_pct" = Some pct →
  ∃ out purchases_units' desired_ending_inv beginning_inventory',
    compute_purchases settings (Some sales_data) = Ok out
    ∧ MasterBudgetGui.compute_purchases parse_float policies
        ((λ s, sales_units (sr_period s)) <$> sales_data)
      = Ok (purchases_units', desired_ending_inv, beginning_inventory')
    ∧ (∀ i r, S i < length sales_data → out !! i = Some r →
         desired_ending_inv !! i = Some (desired_ending_inventory r)
         ∧ purchases_units' !! i = Some (purchases_units r))
    ∧ (∀ r, out !! (length sales_data - 1) = Some r →
         desired_ending_inventory r = 0%float
         ∧ desired_ending_inv !! (length sales_data - 1)
           = Some (sales_units (sr_period (pr_sales r)) * pct)%float).
Proof.
  intros Hv Hpct Hset.
  destruct (compute_purchases_inv settings pct Hset sales_data)
    as (out & Hrun & Hlen & Hout).
  set (units := (λ s : sales_row, sales_units (sr_period s)) <$> sales_data).
  destruct (legacy_compute_purchases_rows parse_float policies v pct units Hv Hpct)
    as (pu & dei & bi & Hrun' & Hpu & Hdei & Hbi & Hrows).
  assert (Hul : length units = length sales_data) by apply length_fmap.
  assert (Hdes : ∀ j, S j < length sales_data →
            legacy_desired units pct j = desired_at pct sales_data j).
  { intros j Hj. unfold legacy_desired, desired_at.
    destruct (Nat.ltb_spec (j + 1) (length units)); [|lia].
    rewrite Nat.add_1_r. unfold units. rewrite list_lookup_fmap.
    by destruct (sales_data !! S j). }
  exists out, pu, dei, bi. split; [done|]. split; [done|]. split.
  - intros i r Hi Hr.
    destruct (lookup_lt_is_Some_2 sales_data i) as [s Hs]; [lia|].
    rewrite (Hout _ _ Hs) in Hr.
    destruct (Nat.ltb_spec i (length sales_data)); [|lia].
    injection Hr as <-.
    destruct (Hrows i (sales_units (sr_period s))) as (-> & -> & _).
    { unfold units. by rewrite list_lookup_fmap, Hs. }
    rewrite Hdes by done. split; [done|]. cbn.
    destruct i as [|i']; [done|]. cbn. by rewrite Hdes by lia.
  - intros r Hr. pose proof (lookup_lt_Some _ _ _ Hr) as Hlt.
    destruct (lookup_lt_is_Some_2 sales_data (length sales_data - 1)) as [s Hs]; [lia|].
    rewrite (Hout _ _ Hs) in Hr.
    destruct (Nat.ltb_spec (length sales_data - 1) (length sales_data)); [|lia].
    injection Hr as <-. cbn. split.
    + unfold desired_at. by rewrite (lookup_ge_None_2 sales_data) by lia.
    + destruct (Hrows (length sales_data - 1) (sales_units (sr_period s))) as (-> & _).
      { unfold units. by rewrite list_lookup_fmap, Hs. }
      unfold legacy_desired.
      destruct (Nat.ltb_spec (length sales_data - 1 + 1) (length units)); [lia|].
      unfold units. by rewrite list_lookup_fmap, Hs.
Qed.

Lemma purchases_schedules_compare_witness :
  ∃ out purchases_units' desired_ending_inv beginning_inventory',
    compute_purchases default_policy (Some sample_sales) = Ok out
    ∧ MasterBudgetGui.compute_purchases no_strings
        {[ "Ending-inventory % of next quarter" := PyFloat 0.2 ]}
        ((λ s, sales_units (sr_period s)) <$> sample_sales)
      = Ok (purchases_units', desired_ending_inv, beginning_inventory')
    ∧ (∀ i r, S i < length sample_sales → out !! i = Some r →
         desired_ending_inv !! i = Some (desired_ending_inventory r)
         ∧ purchases_units' !! i = Some (purchases_units r))
    ∧ (∀ r, out !! (length sample_sales - 1) = Some r →
         desired_ending_inventory r = 0%float
         ∧ desired_ending_inv !! (length sample_sales - 1)
           = Some (sales_units (sr_period (pr_sales r)) * 0.2)%float).
Proof.
  apply (purchases_schedules_compare no_strings
           {[ "Ending-inventory % of next quarter" := PyFloat 0.2 ]}
           (PyFloat 0.2) default_policy 0.2%float sample_sales).
  - reflexivity.
  - reflexivity.
  - reflexivity.
Defined.

(** * The cash run of [master_budget_gui.py] *)

Lemma for_range_from_add {T : Type} (body : nat → T → result T) (n m : nat) :
  ∀ (i : nat) (t : T),
    for_range_from body i (n + m) t
    = t' ← for_range_from body i n t; for_range_from body (i + n) m t'.
Proof.
  induction n as [|n IH]; intros i t; cbn [for_range_from Nat.add].
  - by rewrite bind_Ok, Nat.add_0_r.
  - destruct (body i t) as [t1|e]; [|done].
    rewrite !bind_Ok, IH. by replace (S i + n) with (i + S n) by lia.
Qed.

Lemma weighted_step_inv (xs : list float) (wc wn : float) (k : nat) (flow : list float) :
  k < length xs →
  weighted_inv xs wc wn k flow →
  ∃ flow', MasterBudgetGui.weighted_step xs wc wn k flow = Ok flow'
           ∧ weighted_inv xs wc wn (S k) flow'.
Proof.
  intros Hk [Hlen Hrows]. unfold MasterBudgetGui.weighted_step.
  destruct (lookup_lt_is_Some_2 xs k) as [x Hx]; [done|].
  rewrite (iloc_Some _ _ _ Hx), bind_Ok.
  assert (Hprev : (if 0 <? k then p ← iloc xs (k - 1); Ok (p * wn)%float
                   else Ok 0%float)
                  = Ok (match k with
                        | 0 => 0
                        | S k' => match xs !! k' with Some p => p * wn | None => 0 end
                        end)%float).
  { destruct k as [|k']; [done|]. replace (0 <? S k') with true by done.
    replace (S k' - 1) with k' by lia.
    destruct (lookup_lt_is_Some_2 xs k') as [p Hp]; [lia|].
    by rewrite (iloc_Some _ _ _ Hp), bind_Ok, Hp. }
  rewrite Hprev, bind_Ok. eexists. split; [reflexivity|]. split.
  - rewrite length_app. cbn. lia.
  - intros j y Hj Hy. destruct (decide (j = k)) as [->|Hne].
    + assert (y = x) as -> by congruence. by apply list_lookup_middle.
    + apply lookup_app_l_Some. apply Hrows; [lia | done].
Qed.

Lemma weighted_loop (xs : list float) (wc wn : float) :
  ∃ flow, for_range_from (MasterBudgetGui.weighted_step xs wc wn) 0 (length xs) []
          = Ok flow
    ∧ length flow = length xs
    ∧ ∀ j x, xs !! j = Some x → flow !! j = Some (weighted_at xs wc wn j x).
Proof.
  destruct (for_range_from_inv (MasterBudgetGui.weighted_step xs wc wn)
              (weighted_inv xs wc wn) (length xs) 0 [])
    as (flow & Hrun & Hlen & Hrows).
  - split; [done|]. intros; lia.
  - intros k t Hk Hinv. apply weighted_step_inv; [lia | done].
  - exists flow. split; [done|]. split; [done|].
    intros j x Hx. apply Hrows; [|done]. apply lookup_lt_Some in Hx. cbn. lia.
Qed.

Lemma legacy_cash_step_inv (inflow outflow : list float) (k : nat) (cash : list float) :
  k < length inflow → k < length outflow →
  legacy_cash_inv inflow outflow k cash →
  ∃ cash', MasterBudgetGui.cash_step inflow outflow k cash = Ok cash'
           ∧ legacy_cash_inv inflow outflow (S k) cash'.
Proof.
  intros Hin Hout [Hlen Hrows]. unfold MasterBudgetGui.cash_step.
  assert (Hbegin : (if k =? 0 then Ok 0%float else iloc cash (k - 1))
                   = Ok (match k with
                         | 0 => 0%float
                         | S k' => default 0%float (cash !! k')
                         end)).
  { destruct k as [|k']; [done|]. replace (S k' =? 0) with false by done.
    replace (S k' - 1) with k' by lia.
    destruct (lookup_lt_is_Some_2 cash k') as [c Hc]; [lia|].
    by rewrite (iloc_Some _ _ _ Hc), Hc. }
  rewrite Hbegin, bind_Ok.
  destruct (lookup_lt_is_Some_2 inflow k) as [a Ha]; [done|].
  destruct (lookup_lt_is_Some_2 outflow k) as [b Hb]; [done|].
  rewrite (iloc_Some _ _ _ Ha), bind_Ok, (iloc_Some _ _ _ Hb), bind_Ok.
  eexists. split; [reflexivity|]. split.
  - rewrite length_app. cbn. lia.
  - intros j a' b' Hj Ha' Hb'. destruct (decide (j = k)) as [->|Hne].
    + assert (a' = a) as -> by congruence. assert (b' = b) as -> by congruence.
      rewrite list_lookup_middle by done. do 3 f_equal.
      destruct k as [|k']; [done|]. by rewrite lookup_app_l by lia.
    + rewrite lookup_app_l by lia. rewrite (Hrows j a' b') by (done || lia).
      do 3 f_equal. destruct j as [|j']; [done|]. by rewrite lookup_app_l by lia.
Qed.

Lemma legacy_cash_loop (inflow outflow : list float) (n : nat) :
  n ≤ length inflow → n ≤ length outflow →
  ∃ cash, for_range_from (MasterBudgetGui.cash_step inflow outflow) 0 n [] = Ok cash
          ∧ legacy_cash_inv inflow outflow n cash.
Proof.
  intros Hin Hout.
  destruct (for_range_from_inv (MasterBudgetGui.cash_step inflow outflow)
              (legacy_cash_inv inflow outflow) n 0 []) as (cash & Hrun & Hinv).
  - split; [done|]. intros; lia.
  - intros k t Hk Hinv. apply legacy_cash_step_inv; [lia | lia | done].
  - by exists cash.
Qed.

(** X17.  [master_budget_gui.compute_cash_budget] starts from an opening
    cash of 0 whatever the policies are.  When [outflow] has an entry for
    every entry of [inflow] it returns one ending cash per entry of
    [inflow], each the one before (0 for the first) plus the inflow less
    the outflow; when [outflow] is shorter it raises [IndexError]. *)
Theorem legacy_compute_cash_budget_outcomes (inflow outflow : list float) :
  (length inflow ≤ length outflow →
   ∃ cash, MasterBudgetGui.compute_cash_budget inflow outflow = Ok cash
     ∧ length cash = length inflow
     ∧ (∀ a b, inflow !! 0 = Some a → outflow !! 0 = Some b →
          cash !! 0 = Some (0 + a - b)%float)
     ∧ (∀ i a b c, inflow !! S i = Some a → outflow !! S i = Some b →
          cash !! i = Some c → cash !! S i = Some (c + a - b)%float))
  ∧ (length outflow < length inflow →
     MasterBudgetGui.compute_cash_budget inflow outflow = Raise IndexError).
Proof.
  unfold MasterBudgetGui.compute_cash_budget. split.
  - intros Hle.
    destruct (legacy_cash_loop inflow outflow (length inflow)) as (cash & Hrun & Hlen & Hrows);
      [done | done |].
    exists cash. split; [done|]. split; [done|]. split.
    + intros a b Ha Hb. apply (Hrows 0 a b); [|done|done].
      apply lookup_lt_Some in Ha. lia.
    + intros i a b c Ha Hb Hc. rewrite (Hrows (S i) a b); [|by apply lookup_lt_Some in Ha|done|done].
      by rewrite Hc.
  - intros Hlt.
    replace (length inflow) with (length outflow + S (length inflow - S (length outflow)))
      by lia.
    rewrite for_range_from_add.
    destruct (legacy_cash_loop inflow outflow (length outflow)) as (cash & Hrun & Hlen & _);
      [lia | done |].
    rewrite Hrun, bind_Ok. cbn [for_range_from Nat.add].
    assert (Hstep : MasterBudgetGui.cash_step inflow outflow (length outflow) cash
                    = Raise IndexError); [|by rewrite Hstep].
    unfold MasterBudgetGui.cash_step.
    assert (Hbegin : ∃ c, (if length outflow =? 0 then Ok 0%float
                           else iloc cash (length outflow - 1)) = Ok c).
    { destruct (length outflow) as [|k'] eqn:Ek; [by eexists|].
      replace (S k' =? 0) with false by done.
      destruct (lookup_lt_is_Some_2 cash (S k' - 1)) as [c Hc]; [lia|].
      exists c. by apply iloc_Some. }
    destruct Hbegin as [c ->]. rewrite bind_Ok.
    destruct (lookup_lt_is_Some_2 inflow (length outflow)) as [a Ha]; [done|].
    rewrite (iloc_Some _ _ _ Ha), bind_Ok.
    unfold iloc at 1. by rewrite (lookup_ge_None_2 outflow (length outflow)).
Qed.

Lemma legacy_compute_cash_budget_outcomes_witness :
  (∃ cash, MasterBudgetGui.compute_cash_budget [5; 7]%float [1; 2; 3]%float = Ok cash
     ∧ length cash = 2
     ∧ cash !! 0 = Some (0 + 5 - 1)%float)
  ∧ MasterBudgetGui.compute_cash_budget [5; 7]%float [1]%float = Raise IndexError.
Proof.
  split.
  - destruct (proj1 (legacy_compute_cash_budget_outcomes [5; 7]%float [1; 2; 3]%float))
      as (cash & Hrun & Hlen & Hfirst & _).
    + cbn. lia.
    + exists cash. split; [exact Hrun|]. split; [exact Hlen|].
      by apply Hfirst.
  - apply (proj2 (legacy_compute_cash_budget_outcomes [5; 7]%float [1]%float)).
    cbn. lia.
Defined.

(** X18.  The two collections schedules, on the same revenues and the same
    two ratios, have the same length and agree in binary64 entry by entry
    up to the sign of a zero: [BudgetCalculator] adds each share to a cell
    that starts at [0.0], [master_budget_gui.py] adds the two shares to
    each other, so the first holds [+0.0] where the second holds [-0.0]
    when both shares are [-0.0]; in the first row the two are the same
    float. *)
Theorem collections_schedules_compare
    (parse_float : string → option float) (policies : gmap string pyval)
    (settings : gmap string float) (cc cn : float)
    (sales_data : list (sales_row (num := float))) :
  MasterBudgetGui.policy parse_float policies "Sales-collection % current quarter" = Ok cc →
  MasterBudgetGui.policy parse_float policies "Sales-collection % next quarter" = Ok cn →
  settings !! "sales_collection_current" = Some cc →
  settings !! "sales_collection_next" = Some cn →
  ∃ out inflow,
    compute_collections settings (Some sales_data) = Ok out
    ∧ MasterBudgetGui.compute_collections parse_float policies
        (sales_revenue <$> sales_data) = Ok inflow
    ∧ length inflow = length out
    ∧ (∀ i r, out !! i = Some r →
         ∃ x, inflow !! i = Some x ∧ same_but_zero_sign (collections r) x)
    ∧ (∀ r, out !! 0 = Some r → inflow !! 0 = Some (collections r)).
Proof.
  intros Hpc Hpn Hcc Hcn.
  destruct (compute_collections_inv settings cc cn Hcc Hcn sales_data)
    as (out & Hrun & Hlen & Hout).
  unfold MasterBudgetGui.compute_collections. rewrite Hpc, bind_Ok, Hpn, bind_Ok.
  destruct (weighted_loop (sales_revenue <$> sales_data) cc cn)
    as (inflow & Hrun' & Hlen' & Hin).
  exists out, inflow. split; [done|]. split; [done|].
  rewrite length_fmap in Hlen'. split; [congruence|].
  assert (Hrow : ∀ i r, out !! i = Some r →
            ∃ s, sales_data !! i = Some s
              ∧ collections r = two_tap sales_revenue cc cn s (prev_row sales_data i)
              ∧ inflow !! i
                = Some (weighted_at (sales_revenue <$> sales_data) cc cn i
                          (sales_revenue s))).
  { intros i r Hr. pose proof (lookup_lt_Some _ _ _ Hr) as Hlt.
    destruct (lookup_lt_is_Some_2 sales_data i) as [s Hs]; [lia|].
    exists s. split; [done|]. rewrite (Hout _ _ Hs) in Hr.
    destruct (Nat.ltb_spec i (length sales_data)); [|lia].
    injection Hr as <-. split; [done|].
    apply Hin. by rewrite list_lookup_fmap, Hs. }
  split.
  - intros i r Hr. destruct (Hrow i r Hr) as (s & Hs & -> & Hx).
    eexists. split; [exact Hx|]. unfold two_tap, weighted_at.
    destruct i as [|i']; cbn [prev_row].
    + left. apply float_add_comm.
    + rewrite list_lookup_fmap.
      destruct (lookup_lt_is_Some_2 sales_data i') as [p Hp];
        [apply lookup_lt_Some in Hs; lia|].
      rewrite Hp. cbn. apply float_accumulate.
  - intros r Hr. destruct (Hrow 0 r Hr) as (s & Hs & -> & ->).
    f_equal. unfold two_tap, weighted_at. cbn. symmetry. apply float_add_comm.
Qed.

Lemma collections_schedules_compare_witness :
  ∃ out inflow,
    compute_collections default_policy (Some sample_sales) = Ok out
    ∧ MasterBudgetGui.compute_collections no_strings
        {[ "Sales-collection % current quarter" := PyFloat 0.6;
           "Sales-collection % next quarter" := PyFloat 0.4 ]}
        (sales_revenue <$> sample_sales) = Ok inflow
    ∧ length inflow = length out
    ∧ (∀ i r, out !! i = Some r →
         ∃ x, inflow !! i = Some x ∧ same_but_zero_sign (collections r) x)
    ∧ (∀ r, out !! 0 = Some r → inflow !! 0 = Some (collections r)).
Proof.
  apply (collections_schedules_compare no_strings _ default_policy 0.6%float 0.4%float
           sample_sales).
  - reflexivity.
  - reflexivity.
  - reflexivity.
  - reflexivity.
Defined.

(** X19.  The cash run of [master_budget_gui.py] (sales, collections,
    purchases, disbursements, cash budget) completes on every table when
    its five policies are present and convertible: it never raises
    [IndexError], because the disbursements have one entry per quarter as
    the collections do.  The disbursements are shares of the purchased
    units (not of a cost), and the ending cash accumulates from 0. *)
Theorem gen_cash_completes
    (parse_float : string → option float) (policies : gmap string pyval)
    (cc cn pct pc pn : float) (inputs_df : list (period (num := float))) :
  MasterBudgetGui.policy parse_float policies "Sales-collection % current quarter" = Ok cc →
  MasterBudgetGui.policy parse_float policies "Sales-collection % next quarter" = Ok cn →
  MasterBudgetGui.policy parse_float policies "Ending-inventory % of next quarter" = Ok pct →
  MasterBudgetGui.policy parse_float policies "Purchases-payment % current quarter" = Ok pc →
  MasterBudgetGui.policy parse_float policies "Purchases-payment % next quarter" = Ok pn →
  ∃ run, MasterBudgetGui.gen_cash parse_float policies inputs_df = Ok run
    ∧ length (MasterBudgetGui.run_inflow run) = length inputs_df
    ∧ length (MasterBudgetGui.run_purchases_units run) = length inputs_df
    ∧ length (MasterBudgetGui.run_outflow run) = length inputs_df
    ∧ length (MasterBudgetGui.run_cash run) = length inputs_df
    ∧ (∀ i u, MasterBudgetGui.run_purchases_units run !! i = Some u →
         MasterBudgetGui.run_outflow run !! i
         = Some (weighted_at (MasterBudgetGui.run_purchases_units run) pc pn i u))
    ∧ (∀ a b, MasterBudgetGui.run_inflow run !! 0 = Some a →
         MasterBudgetGui.run_outflow run !! 0 = Some b →
         MasterBudgetGui.run_cash run !! 0 = Some (0 + a - b)%float)
    ∧ (∀ i a b c, MasterBudgetGui.run_inflow run !! S i = Some a →
         MasterBudgetGui.run_outflow run !! S i = Some b →
         MasterBudgetGui.run_cash run !! i = Some c →
         MasterBudgetGui.run_cash run !! S i = Some (c + a - b)%float).
Proof.
  intros Hcc Hcn Hpct Hpc Hpn. unfold MasterBudgetGui.gen_cash.
  unfold MasterBudgetGui.compute_collections. rewrite Hcc, bind_Ok, Hcn, bind_Ok.
  set (revs := sales_revenue <$> MasterBudgetGui.compute_sales inputs_df).
  destruct (weighted_loop revs cc cn) as (inflow & -> & Hli & _). rewrite bind_Ok.
  assert (Hrevs : length revs = length inputs_df).
  { unfold revs, MasterBudgetGui.compute_sales. by rewrite !length_fmap. }
  unfold MasterBudgetGui.policy in Hpct.
  destruct (policies !! "Ending-inventory % of next quarter") as [v|] eqn:Ev; [|done].
  destruct (legacy_compute_purchases_rows parse_float policies v pct
              (sales_units <$> inputs_df) Ev Hpct)
    as (pu & dei & bi & -> & Hpu & _). rewrite bind_Ok.
  rewrite length_fmap in Hpu.
  unfold MasterBudgetGui.compute_disbursements. rewrite Hpc, bind_Ok, Hpn, bind_Ok.
  destruct (weighted_loop pu pc pn) as (outflow & -> & Hlo & Hout). rewrite bind_Ok.
  fold (MasterBudgetGui.compute_cash_budget inflow outflow).
  unfold MasterBudgetGui.compute_cash_budget.
  destruct (legacy_cash_loop inflow outflow (length inflow)) as (cash & -> & Hlc & Hrows);
    [lia | lia |].
  rewrite bind_Ok. eexists. split; [reflexivity|]. cbn.
  split; [lia|]. split; [done|]. split; [lia|]. split; [lia|].
  split; [done|]. split.
  - intros a b Ha Hb. apply (Hrows 0 a b); [|done|done].
    apply lookup_lt_Some in Ha. lia.
  - intros i a b c Ha Hb Hc.
    rewrite (Hrows (S i) a b); [|by apply lookup_lt_Some in Ha|done|done].
    by rewrite Hc.
Qed.

Lemma gen_cash_completes_witness :
  ∃ run, MasterBudgetGui.gen_cash no_strings
           {[ "Sales-collection % current quarter" := PyFloat 0.7;
              "Sales-collection % next quarter" := PyFloat 0.3;
              "Purchases-payment % current quarter" := PyFloat 0.6;
              "Purchases-payment % next quarter" := PyFloat 0.4;
              "Ending-inventory % of next quarter" := PyFloat 0.2 ]}
           sample_data = Ok run
    ∧ length (MasterBudgetGui.run_cash run) = length sample_data.
Proof.
  destruct (gen_cash_completes no_strings
              {[ "Sales-collection % current quarter" := PyFloat 0.7;
                 "Sales-collection % next quarter" := PyFloat 0.3;
                 "Purchases-payment % current quarter" := PyFloat 0.6;
                 "Purchases-payment % next quarter" := PyFloat 0.4;
                 "Ending-inventory % of next quarter" := PyFloat 0.2 ]}
              0.7%float 0.3%float 0.2%float 0.6%float 0.4%float sample_data)
    as (run & Hrun & _ & _ & _ & Hlen & _).
  - reflexivity.
  - reflexivity.
  - reflexivity.
  - reflexivity.
  - reflexivity.
  - exists run. split; [exact Hrun | exact Hlen].
Defined.

(** * Saving the settings from the window *)

Section SaveSettingsFacts.
Variable parse_float : string → option float.

Lemma read_setting_vars_Ok (setting_vars : list (string * string)) :
  Forall (λ kv, is_Some (parse_float kv.2)) setting_vars →
  ∃ new_settings,
    read_setting_vars parse_float setting_vars = Ok new_settings
    ∧ new_settings.*1 = setting_vars.*1
    ∧ Forall (λ kv, ∃ f, kv.2 = PyFloat f) new_settings
    ∧ ∀ k text f, (k, text) ∈ setting_vars → parse_float text = Some f →
        (k, PyFloat f) ∈ new_settings.
Proof.
  induction setting_vars as [|[k text] rest IH]; intros Hall.
  { exists []. repeat split; try done. intros k text f Hin. by apply elem_of_nil in Hin. }
  apply Forall_cons in Hall as [[f Hf] Hall]. cbn in Hf.
  destruct (IH Hall) as (items & Hrun & Hkeys & Hfl & Hin).
  exists ((k, PyFloat f) :: items). cbn [read_setting_vars SettingsManager.py_float].
  rewrite Hf, bind_Ok, Hrun, bind_Ok. split; [done|]. split; [by cbn; f_equal|].
  split; [constructor; [by eexists | done]|].
  intros k' text' f' Hin' Hf'. apply elem_of_cons in Hin' as [Heq|Hin'].
  - injection Heq as -> ->. apply elem_of_cons. left. congruence.
  - apply elem_of_cons. right. by apply (Hin k' text' f').
Qed.

Lemma read_setting_vars_invalid (setting_vars : list (string * string)) :
  Exists (λ kv, parse_float kv.2 = None) setting_vars →
  read_setting_vars parse_float setting_vars = Raise ValueError.
Proof.
  induction setting_vars as [|[k text] rest IH]; intros Hex.
  { by apply Exists_nil in Hex. }
  cbn [read_setting_vars SettingsManager.py_float].
  destruct (parse_float text) as [f|] eqn:Ef; [|done].
  rewrite bind_Ok, IH; [done|].
  apply Exists_cons in Hex as [Hbad|Hex]; [|done]. cbn in Hbad. congruence.
Qed.

(** X21.  [MainWindow.save_settings] is all-or-nothing where
    [update_settings] is not.  When every entry text converts, it shows
    that the settings were saved, every entry with a key of the default
    set holds the float of its text, every other setting is as before,
    and the new calculator is built with exactly the manager's settings;
    the branch for an update that returns [False] is never taken.  When
    some entry text does not convert, it shows the error and neither the
    manager nor the calculator changes, whichever entry is at fault. *)
Theorem save_settings_all_or_nothing (w : settings_ui)
    (setting_vars : list (string * string)) :
  NoDup setting_vars.*1 →
  (Forall (λ kv, is_Some (parse_float kv.2)) setting_vars →
   ∃ manager,
     save_settings parse_float w setting_vars
     = (Ok SettingsSaved,
        {| ui_manager := manager;
           ui_calculator := SettingsManager.settings manager |})
     ∧ SettingsManager.default_settings manager
       = SettingsManager.default_settings (ui_manager w)
     ∧ (∀ k text f, (k, text) ∈ setting_vars →
          is_Some (SettingsManager.default_settings (ui_manager w) !! k) →
          parse_float text = Some f →
          SettingsManager.get_setting manager k = PyFloat f)
     ∧ (∀ k, k ∉ setting_vars.*1
             ∨ SettingsManager.default_settings (ui_manager w) !! k = None →
          SettingsManager.settings manager !! k
          = SettingsManager.settings (ui_manager w) !! k))
  ∧ (Exists (λ kv, parse_float kv.2 = None) setting_vars →
     save_settings parse_float w setting_vars = (Ok InvalidSettings, w)).
Proof.
  intros Hnd. split.
  - intros Hall.
    destruct (read_setting_vars_Ok setting_vars Hall) as (items & Hread & Hkeys & Hfl & Hin).
    destruct (update_settings_convertible parse_float (ui_manager w) items)
      as (manager & Hrun & Hset & Hkeep).
    + by rewrite Hkeys.
    + eapply Forall_impl; [exact Hfl|]. intros [k v] [f Hf] _. cbn in *. subst v.
      by exists f.
    + exists manager. unfold save_settings. rewrite Hread, Hrun.
      split; [done|]. split; [by apply (update_settings_default_settings _ _ _ _ _ Hrun)|].
      split.
      * intros k text f Hk Hknown Hf. unfold SettingsManager.get_setting.
        by rewrite (Hset k (PyFloat f) f (Hin _ _ _ Hk Hf) Hknown eq_refl).
      * intros k Hk. apply Hkeep. by rewrite Hkeys.
  - intros Hex. unfold save_settings.
    by rewrite (read_setting_vars_invalid _ Hex).
Qed.

End SaveSettingsFacts.

Lemma save_settings_all_or_nothing_witness :
  (∃ manager,
     save_settings one_literal
       {| ui_manager := SettingsManager.init;
          ui_calculator := SettingsManager.DEFAULTS |}
       [("ending_inventory_pct", "0.25")]
     = (Ok SettingsSaved,
        {| ui_manager := manager;
           ui_calculator := SettingsManager.settings manager |})
     ∧ SettingsManager.get_setting manager "ending_inventory_pct" = PyFloat 0.25)
  ∧ save_settings one_literal
      {| ui_manager := SettingsManager.init;
         ui_calculator := SettingsManager.DEFAULTS |}
      [("ending_inventory_pct", "0.25"); ("beginning_cash", "a lot")]
    = (Ok InvalidSettings,
       {| ui_manager := SettingsManager.init;
          ui_calculator := SettingsManager.DEFAULTS |}).
Proof.
  split.
  - destruct (proj1 (save_settings_all_or_nothing one_literal
                       {| ui_manager := SettingsManager.init;
                          ui_calculator := SettingsManager.DEFAULTS |}
                       [("ending_inventory_pct", "0.25")]
                       ltac:(apply (bool_decide_unpack _); vm_compute; reflexivity)))
      as (manager & Hrun & _ & Hget & _).
    + constructor; [|constructor]. by eexists.
    + exists manager. split; [exact Hrun|].
      apply (Hget "ending_inventory_pct" "0.25" 0.25%float).
      * apply elem_of_cons. by left.
      * by eexists.
      * reflexivity.
  - apply (proj2 (save_settings_all_or_nothing one_literal
                    {| ui_manager := SettingsManager.init;
                       ui_calculator := SettingsManager.DEFAULTS |}
                    [("ending_inventory_pct", "0.25"); ("beginning_cash", "a lot")]
                    ltac:(apply (bool_decide_unpack _); vm_compute; reflexivity))).
    apply Exists_cons. right. apply Exists_cons. left. reflexivity.
Defined.
